(** * Azure File Inventory Scanner: shallow embedding of the durable
    fan-out/fan-in core and of its leaf helpers.

    Sources embedded here:
    - [shared/models.py]                       (module [Models])
    - [activity_scan_directory/__init__.py]    (module [ActivityScanDirectory])
    - [orchestrator_file_share/__init__.py]    (module [OrchestratorFileShare])
    - [orchestrator_main/__init__.py]          (module [OrchestratorMain])

    Conventions.  Python [int] is [Z] (or [nat] for a counter that only
    counts up); [str] is [string], a character outside ASCII being
    written as its UTF-8 bytes; the library functions on strings
    ([str.lower], [fnmatch], [splitext], ...) are parameters, whose
    results are taken as given; a Python [set] is a [gset]; a [list] is a
    [list]; a falsy activity result ([None]) is [None].  The answers to
    the orchestrator's [yield]s are an explicit record of activity
    results, and the calls made through the durable context are logged in
    the state, so that what was dispatched and what was delivered can be
    stated.  Logging, the custom status of the share orchestrator and the
    floating-point fields are left out. *)

From Stdlib Require Import ZArith Ascii String Lia.
From stdpp Require Import base tactics option list gmap sets strings.

#[local] Set Warnings "-clear-no-such-hyp".

Local Open Scope string_scope.
Local Open Scope nat_scope.
Local Open Scope list_scope.
Local Open Scope stdpp_scope.

(** ** Python helpers *)

(** [x in S] for a set literal [S] *)
Definition py_in (x : string) (S : gset string) : bool := bool_decide (x ∈ S).

(** Clamp of a slice bound [n] against a list of length [len], as Python
    does for [l[:n]] and [l[n:]]: a negative bound counts from the end. *)
Definition slice_bound (n : Z) (len : nat) : nat :=
  if (n <? 0)%Z then Z.to_nat (Z.max 0 (Z.of_nat len + n))
  else Z.to_nat (Z.min n (Z.of_nat len)).

(** [l[:n]] *)
Definition slice_to {A} (l : list A) (n : Z) : list A :=
  firstn (slice_bound n (length l)) l.

(** [l[n:]] *)
Definition slice_from {A} (l : list A) (n : Z) : list A :=
  skipn (slice_bound n (length l)) l.

(** [sum(...)] over integers *)
Definition py_sum (l : list Z) : Z := fold_right Z.add 0%Z l.

(** ** shared/models.py *)

Module Models.

Definition document_exts : gset string :=
  {[ ".doc"; ".docx"; ".pdf"; ".txt"; ".rtf"; ".odt"; ".xls"; ".xlsx";
     ".ppt"; ".pptx"; ".csv" ]}.
Definition image_exts : gset string :=
  {[ ".jpg"; ".jpeg"; ".png"; ".gif"; ".bmp"; ".tiff"; ".svg"; ".ico";
     ".webp"; ".raw" ]}.
Definition video_exts : gset string :=
  {[ ".mp4"; ".avi"; ".mkv"; ".mov"; ".wmv"; ".flv"; ".webm"; ".m4v" ]}.
Definition audio_exts : gset string :=
  {[ ".mp3"; ".wav"; ".flac"; ".aac"; ".ogg"; ".wma"; ".m4a" ]}.
Definition archive_exts : gset string :=
  {[ ".zip"; ".rar"; ".7z"; ".tar"; ".gz"; ".bz2"; ".xz" ]}.
Definition code_exts : gset string :=
  {[ ".cs"; ".js"; ".ts"; ".py"; ".java"; ".cpp"; ".h"; ".ps1"; ".psm1";
     ".sh"; ".json"; ".xml"; ".yaml"; ".yml" ]}.
Definition executable_exts : gset string :=
  {[ ".exe"; ".dll"; ".msi"; ".bat"; ".cmd"; ".com" ]}.
Definition database_exts : gset string :=
  {[ ".sql"; ".mdf"; ".ldf"; ".bak"; ".db"; ".sqlite" ]}.
Definition log_exts : gset string :=
  {[ ".log"; ".evt"; ".evtx" ]}.
Definition temp_exts : gset string :=
  {[ ".tmp"; ".temp"; ".bak"; ".swp"; ".cache" ]}.

(** [lower] is [str.lower]. *)
Definition get_file_category (lower : string → string) (extension : string)
    : string :=
  let ext := lower extension in
  if py_in ext document_exts then "Documents"
  else if py_in ext image_exts then "Images"
  else if py_in ext video_exts then "Videos"
  else if py_in ext audio_exts then "Audio"
  else if py_in ext archive_exts then "Archives"
  else if py_in ext code_exts then "Code"
  else if py_in ext executable_exts then "Executables"
  else if py_in ext database_exts then "Databases"
  else if py_in ext log_exts then "Logs"
  else if py_in ext temp_exts then "Temporary"
  else "Other".

Definition get_age_bucket (age_in_days : Z) : string :=
  if (age_in_days <=? 7)%Z then "0-7 days"
  else if (age_in_days <=? 30)%Z then "8-30 days"
  else if (age_in_days <=? 90)%Z then "31-90 days"
  else if (age_in_days <=? 180)%Z then "91-180 days"
  else if (age_in_days <=? 365)%Z then "181-365 days"
  else if (age_in_days <=? 730)%Z then "1-2 years"
  else if (age_in_days <=? 1825)%Z then "2-5 years"
  else "5+ years".

Definition KB : Z := 1024.
Definition MB : Z := KB * 1024.
Definition GB : Z := MB * 1024.

Definition get_size_bucket (size_bytes : Z) : string :=
  if (size_bytes <? KB)%Z then "< 1 KB"
  else if (size_bytes <? MB)%Z then "1 KB - 1 MB"
  else if (size_bytes <? 10 * MB)%Z then "1 MB - 10 MB"
  else if (size_bytes <? 100 * MB)%Z then "10 MB - 100 MB"
  else if (size_bytes <? 500 * MB)%Z then "100 MB - 500 MB"
  else if (size_bytes <? GB)%Z then "500 MB - 1 GB"
  else if (size_bytes <? 5 * GB)%Z then "1 GB - 5 GB"
  else if (size_bytes <? 10 * GB)%Z then "5 GB - 10 GB"
  else "10+ GB".

End Models.

(** ** activity_scan_directory/__init__.py *)

Module ActivityScanDirectory.

(** The module carries its own copies of the three labelling helpers;
    [lower] is [str.lower]. *)
Definition get_file_category (lower : string → string) (extension : string)
    : string :=
  let ext := lower extension in
  if py_in ext {[ ".doc"; ".docx"; ".pdf"; ".txt"; ".rtf"; ".odt"; ".xls";
                  ".xlsx"; ".ppt"; ".pptx"; ".csv" ]} then "Documents"
  else if py_in ext {[ ".jpg"; ".jpeg"; ".png"; ".gif"; ".bmp"; ".tiff";
                       ".svg"; ".ico"; ".webp"; ".raw" ]} then "Images"
  else if py_in ext {[ ".mp4"; ".avi"; ".mkv"; ".mov"; ".wmv"; ".flv";
                       ".webm"; ".m4v" ]} then "Videos"
  else if py_in ext {[ ".mp3"; ".wav"; ".flac"; ".aac"; ".ogg"; ".wma";
                       ".m4a" ]} then "Audio"
  else if py_in ext {[ ".zip"; ".rar"; ".7z"; ".tar"; ".gz"; ".bz2";
                       ".xz" ]} then "Archives"
  else if py_in ext {[ ".cs"; ".js"; ".ts"; ".py"; ".java"; ".cpp"; ".h";
                       ".ps1"; ".psm1"; ".sh"; ".json"; ".xml"; ".yaml";
                       ".yml" ]} then "Code"
  else if py_in ext {[ ".exe"; ".dll"; ".msi"; ".bat"; ".cmd"; ".com" ]}
    then "Executables"
  else if py_in ext {[ ".sql"; ".mdf"; ".ldf"; ".bak"; ".db"; ".sqlite" ]}
    then "Databases"
  else if py_in ext {[ ".log"; ".evt"; ".evtx" ]} then "Logs"
  else if py_in ext {[ ".tmp"; ".temp"; ".bak"; ".swp"; ".cache" ]}
    then "Temporary"
  else "Other".

Definition get_age_bucket (age_in_days : Z) : string :=
  if (age_in_days <=? 7)%Z then "0-7 days"
  else if (age_in_days <=? 30)%Z then "8-30 days"
  else if (age_in_days <=? 90)%Z then "31-90 days"
  else if (age_in_days <=? 180)%Z then "91-180 days"
  else if (age_in_days <=? 365)%Z then "181-365 days"
  else if (age_in_days <=? 730)%Z then "1-2 years"
  else if (age_in_days <=? 1825)%Z then "2-5 years"
  else "5+ years".

Definition get_size_bucket (size_bytes : Z) : string :=
  let KB := 1024%Z in let MB := (1024 ^ 2)%Z in let GB := (1024 ^ 3)%Z in
  if (size_bytes <? KB)%Z then "< 1 KB"
  else if (size_bytes <? MB)%Z then "1 KB - 1 MB"
  else if (size_bytes <? 10 * MB)%Z then "1 MB - 10 MB"
  else if (size_bytes <? 100 * MB)%Z then "10 MB - 100 MB"
  else if (size_bytes <? 500 * MB)%Z then "100 MB - 500 MB"
  else if (size_bytes <? GB)%Z then "500 MB - 1 GB"
  else if (size_bytes <? 5 * GB)%Z then "1 GB - 5 GB"
  else if (size_bytes <? 10 * GB)%Z then "5 GB - 10 GB"
  else "10+ GB".

(** Library functions the activity calls; their results are taken as
    given.  Instants are integers (microseconds since the epoch). *)
Record PyLib := {
  str_lower : string → string;            (* s.lower() *)
  fnmatch : string → string → bool;       (* fnmatch.fnmatch(name, pat) *)
  splitext : string → string;             (* os.path.splitext(name)[1] *)
  md5_hexdigest_upper : string → string;  (* hashlib.md5(b).hexdigest().upper() *)
  strftime_scan : Z → string;             (* now.strftime("%Y-%m-%d %H:%M:%S") *)
  strftime_iso : Z → string               (* dt.strftime(...)[:-3] + "Z" *)
}.

Definition is_file_excluded (lib : PyLib) (filename : string)
    (exclude_patterns : list string) : bool :=
  existsb (fun pattern => fnmatch lib filename pattern) exclude_patterns.

Definition format_datetime (lib : PyLib) (dt : option Z) : option string :=
  match dt with
  | None => None
  | Some t => Some (strftime_iso lib t)
  end.

(** A call either returns or raises an exception with message [msg]. *)
Inductive outcome (A : Type) : Type :=
| Returned (a : A)
| Raised (msg : string).
Arguments Returned {A} a.
Arguments Raised {A} msg.

Record FileProperties := {
  last_modified : option Z;
  creation_time : option Z
}.

(** One entry of [list_directories_and_files()]. *)
Record Item := {
  item_name : string;
  item_is_directory : bool;
  item_size : Z
}.

(** The storage collaborator for one directory.  The listing is a lazy
    pager: it yields [listed] and then either ends or raises
    ([listing_raises]); a directory that cannot be opened yields
    nothing and raises. *)
Record Storage := {
  listed : list Item;
  listing_raises : option string;
  get_file_properties : string → outcome FileProperties;
  download_file : string → outcome string
}.

(** Requests sent to the storage collaborator for the files. *)
Inductive IOCall : Type :=
| CallGetProperties (file : string)
| CallDownload (file : string).

Record Input := {
  storage_account_name : string;
  storage_account_key : string;
  file_share_name : string;
  directory_path : string;
  execution_id : string;
  skip_hash_computation : bool;
  max_file_size_for_hash_mb : Z;
  exclude_patterns : list string
}.

(** The record dictionary; the two rounded floating-point sizes
    ([FileSizeMB], [FileSizeGB]) are left out. *)
Record FileRecord := {
  StorageAccount : string;
  FileShare : string;
  FilePath : string;
  FileName : string;
  FileExtension : string;
  FileSizeBytes : Z;
  LastModified : option string;
  Created : option string;
  AgeInDays : Z;
  FileHash : string;
  IsDuplicate : string;
  DuplicateCount : Z;
  DuplicateGroupId : string;
  FileCategory : string;
  AgeBucket : string;
  SizeBucket : string;
  ScanTimestamp : string;
  ExecutionId : string;
  TimeGenerated : option string
}.

Record ScanResult := {
  res_directory_path : string;
  files_processed : Z;
  bytes_processed : Z;
  subdirectories : list string;
  file_records : list FileRecord;
  errors : list string
}.

(** [f"{directory_path}/{item_name}" if directory_path else item_name] *)
Definition join_path (directory_path name : string) : string :=
  if String.eqb directory_path "" then name
  else directory_path +:+ "/" +:+ name.

Definition one_day : Z := 86400 * 1000000.

(** Lines 206-217: the hash of one file, with the download requests made. *)
Definition compute_hash (lib : PyLib) (store : Storage) (skip_hash : bool)
    (max_hash_size : Z) (name : string) (file_size : Z)
    : string * list IOCall :=
  if negb skip_hash && (file_size <=? max_hash_size)%Z
     && (file_size <=? 10 * 1024 * 1024)%Z then
    match download_file store name with
    | Returned content => (md5_hexdigest_upper lib content, [CallDownload name])
    | Raised _ => ("ERROR", [CallDownload name])
    end
  else if negb skip_hash && (max_hash_size <? file_size)%Z then
    ("SKIPPED_TOO_LARGE", [])
  else ("SKIPPED", []).

(** Lines 187-245: the body of the inner [try] for one retained file. *)
Definition process_file (lib : PyLib) (store : Storage) (input : Input)
    (now : Z) (item : Item) : outcome FileRecord * list IOCall :=
  let name := item_name item in
  let file_path := join_path (directory_path input) name in
  let file_size := item_size item in
  match get_file_properties store name with
  | Raised msg => (Raised msg, [CallGetProperties name])
  | Returned props =>
      let age_in_days :=
        match last_modified props with
        | Some lm_dt => ((now - lm_dt) / one_day)%Z
        | None => 0%Z
        end in
      let max_hash_size :=
        (max_file_size_for_hash_mb input * 1024 * 1024)%Z in
      let '(file_hash, calls) :=
        compute_hash lib store (skip_hash_computation input) max_hash_size
                     name file_size in
      let ext := splitext lib name in
      (Returned
         {| StorageAccount := storage_account_name input;
            FileShare := file_share_name input;
            FilePath := file_path;
            FileName := name;
            FileExtension := ext;
            FileSizeBytes := file_size;
            LastModified := format_datetime lib (last_modified props);
            Created := format_datetime lib (creation_time props);
            AgeInDays := age_in_days;
            FileHash := file_hash;
            IsDuplicate := "Unknown";
            DuplicateCount := 0;
            DuplicateGroupId := "";
            FileCategory := get_file_category (str_lower lib) ext;
            AgeBucket := get_age_bucket age_in_days;
            SizeBucket := get_size_bucket file_size;
            ScanTimestamp := strftime_scan lib now;
            ExecutionId := execution_id input;
            TimeGenerated := format_datetime lib (Some now) |},
       CallGetProperties name :: calls)
  end.

(** Lines 176-254: one iteration of the loop over the listing. *)
Definition scan_item (lib : PyLib) (store : Storage) (input : Input)
    (now : Z) (acc : ScanResult * list IOCall) (item : Item)
    : ScanResult * list IOCall :=
  let '(result, calls) := acc in
  if item_is_directory item then
    ({| res_directory_path := res_directory_path result;
        files_processed := files_processed result;
        bytes_processed := bytes_processed result;
        subdirectories :=
          subdirectories result
            ++ [join_path (directory_path input) (item_name item)];
        file_records := file_records result;
        errors := errors result |}, calls)
  else if is_file_excluded lib (item_name item) (exclude_patterns input) then
    (result, calls)
  else
    match process_file lib store input now item with
    | (Returned record, io) =>
        ({| res_directory_path := res_directory_path result;
            files_processed := files_processed result + 1;
            bytes_processed := bytes_processed result + item_size item;
            subdirectories := subdirectories result;
            file_records := file_records result ++ [record];
            errors := errors result |}, calls ++ io)
    | (Raised file_error, io) =>
        ({| res_directory_path := res_directory_path result;
            files_processed := files_processed result;
            bytes_processed := bytes_processed result;
            subdirectories := subdirectories result;
            file_records := file_records result;
            errors :=
              errors result
                ++ ["Error processing file " +:+ item_name item +:+ ": "
                      +:+ file_error] |}, calls ++ io)
    end.

Definition display_path (input : Input) : string :=
  if String.eqb (directory_path input) "" then "(root)"
  else directory_path input.

Definition empty_result (input : Input) : ScanResult :=
  {| res_directory_path := directory_path input;
     files_processed := 0;
     bytes_processed := 0;
     subdirectories := [];
     file_records := [];
     errors := [] |}.

(** Lines 175-254: the loop over the entries [items] that the listing
    yields, from the empty result of lines 146-153. *)
Definition scan_items (lib : PyLib) (store : Storage) (input : Input)
    (now : Z) (items : list Item) : ScanResult * list IOCall :=
  fold_left (scan_item lib store input now) items (empty_result input, []).

(** [main(input_data)], with [now] the instant read once at line 172:
    the entries are scanned, and an exception of the listing is caught
    by the outer handler (lines 258-261). *)
Definition main (lib : PyLib) (store : Storage) (now : Z) (input : Input)
    : ScanResult * list IOCall :=
  let '(result, calls) := scan_items lib store input now (listed store) in
  match listing_raises store with
  | None => (result, calls)
  | Some e =>
      ({| res_directory_path := res_directory_path result;
          files_processed := files_processed result;
          bytes_processed := bytes_processed result;
          subdirectories := subdirectories result;
          file_records := file_records result;
          errors :=
            errors result
              ++ ["Error scanning directory " +:+ display_path input
                    +:+ ": " +:+ e] |}, calls)
  end.

End ActivityScanDirectory.

Module ASD := ActivityScanDirectory.

(** ** orchestrator_file_share/__init__.py *)

Module OrchestratorFileShare.

Record Input := {
  execution_id : string;
  file_share_name : string;
  storage_account_name : string;
  storage_account_key : string;
  batch_size : Z;
  max_file_size_for_hash_mb : Z;
  skip_hash_computation : bool;
  exclude_patterns : list string
}.

(** The dictionary returned by [activity_send_to_log_analytics]. *)
Record SendResult := {
  success : bool;
  records_sent : Z;
  message : string
}.

(** The recorded activity results that answer the orchestrator's
    [yield]s: the scan of a task input, and the [n]-th delivery of the
    run.  [None] is a falsy result. *)
Record Activities := {
  activity_scan_directory : ASD.Input → option ASD.ScanResult;
  activity_send_to_log_analytics :
    nat → list ASD.FileRecord → option SendResult
}.

(** The local variables of the orchestrator, and the calls it made
    through the context: the directories handed to the scan activity
    and the batches handed to the delivery activity, in order. *)
Record State := {
  total_files_processed : Z;
  total_bytes_processed : Z;
  total_batches_sent : nat;
  all_errors : list string;
  current_batch : list ASD.FileRecord;
  directories_to_process : list string;
  processed_directories : gset string;
  wave_number : nat;
  scan_calls : list string;
  send_calls : list (list ASD.FileRecord)
}.

Definition max_parallel_dirs : nat := 10.

(** Lines 38-50. *)
Definition initial_state : State :=
  {| total_files_processed := 0;
     total_bytes_processed := 0;
     total_batches_sent := 0;
     all_errors := [];
     current_batch := [];
     directories_to_process := [""];
     processed_directories := ∅;
     wave_number := 0;
     scan_calls := [];
     send_calls := [] |}.

(** Lines 57-62: the inner [while] that picks the directories of a
    wave; returns [current_wave_dirs], the queue and the set. *)
Fixpoint take_wave (directories_to_process current_wave_dirs : list string)
    (processed_directories : gset string)
    : list string * list string * gset string :=
  match directories_to_process with
  | [] => (current_wave_dirs, [], processed_directories)
  | dir_path :: rest =>
      if Nat.ltb (length current_wave_dirs) max_parallel_dirs then
        if bool_decide (dir_path ∈ processed_directories) then
          take_wave rest current_wave_dirs processed_directories
        else
          take_wave rest (current_wave_dirs ++ [dir_path])
                    ({[dir_path]} ∪ processed_directories)
      else (current_wave_dirs, directories_to_process, processed_directories)
  end.

(** Lines 82-92: the input of one scan task (its [batch_size] entry is
    not read by the activity). *)
Definition task_input (input : Input) (dir_path : string) : ASD.Input :=
  {| ASD.storage_account_name := storage_account_name input;
     ASD.storage_account_key := storage_account_key input;
     ASD.file_share_name := file_share_name input;
     ASD.directory_path := dir_path;
     ASD.execution_id := execution_id input;
     ASD.skip_hash_computation := skip_hash_computation input;
     ASD.max_file_size_for_hash_mb := max_file_size_for_hash_mb input;
     ASD.exclude_patterns := exclude_patterns input |}.

(** The answer recorded for the scan of [dir_path]. *)
Definition scan_of (act : Activities) (input : Input) (dir_path : string)
    : option ASD.ScanResult :=
  activity_scan_directory act (task_input input dir_path).

(** One delivery, lines 120-126 and 132-138: the batch is handed to the
    activity and counted when the answer is truthy and successful. *)
Definition send_batch (act : Activities) (st : State)
    (batch_to_send remaining : list ASD.FileRecord) : State :=
  let send_result :=
    activity_send_to_log_analytics act (length (send_calls st))
                                   batch_to_send in
  {| total_files_processed := total_files_processed st;
     total_bytes_processed := total_bytes_processed st;
     total_batches_sent :=
       match send_result with
       | Some r => if success r then total_batches_sent st + 1
                   else total_batches_sent st
       | None => total_batches_sent st
       end;
     all_errors := all_errors st;
     current_batch := remaining;
     directories_to_process := directories_to_process st;
     processed_directories := processed_directories st;
     wave_number := wave_number st;
     scan_calls := scan_calls st;
     send_calls := send_calls st ++ [batch_to_send] |}.

(** Lines 116-126: [while len(current_batch) >= batch_size].  [None]:
    the loop has not exited within [fuel] iterations. *)
Fixpoint send_full_batches (fuel : nat) (act : Activities) (input : Input)
    (st : State) : option State :=
  if (batch_size input <=? Z.of_nat (length (current_batch st)))%Z then
    match fuel with
    | O => None
    | S fuel' =>
        send_full_batches fuel' act input
          (send_batch act st
             (slice_to (current_batch st) (batch_size input))
             (slice_from (current_batch st) (batch_size input)))
    end
  else Some st.

(** Lines 101-113: one truthy result is folded into the state. *)
Definition fold_result (st : State) (result : ASD.ScanResult) : State :=
  {| total_files_processed :=
       total_files_processed st + ASD.files_processed result;
     total_bytes_processed :=
       total_bytes_processed st + ASD.bytes_processed result;
     total_batches_sent := total_batches_sent st;
     all_errors := all_errors st ++ ASD.errors result;
     current_batch := current_batch st ++ ASD.file_records result;
     directories_to_process :=
       directories_to_process st
         ++ List.filter
              (fun subdir =>
                 negb (bool_decide (subdir ∈ processed_directories st)))
              (ASD.subdirectories result);
     processed_directories := processed_directories st;
     wave_number := wave_number st;
     scan_calls := scan_calls st;
     send_calls := send_calls st |}.

(** Lines 100-128: the [for result in scan_results] loop. *)
Fixpoint process_results (fuel : nat) (act : Activities) (input : Input)
    (st : State) (scan_results : list (option ASD.ScanResult))
    : option State :=
  match scan_results with
  | [] => Some st
  | None :: rest => process_results fuel act input st rest
  | Some result :: rest =>
      match send_full_batches fuel act input (fold_result st result) with
      | None => None
      | Some st' => process_results fuel act input st' rest
      end
  end.

(** Lines 54-128: one iteration of the outer [while]. *)
Definition wave_body (fuel : nat) (act : Activities) (input : Input)
    (st : State) : option State :=
  let '(current_wave_dirs, queue, processed) :=
    take_wave (directories_to_process st) [] (processed_directories st) in
  let st1 :=
    {| total_files_processed := total_files_processed st;
       total_bytes_processed := total_bytes_processed st;
       total_batches_sent := total_batches_sent st;
       all_errors := all_errors st;
       current_batch := current_batch st;
       directories_to_process := queue;
       processed_directories := processed;
       wave_number := wave_number st + 1;
       scan_calls := scan_calls st ++ current_wave_dirs;
       send_calls := send_calls st |} in
  match current_wave_dirs with
  | [] => Some st1
  | _ :: _ =>
      process_results fuel act input st1
        (map (scan_of act input) current_wave_dirs)
  end.

(** Lines 53-128: [while directories_to_process]. *)
Fixpoint wave_loop (fuel : nat) (act : Activities) (input : Input)
    (st : State) : option State :=
  match directories_to_process st with
  | [] => Some st
  | _ :: _ =>
      match fuel with
      | O => None
      | S fuel' =>
          match wave_body fuel' act input st with
          | None => None
          | Some st' => wave_loop fuel' act input st'
          end
      end
  end.

(** Lines 130-140: the remaining records. *)
Definition send_remaining (act : Activities) (st : State) : State :=
  match current_batch st with
  | [] => st
  | _ :: _ => send_batch act st (current_batch st) (current_batch st)
  end.

(** The result dictionary ([gb_processed], a rounded float, is left
    out). *)
Record Result := {
  file_share : string;
  status : string;
  files_processed : Z;
  bytes_processed : Z;
  directories_processed : nat;
  batches_sent : nat;
  waves_completed : nat;
  errors : list string;
  error_count : nat;
  completed_at : string
}.

(** Lines 142-154; [utcnow] is what [datetime.utcnow().isoformat()]
    returns when this execution reaches line 153. *)
Definition build_result (utcnow : string) (input : Input) (st : State)
    : Result :=
  {| file_share := file_share_name input;
     status := "completed";
     files_processed := total_files_processed st;
     bytes_processed := total_bytes_processed st;
     directories_processed := size (processed_directories st);
     batches_sent := total_batches_sent st;
     waves_completed := wave_number st;
     errors := slice_to (all_errors st) 100;
     error_count := length (all_errors st);
     completed_at := utcnow |}.

(** The local state when the orchestrator returns. *)
Definition final_state (fuel : nat) (act : Activities) (input : Input)
    : option State :=
  match wave_loop fuel act input initial_state with
  | None => None
  | Some st => Some (send_remaining act st)
  end.

Definition orchestrator_file_share (fuel : nat) (act : Activities)
    (utcnow : string) (input : Input) : option Result :=
  match final_state fuel act input with
  | None => None
  | Some st => Some (build_result utcnow input st)
  end.

End OrchestratorFileShare.

Module OFS := OrchestratorFileShare.

(** ** orchestrator_main/__init__.py *)

Module OrchestratorMain.

Record Input := {
  execution_id : string;
  storage_account_name : string;
  storage_account_key : string;
  file_share_names : list string;
  skip_hash_computation : bool;
  batch_size : Z;
  max_file_size_for_hash_mb : Z;
  exclude_patterns : list string
}.

(** What the main orchestrator's [yield]s are answered with: the list
    activity, and for every share the activity results and the clock of
    its sub-orchestration.  [clock_start] and [clock_end] are the two
    readings of [datetime.utcnow()] of one execution (lines 43, 118). *)
Record World := {
  activity_list_file_shares : list string;
  share_activities : string → OFS.Activities;
  share_clock : string → string;
  clock_start : string;
  clock_end : string
}.

Record Report := {
  status : string;
  rep_execution_id : string;
  storage_account : string;
  total_shares_scanned : nat;
  total_files_processed : Z;
  total_bytes_processed : Z;
  total_batches_sent : nat;
  total_errors : nat;
  share_results : list OFS.Result;
  completed_at : string
}.

Inductive Result : Type :=
| NoFileShares (execution_id : string)   (* lines 65-70 *)
| Completed (report : Report).

(** The values passed to [context.set_custom_status]. *)
Inductive CustomStatus : Type :=
| Initializing (storageAccount startTime : string)
| DiscoveringFileShares
| ScanningFileShares (totalShares : nat) (shares : list string)
| AggregatingResults
| CompletedStatus (report : Report).

(** Lines 82-91. *)
Definition share_input (input : Input) (share_name : string) : OFS.Input :=
  {| OFS.execution_id := execution_id input;
     OFS.file_share_name := share_name;
     OFS.storage_account_name := storage_account_name input;
     OFS.storage_account_key := storage_account_key input;
     OFS.batch_size := batch_size input;
     OFS.max_file_size_for_hash_mb := max_file_size_for_hash_mb input;
     OFS.skip_hash_computation := skip_hash_computation input;
     OFS.exclude_patterns := exclude_patterns input |}.

(** Lines 93-97: every sub-orchestration runs to its result. *)
Fixpoint run_shares (fuel : nat) (w : World) (input : Input)
    (names : list string) : option (list OFS.Result) :=
  match names with
  | [] => Some []
  | share_name :: rest =>
      match OFS.orchestrator_file_share fuel (share_activities w share_name)
              (share_clock w share_name) (share_input input share_name) with
      | None => None
      | Some r =>
          match run_shares fuel w input rest with
          | None => None
          | Some rs => Some (r :: rs)
          end
      end
  end.

(** Lines 102-119. *)
Definition aggregate (w : World) (input : Input) (names : list string)
    (results : list OFS.Result) : Report :=
  {| status := "completed";
     rep_execution_id := execution_id input;
     storage_account := storage_account_name input;
     total_shares_scanned := length names;
     total_files_processed := py_sum (map OFS.files_processed results);
     total_bytes_processed := py_sum (map OFS.bytes_processed results);
     total_batches_sent := list_sum (map OFS.batches_sent results);
     total_errors :=
       list_sum (map (fun r => length (OFS.errors r)) results);
     share_results := results;
     completed_at := clock_end w |}.

(** Lines 47-59: the shares of the input, or else the discovered ones. *)
Definition shares_to_scan (w : World) (input : Input) : list string :=
  match file_share_names input with
  | [] => activity_list_file_shares w
  | _ :: _ => file_share_names input
  end.

Definition orchestrator_main (fuel : nat) (w : World) (input : Input)
    : option (Result * list CustomStatus) :=
  let st0 := [Initializing (storage_account_name input) (clock_start w)] in
  let st1 :=
    match file_share_names input with
    | [] => st0 ++ [DiscoveringFileShares]
    | _ :: _ => st0
    end in
  let names := shares_to_scan w input in
  match names with
  | [] => Some (NoFileShares (execution_id input), st1)
  | _ :: _ =>
      let st2 := st1 ++ [ScanningFileShares (length names) names] in
      match run_shares fuel w input names with
      | None => None
      | Some results =>
          let report := aggregate w input names results in
          Some (Completed report,
                st2 ++ [AggregatingResults; CompletedStatus report])
      end
  end.

End OrchestratorMain.

Module OM := OrchestratorMain.

(** ** Directory trees presented by the storage collaborator *)

Module DirTree.

(** A directory with its full path and its subdirectories. *)
#[local] Unset Elimination Schemes.
Inductive tree : Type :=
| Node (path : string) (children : list tree).
#[local] Set Elimination Schemes.

Definition path (t : tree) : string :=
  match t with Node p _ => p end.

Definition children (t : tree) : list tree :=
  match t with Node _ cs => cs end.

(** All directories of the tree, the root first. *)
Fixpoint nodes (t : tree) : list tree :=
  match t with
  | Node p cs => Node p cs :: flat_map nodes cs
  end.

Definition paths (t : tree) : list string := map path (nodes t).

(** The number of levels: a lone root has depth 1. *)
Fixpoint depth (t : tree) : nat :=
  match t with
  | Node _ cs => S (foldr Nat.max 0 (map depth cs))
  end.

(** The paths at distance [k] from the root. *)
Fixpoint level (k : nat) (t : tree) : list string :=
  match k with
  | O => [path t]
  | S k' => flat_map (level k') (children t)
  end.

(** The largest number of directories on one level. *)
Definition width (t : tree) : nat :=
  foldr Nat.max 0 (map (fun k => length (level k t)) (seq 0 (depth t))).

(** The scan recorded for directory [n] lists exactly its children. *)
Definition scan_ok (act : OFS.Activities) (input : OFS.Input) (n : tree)
    : Prop :=
  ASD.subdirectories <$> OFS.scan_of act input (path n)
  = Some (map path (children n)).

(** The recorded scans present the tree [t]: the root is the share's root
    [""], the directories have distinct paths, and every scan lists the
    children of its directory. *)
Definition presents (act : OFS.Activities) (input : OFS.Input) (t : tree)
    : Prop :=
  path t = "" ∧ NoDup (paths t) ∧ Forall (scan_ok act input) (nodes t).

(** Forests: the frontier of the traversal is a list of subtrees. *)
Definition fnodes (f : list tree) : list tree := flat_map nodes f.
Definition fpaths (f : list tree) : list string := map path (fnodes f).
Definition fdepth (f : list tree) : nat := foldr Nat.max 0 (map depth f).
Definition flevel (k : nat) (f : list tree) : list string :=
  flat_map (level k) f.

(** The frontier after one wave: the first [max_parallel_dirs] subtrees
    are replaced, at the end of the queue, by their children. *)
Definition next_frontier (f : list tree) : list tree :=
  skipn OFS.max_parallel_dirs f
    ++ flat_map children (firstn OFS.max_parallel_dirs f).

(** The number of waves that empty the frontier [f] (within [n]). *)
Fixpoint bfs_waves (n : nat) (f : list tree) : nat :=
  match f, n with
  | [], _ => 0
  | _ :: _, O => 0
  | _ :: _, S n' => S (bfs_waves n' (next_frontier f))
  end.

End DirTree.

(** ** The bucket and category tables of the specification *)

Module SpecTables.

(** A bucket: its label and its bounds; [None] is no bound. *)
Record bucket := {
  label : string;
  lower_bound : option Z;
  upper_bound : option Z
}.

Definition above (lo : option Z) (x : Z) : Prop :=
  match lo with Some l => (l <= x)%Z | None => True end.

(** Size buckets are half-open: the lower threshold is included, the
    upper one is not. *)
Definition in_size_bucket (b : bucket) (s : Z) : Prop :=
  above (lower_bound b) s
  ∧ match upper_bound b with Some h => (s < h)%Z | None => True end.

(** Age buckets include their upper threshold and exclude the previous
    one. *)
Definition in_age_bucket (b : bucket) (a : Z) : Prop :=
  match lower_bound b with Some l => (l < a)%Z | None => True end
  ∧ match upper_bound b with Some h => (a <= h)%Z | None => True end.

Definition Ki : Z := 1024.
Definition Mi : Z := 1024 * 1024.
Definition Gi : Z := 1024 * 1024 * 1024.

(** Thresholds <1Ki, <1Mi, <10Mi, <100Mi, <500Mi, <1Gi, <5Gi, <10Gi, >=10Gi. *)
Definition size_buckets : list bucket :=
  [ {| label := "< 1 KB"; lower_bound := None; upper_bound := Some Ki |};
    {| label := "1 KB - 1 MB"; lower_bound := Some Ki;
       upper_bound := Some Mi |};
    {| label := "1 MB - 10 MB"; lower_bound := Some Mi;
       upper_bound := Some (10 * Mi)%Z |};
    {| label := "10 MB - 100 MB"; lower_bound := Some (10 * Mi)%Z;
       upper_bound := Some (100 * Mi)%Z |};
    {| label := "100 MB - 500 MB"; lower_bound := Some (100 * Mi)%Z;
       upper_bound := Some (500 * Mi)%Z |};
    {| label := "500 MB - 1 GB"; lower_bound := Some (500 * Mi)%Z;
       upper_bound := Some Gi |};
    {| label := "1 GB - 5 GB"; lower_bound := Some Gi;
       upper_bound := Some (5 * Gi)%Z |};
    {| label := "5 GB - 10 GB"; lower_bound := Some (5 * Gi)%Z;
       upper_bound := Some (10 * Gi)%Z |};
    {| label := "10+ GB"; lower_bound := Some (10 * Gi)%Z;
       upper_bound := None |} ].

(** Thresholds <=7, <=30, <=90, <=180, <=365, <=730, <=1825, >1825 days. *)
Definition age_buckets : list bucket :=
  [ {| label := "0-7 days"; lower_bound := None; upper_bound := Some 7%Z |};
    {| label := "8-30 days"; lower_bound := Some 7%Z;
       upper_bound := Some 30%Z |};
    {| label := "31-90 days"; lower_bound := Some 30%Z;
       upper_bound := Some 90%Z |};
    {| label := "91-180 days"; lower_bound := Some 90%Z;
       upper_bound := Some 180%Z |};
    {| label := "181-365 days"; lower_bound := Some 180%Z;
       upper_bound := Some 365%Z |};
    {| label := "1-2 years"; lower_bound := Some 365%Z;
       upper_bound := Some 730%Z |};
    {| label := "2-5 years"; lower_bound := Some 730%Z;
       upper_bound := Some 1825%Z |};
    {| label := "5+ years"; lower_bound := Some 1825%Z;
       upper_bound := None |} ].

(** Exactly one bucket of [table] applies to [x], and it is labelled [l]. *)
Definition only_bucket (holds : bucket → Z → Prop) (table : list bucket)
    (x : Z) (l : string) : Prop :=
  ∃ b, b ∈ table ∧ holds b x ∧ label b = l
       ∧ ∀ b', b' ∈ table → holds b' x → b' = b.

(** The category tables in the order in which they are tried. *)
Definition category_tables : list (string * gset string) :=
  [ ("Documents", Models.document_exts);
    ("Images", Models.image_exts);
    ("Videos", Models.video_exts);
    ("Audio", Models.audio_exts);
    ("Archives", Models.archive_exts);
    ("Code", Models.code_exts);
    ("Executables", Models.executable_exts);
    ("Databases", Models.database_exts);
    ("Logs", Models.log_exts);
    ("Temporary", Models.temp_exts) ].

(** The category of the first table that holds [ext], else "Other". *)
Fixpoint first_match (tables : list (string * gset string)) (ext : string)
    : string :=
  match tables with
  | [] => "Other"
  | (category, exts) :: rest =>
      if py_in ext exts then category else first_match rest ext
  end.

(** [ext] is in none of the tables. *)
Definition in_no_table (ext : string) : bool :=
  forallb (fun t => negb (py_in ext t.2)) category_tables.

End SpecTables.

(** ** Notions used to state the properties *)

(** The results of two consecutive parts of a listing, put together. *)
Definition merge_scans (a b : ASD.ScanResult * list ASD.IOCall)
    : ASD.ScanResult * list ASD.IOCall :=
  ({| ASD.res_directory_path := ASD.res_directory_path a.1;
      ASD.files_processed := ASD.files_processed a.1 + ASD.files_processed b.1;
      ASD.bytes_processed := ASD.bytes_processed a.1 + ASD.bytes_processed b.1;
      ASD.subdirectories := ASD.subdirectories a.1 ++ ASD.subdirectories b.1;
      ASD.file_records := ASD.file_records a.1 ++ ASD.file_records b.1;
      ASD.errors := ASD.errors a.1 ++ ASD.errors b.1 |},
   a.2 ++ b.2).

(** The bound on the size of a hashed file: the configured one and the
    fixed ceiling of 10 MiB. *)
Definition hash_limit (input : ASD.Input) : Z :=
  Z.min (ASD.max_file_size_for_hash_mb input * 1024 * 1024)
        (10 * 1024 * 1024).

(** [item] is a file that the exclusion patterns retain. *)
Definition retained_file (lib : ASD.PyLib) (input : ASD.Input)
    (item : ASD.Item) : bool :=
  negb (ASD.item_is_directory item)
  && negb (ASD.is_file_excluded lib (ASD.item_name item)
                                (ASD.exclude_patterns input)).

(** The storage [store] with another listing. *)
Definition with_listing (store : ASD.Storage) (items : list ASD.Item)
    (raises : option string) : ASD.Storage :=
  {| ASD.listed := items;
     ASD.listing_raises := raises;
     ASD.get_file_properties := ASD.get_file_properties store;
     ASD.download_file := ASD.download_file store |}.

(** The error strings of the two handlers (lines 252 and 259). *)
Definition file_error_message (item : ASD.Item) (msg : string) : string :=
  "Error processing file " +:+ ASD.item_name item +:+ ": " +:+ msg.

Definition directory_error_message (input : ASD.Input) (e : string)
    : string :=
  "Error scanning directory " +:+ ASD.display_path input +:+ ": " +:+ e.

(** ** Sample data *)

(** Stand-ins for the library functions: a pattern ["*s"] matches the
    names that end in [s], any other pattern matches itself; the
    extension starts at the last dot. *)
Fixpoint ends_with (suffix s : string) : bool :=
  String.eqb s suffix
  || match s with
     | EmptyString => false
     | String _ rest => ends_with suffix rest
     end.

Definition sample_fnmatch (name pattern : string) : bool :=
  match pattern with
  | String "*" suffix => ends_with suffix name
  | _ => String.eqb name pattern
  end.

Fixpoint sample_splitext (s : string) : string :=
  match s with
  | EmptyString => ""
  | String c rest =>
      let e := sample_splitext rest in
      if String.eqb e "" then (if Ascii.eqb c "." then s else "") else e
  end.

(** ['A'..'Z'] become ['a'..'z']. *)
Definition lower_ascii (c : ascii) : ascii :=
  let n := nat_of_ascii c in
  if Nat.leb 65 n && Nat.leb n 90 then ascii_of_nat (n + 32) else c.

(** The Kelvin sign U+212A, in UTF-8. *)
Definition kelvin_sign : string :=
  String "226" (String "132" (String "170" EmptyString)).

(** A stand-in for [str.lower] on the strings of the examples: the
    ASCII letters, and the Kelvin sign, which [str.lower] turns into the
    letter k. *)
Fixpoint sample_lower (s : string) : string :=
  match s with
  | EmptyString => EmptyString
  | String "226" (String "132" (String "170" rest)) =>
      String "k" (sample_lower rest)
  | String c rest => String (lower_ascii c) (sample_lower rest)
  end.

Definition sample_lib : ASD.PyLib :=
  {| ASD.str_lower := sample_lower;
     ASD.fnmatch := sample_fnmatch;
     ASD.splitext := sample_splitext;
     ASD.md5_hexdigest_upper := fun content => "MD5:" +:+ content;
     ASD.strftime_scan := fun _ => "2026-01-01 00:00:00";
     ASD.strftime_iso := fun _ => "2026-01-01T00:00:00.000Z" |}.

Definition sample_file (name : string) (size : Z) : ASD.Item :=
  {| ASD.item_name := name; ASD.item_is_directory := false;
     ASD.item_size := size |}.

Definition sample_dir (name : string) : ASD.Item :=
  {| ASD.item_name := name; ASD.item_is_directory := true;
     ASD.item_size := 0 |}.

(** A root directory: the properties of [locked.doc] cannot be read, the
    download of [c.pdf] fails, [big.iso] is larger than the ceiling. *)
Definition sample_store : ASD.Storage :=
  {| ASD.listed :=
       [ sample_file "a.txt" 500; sample_file "b.tmp" 10; sample_dir "sub";
         sample_file "locked.doc" 40; sample_file "c.pdf" 2097152;
         sample_file "big.iso" 20971520 ];
     ASD.listing_raises := None;
     ASD.get_file_properties := fun name =>
       if String.eqb name "locked.doc" then ASD.Raised "access denied"
       else ASD.Returned {| ASD.last_modified := Some 0%Z;
                            ASD.creation_time := None |};
     ASD.download_file := fun name =>
       if String.eqb name "c.pdf" then ASD.Raised "timed out"
       else ASD.Returned "content" |}.

Definition sample_scan_input (skip_hash : bool) : ASD.Input :=
  {| ASD.storage_account_name := "account";
     ASD.storage_account_key := "key";
     ASD.file_share_name := "share";
     ASD.directory_path := "";
     ASD.execution_id := "run-1";
     ASD.skip_hash_computation := skip_hash;
     ASD.max_file_size_for_hash_mb := 100;
     ASD.exclude_patterns := ["*.tmp"] |}.

(** The instant of the sample scan: ten days after the epoch. *)
Definition sample_now : Z := 10 * ASD.one_day.

(** A listing that yields one subdirectory and one file and then
    raises. *)
Definition interrupted_store : ASD.Storage :=
  with_listing sample_store [sample_dir "sub"; sample_file "a.txt" 500]
               (Some "connection reset").

(** A directory that cannot be opened. *)
Definition unreadable_store : ASD.Storage :=
  with_listing sample_store [] (Some "ResourceNotFound").

(** ** Notions about a run of the file-share orchestrator *)

(** The truthy scan results recorded for the directories [dirs]. *)
Definition received (act : OFS.Activities) (input : OFS.Input)
    (dirs : list string) : list ASD.ScanResult :=
  omap (OFS.scan_of act input) dirs.

Definition records_received (act : OFS.Activities) (input : OFS.Input)
    (dirs : list string) : list ASD.FileRecord :=
  flat_map ASD.file_records (received act input dirs).

Definition errors_received (act : OFS.Activities) (input : OFS.Input)
    (dirs : list string) : list string :=
  flat_map ASD.errors (received act input dirs).

(** The [i]-th delivery of the run reported success. *)
Definition send_succeeded (act : OFS.Activities) (i : nat)
    (batch : list ASD.FileRecord) : bool :=
  match OFS.activity_send_to_log_analytics act i batch with
  | Some r => OFS.success r
  | None => false
  end.

(** How many of the deliveries [calls], numbered from [i], succeeded. *)
Fixpoint successful_from (act : OFS.Activities) (i : nat)
    (calls : list (list ASD.FileRecord)) : nat :=
  match calls with
  | [] => 0
  | batch :: rest =>
      (if send_succeeded act i batch then 1 else 0)
      + successful_from act (S i) rest
  end.

Definition successful_sends (act : OFS.Activities)
    (calls : list (list ASD.FileRecord)) : nat :=
  successful_from act 0 calls.

Definition failed_sends (act : OFS.Activities)
    (calls : list (list ASD.FileRecord)) : nat :=
  length calls - successful_sends act calls.

(** The states at the head of the outer loop: the initial one, and the
    state after a wave from such a state. *)
Inductive reachable (act : OFS.Activities) (input : OFS.Input)
    : OFS.State → Prop :=
| reachable_initial : reachable act input OFS.initial_state
| reachable_wave fuel st st' :
    reachable act input st →
    OFS.directories_to_process st ≠ [] →
    OFS.wave_body fuel act input st = Some st' →
    reachable act input st'.

(** The subdirectories of the results [seen] that are queued when the
    set of dequeued directories is [processed]. *)
Definition queued_from (processed : gset string)
    (seen : list ASD.ScanResult) : list string :=
  flat_map
    (fun r =>
       List.filter (fun subdir => negb (bool_decide (subdir ∈ processed)))
                   (ASD.subdirectories r))
    seen.

(** State [s] is state [st] after the results [seen] have been folded in
    (lines 100-128), some full batches having been delivered. *)
Definition folded (act : OFS.Activities) (input : OFS.Input)
    (st : OFS.State) (seen : list ASD.ScanResult) (s : OFS.State) : Prop :=
  OFS.directories_to_process s
  = OFS.directories_to_process st
      ++ queued_from (OFS.processed_directories st) seen
  ∧ OFS.processed_directories s = OFS.processed_directories st
  ∧ OFS.wave_number s = OFS.wave_number st
  ∧ OFS.scan_calls s = OFS.scan_calls st
  ∧ OFS.all_errors s = OFS.all_errors st ++ flat_map ASD.errors seen
  ∧ concat (OFS.send_calls s) ++ OFS.current_batch s
    = (concat (OFS.send_calls st) ++ OFS.current_batch st)
        ++ flat_map ASD.file_records seen
  ∧ OFS.total_files_processed s
    = (OFS.total_files_processed st
       + py_sum (map ASD.files_processed seen))%Z
  ∧ OFS.total_bytes_processed s
    = (OFS.total_bytes_processed st
       + py_sum (map ASD.bytes_processed seen))%Z
  ∧ ∃ new, OFS.send_calls s = OFS.send_calls st ++ new
      ∧ OFS.total_batches_sent s
        = OFS.total_batches_sent st
          + successful_from act (length (OFS.send_calls st)) new
      ∧ ((0 < OFS.batch_size input)%Z →
         Forall (fun b => Z.of_nat (length b) = OFS.batch_size input) new).

(** What holds of the state at the head of the outer loop. *)
Definition wave_invariant (act : OFS.Activities) (input : OFS.Input)
    (st : OFS.State) : Prop :=
  NoDup (OFS.scan_calls st)
  ∧ OFS.processed_directories st = list_to_set (OFS.scan_calls st)
  ∧ OFS.all_errors st = errors_received act input (OFS.scan_calls st)
  ∧ concat (OFS.send_calls st) ++ OFS.current_batch st
    = records_received act input (OFS.scan_calls st)
  ∧ OFS.total_files_processed st
    = py_sum (map ASD.files_processed (received act input (OFS.scan_calls st)))
  ∧ OFS.total_bytes_processed st
    = py_sum (map ASD.bytes_processed (received act input (OFS.scan_calls st)))
  ∧ OFS.total_batches_sent st = successful_sends act (OFS.send_calls st)
  ∧ ((0 < OFS.batch_size input)%Z →
     Forall (fun b => Z.of_nat (length b) = OFS.batch_size input)
            (OFS.send_calls st)
     ∧ (Z.of_nat (length (OFS.current_batch st)) < OFS.batch_size input)%Z).

(** The sample share: its root is [sample_store], the subdirectory
    [sub] holds two files, and the second delivery of a run fails. *)
Definition sample_sub_store : ASD.Storage :=
  {| ASD.listed := [sample_file "d.log" 10; sample_file "e.mp3" 20];
     ASD.listing_raises := None;
     ASD.get_file_properties := fun _ =>
       ASD.Returned {| ASD.last_modified := None;
                       ASD.creation_time := None |};
     ASD.download_file := fun _ => ASD.Returned "content" |}.

Definition sample_storage (dir : string) : ASD.Storage :=
  if String.eqb dir "" then sample_store
  else if String.eqb dir "sub" then sample_sub_store
  else unreadable_store.

Definition sample_send (i : nat) (batch : list ASD.FileRecord)
    : option OFS.SendResult :=
  Some (if Nat.eqb i 1
        then {| OFS.success := false; OFS.records_sent := 0;
                OFS.message := "HTTP error sending to Log Analytics" |}
        else {| OFS.success := true;
                OFS.records_sent := Z.of_nat (length batch);
                OFS.message := "Successfully sent" |}).

Definition sample_activities : OFS.Activities :=
  {| OFS.activity_scan_directory := fun task =>
       Some (ASD.main sample_lib (sample_storage (ASD.directory_path task))
                      sample_now task).1;
     OFS.activity_send_to_log_analytics := sample_send |}.

Definition sample_share_input (batch_size : Z) : OFS.Input :=
  {| OFS.execution_id := "run-1";
     OFS.file_share_name := "share";
     OFS.storage_account_name := "account";
     OFS.storage_account_key := "key";
     OFS.batch_size := batch_size;
     OFS.max_file_size_for_hash_mb := 100;
     OFS.skip_hash_computation := true;
     OFS.exclude_patterns := ["*.tmp"] |}.

(** A scan result that only lists subdirectories. *)
Definition only_subdirectories (dir : string) (subdirs : list string)
    : ASD.ScanResult :=
  {| ASD.res_directory_path := dir;
     ASD.files_processed := 0;
     ASD.bytes_processed := 0;
     ASD.subdirectories := subdirs;
     ASD.file_records := [];
     ASD.errors := [] |}.

(** Recorded scans in which the root reports the directory [a] twice,
    with nine other directories in between. *)
Definition repeating_activities : OFS.Activities :=
  {| OFS.activity_scan_directory := fun task =>
       let dir := ASD.directory_path task in
       Some (only_subdirectories dir
               (if String.eqb dir ""
                then [ "a"; "b1"; "b2"; "b3"; "b4"; "b5"; "b6"; "b7"; "b8";
                       "b9"; "a" ]
                else []));
     OFS.activity_send_to_log_analytics := sample_send |}.

(** ** Notions about the clock *)

(** A share result, the time field blanked. *)
Definition without_time (r : OFS.Result) : OFS.Result :=
  {| OFS.file_share := OFS.file_share r;
     OFS.status := OFS.status r;
     OFS.files_processed := OFS.files_processed r;
     OFS.bytes_processed := OFS.bytes_processed r;
     OFS.directories_processed := OFS.directories_processed r;
     OFS.batches_sent := OFS.batches_sent r;
     OFS.waves_completed := OFS.waves_completed r;
     OFS.errors := OFS.errors r;
     OFS.error_count := OFS.error_count r;
     OFS.completed_at := "" |}.

Definition report_without_time (rep : OM.Report) : OM.Report :=
  {| OM.status := OM.status rep;
     OM.rep_execution_id := OM.rep_execution_id rep;
     OM.storage_account := OM.storage_account rep;
     OM.total_shares_scanned := OM.total_shares_scanned rep;
     OM.total_files_processed := OM.total_files_processed rep;
     OM.total_bytes_processed := OM.total_bytes_processed rep;
     OM.total_batches_sent := OM.total_batches_sent rep;
     OM.total_errors := OM.total_errors rep;
     OM.share_results := map without_time (OM.share_results rep);
     OM.completed_at := "" |}.

Definition status_without_time (s : OM.CustomStatus) : OM.CustomStatus :=
  match s with
  | OM.Initializing account _ => OM.Initializing account ""
  | OM.CompletedStatus rep => OM.CompletedStatus (report_without_time rep)
  | _ => s
  end.

(** What the main orchestrator returns and reports, the time fields
    blanked. *)
Definition outcome_without_time (o : OM.Result * list OM.CustomStatus)
    : OM.Result * list OM.CustomStatus :=
  (match o.1 with
   | OM.NoFileShares e => OM.NoFileShares e
   | OM.Completed rep => OM.Completed (report_without_time rep)
   end,
   map status_without_time o.2).

(** Two executions are answered by the same recorded results; their
    clocks are free. *)
Definition same_recorded_results (w1 w2 : OM.World) : Prop :=
  OM.activity_list_file_shares w1 = OM.activity_list_file_shares w2
  ∧ ∀ name, OM.share_activities w1 name = OM.share_activities w2 name.

(** ** Sample runs of the main orchestrator *)

(** A share with one file and no scan error, whose delivery fails. *)
Definition quiet_store : ASD.Storage :=
  with_listing sample_sub_store [sample_file "a.txt" 500] None.

Definition failing_send (i : nat) (batch : list ASD.FileRecord)
    : option OFS.SendResult :=
  Some {| OFS.success := false; OFS.records_sent := 0;
          OFS.message := "HTTP error sending to Log Analytics" |}.

Definition quiet_activities : OFS.Activities :=
  {| OFS.activity_scan_directory := fun task =>
       Some (ASD.main sample_lib quiet_store sample_now task).1;
     OFS.activity_send_to_log_analytics := failing_send |}.

Definition sample_main_input (batch_size : Z) : OM.Input :=
  {| OM.execution_id := "run-1";
     OM.storage_account_name := "account";
     OM.storage_account_key := "key";
     OM.file_share_names := [];
     OM.skip_hash_computation := true;
     OM.batch_size := batch_size;
     OM.max_file_size_for_hash_mb := 100;
     OM.exclude_patterns := ["*.tmp"] |}.

(** The world of one execution: the activities of the only share, and
    the three readings of the clock. *)
Definition sample_world (act : OFS.Activities) (t0 t1 t2 : string)
    : OM.World :=
  {| OM.activity_list_file_shares := ["share"];
     OM.share_activities := fun _ => act;
     OM.share_clock := fun _ => t1;
     OM.clock_start := t0;
     OM.clock_end := t2 |}.

(** ** Notions about the traversal of a tree *)

(** The frontier of state [st] is the list of the roots of the forest
    [f], whose directories are distinct, not yet dequeued, and scanned as
    the forest has them; fewer than [batch_size] records are pending. *)
Definition frontier_is (act : OFS.Activities) (input : OFS.Input)
    (f : list DirTree.tree) (st : OFS.State) : Prop :=
  OFS.directories_to_process st = map DirTree.path f
  ∧ NoDup (DirTree.fpaths f)
  ∧ (∀ x, x ∈ DirTree.fpaths f → x ∉ OFS.processed_directories st)
  ∧ Forall (DirTree.scan_ok act input) (DirTree.fnodes f)
  ∧ (Z.of_nat (length (OFS.current_batch st)) < OFS.batch_size input)%Z.

(** Iterations that are enough for the run over the tree [t]. *)
Definition enough_fuel (act : OFS.Activities) (input : OFS.Input)
    (t : DirTree.tree) : nat :=
  S (length (DirTree.nodes t) + Z.to_nat (OFS.batch_size input)
     + length (records_received act input (DirTree.paths t))).

(** The sample share as a tree. *)
Definition sample_tree : DirTree.tree :=
  DirTree.Node "" [DirTree.Node "sub" []].

(** * The rest of the code *)

From stdpp Require Import pretty.

(** ** More Python helpers *)

(** [os.environ.get(key, default)] *)
Definition environ_get (environ : gmap string string) (key default_value : string)
    : string :=
  default default_value (environ !! key).

(** Truth value of a string, and of a string that may be [None]. *)
Definition truthy (s : string) : bool := negb (String.eqb s "").

Definition truthy_opt (o : option string) : bool :=
  match o with
  | Some s => truthy s
  | None => false
  end.

(** [s.split(sep)] for a separator of one character. *)
Fixpoint split_on (sep : ascii) (s : string) : list string :=
  match s with
  | EmptyString => [""]
  | String c rest =>
      if Ascii.eqb c sep then "" :: split_on sep rest
      else match split_on sep rest with
           | part :: parts => String c part :: parts
           | [] => [String c ""]
           end
  end.

(** [sep.join(parts)] *)
Fixpoint join_with (sep : ascii) (parts : list string) : string :=
  match parts with
  | [] => ""
  | [part] => part
  | part :: rest => part +:+ String sep (join_with sep rest)
  end.

(** [c in s] for a character *)
Fixpoint contains_char (c : ascii) (s : string) : bool :=
  match s with
  | EmptyString => false
  | String c' rest => Ascii.eqb c' c || contains_char c rest
  end.

(** [s[:-k]] for a string *)
Definition drop_last (k : nat) (s : string) : string :=
  substring 0 (String.length s - k) s.

(** A decimal digit, and a number printed with [width] digits, zero
    filled, as [strftime] prints a field that is in range. *)
Definition digit (n : nat) : ascii := ascii_of_nat (48 + n mod 10).

Fixpoint zero_padded (width n : nat) : string :=
  match width with
  | O => ""
  | S w => zero_padded w (n / 10) +:+ String (digit n) ""
  end.

(** ** activity_list_file_shares/__init__.py *)

Module ActivityListFileShares.

(** One entry of [list_shares()]. *)
Record ShareItem := {
  share_name : string;
  snapshot : option string
}.

(** The share service: the pager yields [listed_shares] and then ends or
    raises; a failure to create the client raises before any entry. *)
Record Service := {
  listed_shares : list ShareItem;
  listing_raises : option string
}.

(** [main(input_data)]: the handler logs and raises again, so that an
    exception leaves no list. *)
Definition main (service : Service) : ASD.outcome (list string) :=
  let shares :=
    share_name
      <$> List.filter (fun share => negb (truthy_opt (snapshot share)))
                      (listed_shares service) in
  match listing_raises service with
  | None => ASD.Returned shares
  | Some e => ASD.Raised e
  end.

End ActivityListFileShares.

Module ALS := ActivityListFileShares.

(** ** activity_send_to_log_analytics/__init__.py *)

Module ActivitySendToLogAnalytics.

(** How [client.upload] ends. *)
Inductive upload_outcome : Type :=
| Uploaded
| HttpResponseError (status_code message : string)
| OtherException (msg : string).

(** The ingestion collaborator: creating the credential and the client
    may raise; [upload rule_id stream_name logs] is the request. *)
Record Sink := {
  client_raises : option string;
  upload : string → string → list ASD.FileRecord → upload_outcome
}.

(** A request made to the sink. *)
Record UploadCall := {
  rule_id : string;
  stream_name : string;
  logs : list ASD.FileRecord
}.

(** Lines 72-74: a record without a time is given the time of the
    call. *)
Definition fill_time_generated (now : string) (record : ASD.FileRecord)
    : ASD.FileRecord :=
  if truthy_opt (ASD.TimeGenerated record) then record
  else
    {| ASD.StorageAccount := ASD.StorageAccount record;
       ASD.FileShare := ASD.FileShare record;
       ASD.FilePath := ASD.FilePath record;
       ASD.FileName := ASD.FileName record;
       ASD.FileExtension := ASD.FileExtension record;
       ASD.FileSizeBytes := ASD.FileSizeBytes record;
       ASD.LastModified := ASD.LastModified record;
       ASD.Created := ASD.Created record;
       ASD.AgeInDays := ASD.AgeInDays record;
       ASD.FileHash := ASD.FileHash record;
       ASD.IsDuplicate := ASD.IsDuplicate record;
       ASD.DuplicateCount := ASD.DuplicateCount record;
       ASD.DuplicateGroupId := ASD.DuplicateGroupId record;
       ASD.FileCategory := ASD.FileCategory record;
       ASD.AgeBucket := ASD.AgeBucket record;
       ASD.SizeBucket := ASD.SizeBucket record;
       ASD.ScanTimestamp := ASD.ScanTimestamp record;
       ASD.ExecutionId := ASD.ExecutionId record;
       ASD.TimeGenerated := Some now |}.

Definition failed (message : string) : OFS.SendResult :=
  {| OFS.success := false; OFS.records_sent := 0; OFS.message := message |}.

Definition config_error : string :=
  "LOG_ANALYTICS_DCE_ENDPOINT and LOG_ANALYTICS_DCR_IMMUTABLE_ID environment variables are required".

(** [main(input_data)], with [now] the formatted instant of line 71;
    returns the result and the requests made to the sink. *)
Definition main (environ : gmap string string) (sink : Sink) (now : string)
    (records : list ASD.FileRecord) : OFS.SendResult * list UploadCall :=
  match records with
  | [] =>
      ({| OFS.success := true; OFS.records_sent := 0;
          OFS.message := "No records to send" |}, [])
  | _ :: _ =>
      let dce_endpoint := environ_get environ "LOG_ANALYTICS_DCE_ENDPOINT" "" in
      let dcr_immutable_id :=
        environ_get environ "LOG_ANALYTICS_DCR_IMMUTABLE_ID" "" in
      let stream :=
        environ_get environ "LOG_ANALYTICS_STREAM_NAME"
                    "Custom-FileInventory_CL" in
      if negb (truthy dce_endpoint) || negb (truthy dcr_immutable_id) then
        (failed config_error, [])
      else
        match client_raises sink with
        | Some e => (failed ("Error sending to Log Analytics: " +:+ e), [])
        | None =>
            let stamped := map (fill_time_generated now) records in
            let call := {| rule_id := dcr_immutable_id; stream_name := stream;
                           logs := stamped |} in
            match upload sink dcr_immutable_id stream stamped with
            | Uploaded =>
                ({| OFS.success := true;
                    OFS.records_sent := Z.of_nat (length records);
                    OFS.message :=
                      "Successfully sent " +:+ pretty (length records)
                        +:+ " records" |}, [call])
            | HttpResponseError status_code message =>
                (failed ("HTTP error sending to Log Analytics: "
                           +:+ status_code +:+ " - " +:+ message), [call])
            | OtherException e =>
                (failed ("Error sending to Log Analytics: " +:+ e), [call])
            end
        end
  end.

End ActivitySendToLogAnalytics.

Module ASL := ActivitySendToLogAnalytics.

(** ** shared/models.py: the helpers besides the labelling ones *)

Module SharedModels.

(** The loop returns at the first pattern that matches. *)
Fixpoint is_file_excluded (fnmatch : string → string → bool)
    (filename : string) (exclude_patterns : list string) : bool :=
  match exclude_patterns with
  | [] => false
  | pattern :: rest =>
      if fnmatch filename pattern then true
      else is_file_excluded fnmatch filename rest
  end.

(** A [datetime]: its fields, and the offset of its time zone in minutes
    when it has one. *)
Record datetime := {
  year : nat;
  month : nat;
  day : nat;
  hour : nat;
  minute : nat;
  second : nat;
  microsecond : nat;
  tzinfo : option Z
}.

(** The ranges that a [datetime] object keeps; [%Y] prints four digits
    on every platform from the year 1000 on. *)
Definition valid_datetime (dt : datetime) : Prop :=
  1000 ≤ year dt < 10 * 1000 ∧ 1 ≤ month dt ≤ 12 ∧ 1 ≤ day dt ≤ 31
  ∧ hour dt < 24 ∧ minute dt < 60 ∧ second dt < 60
  ∧ microsecond dt < 1000 * 1000.

(** [dt.replace(tzinfo=timezone.utc)] *)
Definition replace_tzinfo_utc (dt : datetime) : datetime :=
  {| year := year dt; month := month dt; day := day dt; hour := hour dt;
     minute := minute dt; second := second dt;
     microsecond := microsecond dt; tzinfo := Some 0%Z |}.

(** [dt.strftime("%Y-%m-%dT%H:%M:%S.%f")] *)
Definition strftime (dt : datetime) : string :=
  zero_padded 4 (year dt) +:+ "-" +:+ zero_padded 2 (month dt) +:+ "-"
    +:+ zero_padded 2 (day dt) +:+ "T" +:+ zero_padded 2 (hour dt) +:+ ":"
    +:+ zero_padded 2 (minute dt) +:+ ":" +:+ zero_padded 2 (second dt)
    +:+ "." +:+ zero_padded 6 (microsecond dt).

Definition format_datetime (dt : option datetime) : option string :=
  match dt with
  | None => None
  | Some dt =>
      let dt :=
        match tzinfo dt with
        | None => replace_tzinfo_utc dt
        | Some _ => dt
        end in
      Some (drop_last 3 (strftime dt) +:+ "Z")
  end.

(** The dictionary of [get_config_from_env]. *)
Record Config := {
  storage_account_name : string;
  storage_account_key : string;
  dce_endpoint : string;
  dcr_immutable_id : string;
  stream_name : string;
  batch_size : Z;
  max_file_size_for_hash_mb : Z;
  skip_hash_computation : bool;
  exclude_patterns : list string
}.

(** [os.environ.get("SKIP_HASH_COMPUTATION", "true").lower() == "true"];
    [lower] is [str.lower]. *)
Definition skip_hash_from_env (lower : string → string)
    (environ : gmap string string) : bool :=
  String.eqb (lower (environ_get environ "SKIP_HASH_COMPUTATION" "true"))
             "true".

(** [os.environ.get("EXCLUDE_PATTERNS", ...).split(",")] *)
Definition exclude_patterns_from_env (environ : gmap string string)
    : list string :=
  split_on ","
    (environ_get environ "EXCLUDE_PATTERNS" "*.tmp,~$*,.DS_Store,Thumbs.db").

(** [get_config_from_env()]; [lower] is [str.lower] and [int_of_str] is
    [int] on a string, [None] where it raises [ValueError]. *)
Definition get_config_from_env (lower : string → string)
    (int_of_str : string → option Z) (environ : gmap string string)
    : ASD.outcome Config :=
  match int_of_str (environ_get environ "BATCH_SIZE" "500") with
  | None => ASD.Raised "ValueError"
  | Some batch =>
      match int_of_str (environ_get environ "MAX_FILE_SIZE_FOR_HASH_MB" "100")
      with
      | None => ASD.Raised "ValueError"
      | Some max_mb =>
          ASD.Returned
            {| storage_account_name :=
                 environ_get environ "STORAGE_ACCOUNT_NAME" "";
               storage_account_key :=
                 environ_get environ "STORAGE_ACCOUNT_KEY" "";
               dce_endpoint :=
                 environ_get environ "LOG_ANALYTICS_DCE_ENDPOINT" "";
               dcr_immutable_id :=
                 environ_get environ "LOG_ANALYTICS_DCR_IMMUTABLE_ID" "";
               stream_name :=
                 environ_get environ "LOG_ANALYTICS_STREAM_NAME"
                             "Custom-FileInventory_CL";
               batch_size := batch;
               max_file_size_for_hash_mb := max_mb;
               skip_hash_computation := skip_hash_from_env lower environ;
               exclude_patterns := exclude_patterns_from_env environ |}
      end
  end.

End SharedModels.

(** ** function_app.py: the start of a scan *)

Module FunctionApp.

(** The JSON body of the request, a key that is absent being [None]. *)
Record RequestBody := {
  storageAccountName : option string;
  storageAccountKey : option string;
  subscriptionId : option string;
  resourceGroup : option string;
  fileShareNames : option (list string);
  skipHashComputation : option bool;
  batchSize : option Z;
  maxFileSizeForHashMB : option Z;
  excludePatterns : option (list string)
}.

(** The body [{}], also used when the request holds no JSON (line 40). *)
Definition empty_body : RequestBody :=
  {| storageAccountName := None; storageAccountKey := None;
     subscriptionId := None; resourceGroup := None; fileShareNames := None;
     skipHashComputation := None; batchSize := None;
     maxFileSizeForHashMB := None; excludePatterns := None |}.

(** What the function takes from its platform: [str.lower], [int] on a
    string, the identifier drawn by [uuid.uuid4()], the clock, and the
    identifier of the instance that [client.start_new] returns. *)
Record Platform := {
  str_lower : string → string;
  int_of_str : string → option Z;
  uuid4 : string;
  utcnow_isoformat : string;
  new_instance_id : string
}.

(** The [scan_input] dictionary. *)
Record ScanInput := {
  execution_id : string;
  storage_account_name : string;
  storage_account_key : string;
  subscription_id : string;
  resource_group : string;
  file_share_names : list string;
  skip_hash_computation : bool;
  batch_size : Z;
  max_file_size_for_hash_mb : Z;
  exclude_patterns : list string
}.

(** The entries of [scan_input] that [orchestrator_main] reads. *)
Definition client_input (scan_input : ScanInput) : OM.Input :=
  {| OM.execution_id := execution_id scan_input;
     OM.storage_account_name := storage_account_name scan_input;
     OM.storage_account_key := storage_account_key scan_input;
     OM.file_share_names := file_share_names scan_input;
     OM.skip_hash_computation := skip_hash_computation scan_input;
     OM.batch_size := batch_size scan_input;
     OM.max_file_size_for_hash_mb := max_file_size_for_hash_mb scan_input;
     OM.exclude_patterns := exclude_patterns scan_input |}.

Inductive Response : Type :=
| BadRequest (error : string)                           (* status 400 *)
| Accepted (instanceId executionId startTime storageAccount : string).
                                                        (* status 202 *)

(** [http_start_scan]: the response, and the input of the orchestration
    that was started, if one was.  The defaults of [req_body.get] are
    evaluated whether the key is present or not, so a configured size
    that is no integer raises. *)
Definition http_start_scan (platform : Platform)
    (environ : gmap string string) (json : option RequestBody)
    : ASD.outcome (Response * option ScanInput) :=
  let req_body := default empty_body json in
  match int_of_str platform (environ_get environ "BATCH_SIZE" "500") with
  | None => ASD.Raised "ValueError"
  | Some env_batch =>
      match int_of_str platform
              (environ_get environ "MAX_FILE_SIZE_FOR_HASH_MB" "100") with
      | None => ASD.Raised "ValueError"
      | Some env_max =>
          let scan_input :=
            {| execution_id := uuid4 platform;
               storage_account_name :=
                 default (environ_get environ "STORAGE_ACCOUNT_NAME" "")
                         (storageAccountName req_body);
               storage_account_key :=
                 default (environ_get environ "STORAGE_ACCOUNT_KEY" "")
                         (storageAccountKey req_body);
               subscription_id := default "" (subscriptionId req_body);
               resource_group := default "" (resourceGroup req_body);
               file_share_names := default [] (fileShareNames req_body);
               skip_hash_computation :=
                 default (SharedModels.skip_hash_from_env
                            (str_lower platform) environ)
                         (skipHashComputation req_body);
               batch_size := default env_batch (batchSize req_body);
               max_file_size_for_hash_mb :=
                 default env_max (maxFileSizeForHashMB req_body);
               exclude_patterns :=
                 default (SharedModels.exclude_patterns_from_env environ)
                         (excludePatterns req_body) |} in
          if negb (truthy (storage_account_name scan_input)) then
            ASD.Returned (BadRequest "storageAccountName is required", None)
          else if negb (truthy (storage_account_key scan_input)) then
            ASD.Returned
              (BadRequest
                 "storageAccountKey is required (or set STORAGE_ACCOUNT_KEY env var)",
               None)
          else
            ASD.Returned
              (Accepted (new_instance_id platform) (uuid4 platform)
                        (utcnow_isoformat platform +:+ "Z")
                        (storage_account_name scan_input),
               Some scan_input)
      end
  end.

End FunctionApp.

(** ** Notions used to state further properties *)

(** The properties of the file [item] cannot be read. *)
Definition properties_fail (store : ASD.Storage) (item : ASD.Item) : bool :=
  match ASD.get_file_properties store (ASD.item_name item) with
  | ASD.Raised _ => true
  | ASD.Returned _ => false
  end.

(** The files of the listing that the exclusion patterns retain. *)
Definition retained_files (lib : ASD.PyLib) (store : ASD.Storage)
    (input : ASD.Input) : list ASD.Item :=
  List.filter (retained_file lib input) (ASD.listed store).

(** [item] is a file that the exclusion patterns drop. *)
Definition excluded_file (lib : ASD.PyLib) (input : ASD.Input)
    (item : ASD.Item) : bool :=
  negb (ASD.item_is_directory item)
  && ASD.is_file_excluded lib (ASD.item_name item)
                          (ASD.exclude_patterns input).

(** The storage [store], the files that the patterns drop taken out of
    its listing. *)
Definition without_excluded (lib : ASD.PyLib) (input : ASD.Input)
    (store : ASD.Storage) : ASD.Storage :=
  with_listing store
    (List.filter (fun item => negb (excluded_file lib input item))
                 (ASD.listed store))
    (ASD.listing_raises store).

Definition is_download (call : ASD.IOCall) : bool :=
  match call with
  | ASD.CallDownload _ => true
  | ASD.CallGetProperties _ => false
  end.

(** The file that a request to the storage is about. *)
Definition call_file (call : ASD.IOCall) : string :=
  match call with
  | ASD.CallDownload f => f
  | ASD.CallGetProperties f => f
  end.

(** The activities of a share whose scans are made by the scan activity
    on the storage [storage], at the instants [clock], and whose
    deliveries are answered by [send]. *)
Definition scanning_activities (lib : ASD.PyLib)
    (storage : ASD.Input → ASD.Storage) (clock : ASD.Input → Z)
    (send : nat → list ASD.FileRecord → option OFS.SendResult)
    : OFS.Activities :=
  {| OFS.activity_scan_directory := fun task =>
       Some (ASD.main lib (storage task) (clock task) task).1;
     OFS.activity_send_to_log_analytics := send |}.

(** The activities of a share whose deliveries are made by the delivery
    activity, with the sink and the clock of each call. *)
Definition delivering_activities
    (scan : ASD.Input → option ASD.ScanResult)
    (environ : gmap string string) (sink : nat → ASL.Sink)
    (clock : nat → string) : OFS.Activities :=
  {| OFS.activity_scan_directory := scan;
     OFS.activity_send_to_log_analytics := fun i batch =>
       Some (ASL.main environ (sink i) (clock i) batch).1 |}.

(** Both settings of the sink are present. *)
Definition sink_configured (environ : gmap string string) : bool :=
  truthy (environ_get environ "LOG_ANALYTICS_DCE_ENDPOINT" "")
  && truthy (environ_get environ "LOG_ANALYTICS_DCR_IMMUTABLE_ID" "").

(** The world [w] with [names] as the answer of the list activity. *)
Definition discovering (names : list string) (w : OM.World) : OM.World :=
  {| OM.activity_list_file_shares := names;
     OM.share_activities := OM.share_activities w;
     OM.share_clock := OM.share_clock w;
     OM.clock_start := OM.clock_start w;
     OM.clock_end := OM.clock_end w |}.

(** The share entry has no snapshot: the key is absent or empty. *)
Definition base_share (share : ALS.ShareItem) : bool :=
  negb (truthy_opt (ALS.snapshot share)).

(** The requests that the [i]-th delivery of a run makes to its sink. *)
Definition uploads_of (environ : gmap string string) (sink : nat → ASL.Sink)
    (clock : nat → string) (i : nat) (batch : list ASD.FileRecord)
    : list ASL.UploadCall :=
  (ASL.main environ (sink i) (clock i) batch).2.

(** ** Sample data for the rest of the code *)

(** A service with a share, a snapshot of it, and a share whose
    snapshot entry is empty. *)
Definition sample_service : ALS.Service :=
  {| ALS.listed_shares :=
       [ {| ALS.share_name := "share"; ALS.snapshot := None |};
         {| ALS.share_name := "share";
            ALS.snapshot := Some "2026-01-01T00:00:00.0000000Z" |};
         {| ALS.share_name := "archive"; ALS.snapshot := Some "" |} ];
     ALS.listing_raises := None |}.

(** A service that has only snapshots to list. *)
Definition snapshot_service : ALS.Service :=
  {| ALS.listed_shares :=
       [ {| ALS.share_name := "share";
            ALS.snapshot := Some "2026-01-01T00:00:00.0000000Z" |} ];
     ALS.listing_raises := None |}.

(** A stand-in for [int] on the decimal strings. *)
Fixpoint digits_value (acc : Z) (s : string) : option Z :=
  match s with
  | EmptyString => Some acc
  | String c rest =>
      let n := nat_of_ascii c in
      if Nat.leb 48 n && Nat.leb n 57
      then digits_value (10 * acc + Z.of_nat (n - 48)) rest
      else None
  end.

Definition sample_int_of_str (s : string) : option Z :=
  match s with
  | EmptyString => None
  | String "-" EmptyString => None
  | String "-" rest => Z.opp <$> digits_value 0 rest
  | _ => digits_value 0 s
  end.

Definition sample_platform : FunctionApp.Platform :=
  {| FunctionApp.str_lower := sample_lower;
     FunctionApp.int_of_str := sample_int_of_str;
     FunctionApp.uuid4 := "0b5e2d0e-7c1a-4f43-9d6a-3a1f9c2b7e11";
     FunctionApp.utcnow_isoformat := "2026-01-01T00:00:00.000000";
     FunctionApp.new_instance_id := "instance-1" |}.

(** An environment that names the account and its key. *)
Definition sample_environ : gmap string string :=
  {[ "STORAGE_ACCOUNT_NAME" := "account";
     "STORAGE_ACCOUNT_KEY" := "key" ]}.


(** An environment that configures the sink. *)
Definition sink_environ : gmap string string :=
  {[ "LOG_ANALYTICS_DCE_ENDPOINT" := "https://dce.example";
     "LOG_ANALYTICS_DCR_IMMUTABLE_ID" := "dcr-1" ]}.

(** A sink that takes every upload, and one that answers 403. *)
Definition sample_sink : ASL.Sink :=
  {| ASL.client_raises := None;
     ASL.upload := fun _ _ _ => ASL.Uploaded |}.

Definition refusing_sink : ASL.Sink :=
  {| ASL.client_raises := None;
     ASL.upload := fun _ _ _ => ASL.HttpResponseError "403" "Forbidden" |}.

(** A body that names two shares and a batch size. *)
Definition sample_body (batch : Z) : FunctionApp.RequestBody :=
  {| FunctionApp.storageAccountName := Some "account";
     FunctionApp.storageAccountKey := Some "key";
     FunctionApp.subscriptionId := None;
     FunctionApp.resourceGroup := None;
     FunctionApp.fileShareNames := Some ["share"; "share"];
     FunctionApp.skipHashComputation := None;
     FunctionApp.batchSize := Some batch;
     FunctionApp.maxFileSizeForHashMB := None;
     FunctionApp.excludePatterns := None |}.

(** A body whose account name is the empty string. *)
Definition blank_name_body : FunctionApp.RequestBody :=
  {| FunctionApp.storageAccountName := Some "";
     FunctionApp.storageAccountKey := None;
     FunctionApp.subscriptionId := None;
     FunctionApp.resourceGroup := None;
     FunctionApp.fileShareNames := None;
     FunctionApp.skipHashComputation := None;
     FunctionApp.batchSize := None;
     FunctionApp.maxFileSizeForHashMB := None;
     FunctionApp.excludePatterns := None |}.

(** An instant with 123456 microseconds, without a time zone and with
    one. *)
Definition sample_datetime (tz : option Z) : SharedModels.datetime :=
  {| SharedModels.year := 2026; SharedModels.month := 1;
     SharedModels.day := 2; SharedModels.hour := 3;
     SharedModels.minute := 4; SharedModels.second := 5;
     SharedModels.microsecond := 123 * 1000 + 456;
     SharedModels.tzinfo := tz |}.

(** The number that a string of decimal digits denotes. *)
Fixpoint decimal_from (acc : nat) (s : string) : nat :=
  match s with
  | EmptyString => acc
  | String c rest => decimal_from (10 * acc + (nat_of_ascii c - 48)) rest
  end.

Definition decimal_value (s : string) : nat := decimal_from 0 s.

(** The instant [dt] with the time zone entry [tz]. *)
Definition with_tzinfo (tz : option Z) (dt : SharedModels.datetime)
    : SharedModels.datetime :=
  {| SharedModels.year := SharedModels.year dt;
     SharedModels.month := SharedModels.month dt;
     SharedModels.day := SharedModels.day dt;
     SharedModels.hour := SharedModels.hour dt;
     SharedModels.minute := SharedModels.minute dt;
     SharedModels.second := SharedModels.second dt;
     SharedModels.microsecond := SharedModels.microsecond dt;
     SharedModels.tzinfo := tz |}.

(** * Properties *)

(** ** Labelling helpers *)

(** The two copies of the categorisation agree. *)
Lemma get_file_category_copies lower e :
  ASD.get_file_category lower e = Models.get_file_category lower e.
Proof. reflexivity. Qed.

Lemma get_age_bucket_copies a : ASD.get_age_bucket a = Models.get_age_bucket a.
Proof. reflexivity. Qed.

Lemma get_size_bucket_copies s :
  ASD.get_size_bucket s = Models.get_size_bucket s.
Proof. reflexivity. Qed.

Lemma get_file_category_first_match lower e :
  Models.get_file_category lower e
  = SpecTables.first_match SpecTables.category_tables (lower e).
Proof. reflexivity. Qed.

Example category_of_upper_pdf :
  Models.get_file_category sample_lower ".PDF" = "Documents".
Proof. vm_compute. reflexivity. Qed.

(** The Kelvin sign is lowered to the letter k before the tables are
    looked at. *)
Example category_of_kelvin_mkv :
  Models.get_file_category sample_lower (".m" +:+ kelvin_sign +:+ "v")
  = "Videos".
Proof. vm_compute. reflexivity. Qed.

Example size_bucket_of_1023 : Models.get_size_bucket 1023 = "< 1 KB".
Proof. reflexivity. Qed.

Example age_bucket_of_8 : Models.get_age_bucket 8 = "8-30 days".
Proof. reflexivity. Qed.

(** *** Buckets *)

Ltac unfold_units :=
  unfold Models.GB, Models.MB, Models.KB, SpecTables.Ki, SpecTables.Mi,
    SpecTables.Gi in *.

(** Every other bucket of the table is excluded by arithmetic. *)
Ltac bucket_is_only :=
  let b' := fresh "b'" in
  let Hin := fresh "Hin" in
  let Hh := fresh "Hh" in
  intros b' Hin Hh;
  repeat (apply elem_of_cons in Hin as [-> | Hin]);
  try (by apply elem_of_nil in Hin);
  first
    [ reflexivity
    | exfalso;
      unfold SpecTables.in_size_bucket, SpecTables.in_age_bucket,
        SpecTables.above in Hh;
      simpl in Hh; unfold_units; lia ].

(** The [i]-th bucket of [tbl] is the one that applies. *)
Ltac bucket_at tbl i :=
  lazymatch eval vm_compute in (tbl !! i) with
  | Some ?b =>
      exists b; split;
      [ apply list_elem_of_lookup_2 with i; vm_compute; reflexivity
      | split;
        [ unfold SpecTables.in_size_bucket, SpecTables.in_age_bucket,
            SpecTables.above; simpl; unfold_units; lia
        | split; [ reflexivity | unfold tbl; bucket_is_only ] ] ]
  end.

Lemma size_bucket_only (s : Z) :
  SpecTables.only_bucket SpecTables.in_size_bucket SpecTables.size_buckets s
    (Models.get_size_bucket s).
Proof.
  unfold Models.get_size_bucket, SpecTables.only_bucket.
  destruct (Z.ltb_spec s Models.KB);
    [ bucket_at SpecTables.size_buckets 0%nat |].
  destruct (Z.ltb_spec s Models.MB);
    [ bucket_at SpecTables.size_buckets 1%nat |].
  destruct (Z.ltb_spec s (10 * Models.MB));
    [ bucket_at SpecTables.size_buckets 2%nat |].
  destruct (Z.ltb_spec s (100 * Models.MB));
    [ bucket_at SpecTables.size_buckets 3%nat |].
  destruct (Z.ltb_spec s (500 * Models.MB));
    [ bucket_at SpecTables.size_buckets 4%nat |].
  destruct (Z.ltb_spec s Models.GB);
    [ bucket_at SpecTables.size_buckets 5%nat |].
  destruct (Z.ltb_spec s (5 * Models.GB));
    [ bucket_at SpecTables.size_buckets 6%nat |].
  destruct (Z.ltb_spec s (10 * Models.GB));
    [ bucket_at SpecTables.size_buckets 7%nat
    | bucket_at SpecTables.size_buckets 8%nat ].
Qed.

Lemma age_bucket_only (a : Z) :
  SpecTables.only_bucket SpecTables.in_age_bucket SpecTables.age_buckets a
    (Models.get_age_bucket a).
Proof.
  unfold Models.get_age_bucket, SpecTables.only_bucket.
  destruct (Z.leb_spec a 7); [ bucket_at SpecTables.age_buckets 0%nat |].
  destruct (Z.leb_spec a 30); [ bucket_at SpecTables.age_buckets 1%nat |].
  destruct (Z.leb_spec a 90); [ bucket_at SpecTables.age_buckets 2%nat |].
  destruct (Z.leb_spec a 180); [ bucket_at SpecTables.age_buckets 3%nat |].
  destruct (Z.leb_spec a 365); [ bucket_at SpecTables.age_buckets 4%nat |].
  destruct (Z.leb_spec a 730); [ bucket_at SpecTables.age_buckets 5%nat |].
  destruct (Z.leb_spec a 1825);
    [ bucket_at SpecTables.age_buckets 6%nat
    | bucket_at SpecTables.age_buckets 7%nat ].
Qed.

(** C8.  For every size [s] and every age [a] (in particular the
    non-negative ones) exactly one size bucket and exactly one age bucket
    of the threshold tables apply, and they carry the labels that
    [get_size_bucket] and [get_age_bucket] return, in both copies of the
    helpers; the lower threshold of a size bucket belongs to it:
    [get_size_bucket 1024] is "1 KB - 1 MB" and not "< 1 KB". *)
Theorem bucket_totality_exclusivity (s a : Z) :
  SpecTables.only_bucket SpecTables.in_size_bucket SpecTables.size_buckets s
    (Models.get_size_bucket s)
  ∧ SpecTables.only_bucket SpecTables.in_age_bucket SpecTables.age_buckets a
      (Models.get_age_bucket a)
  ∧ ASD.get_size_bucket s = Models.get_size_bucket s
  ∧ ASD.get_age_bucket a = Models.get_age_bucket a
  ∧ Models.get_size_bucket 1024 = "1 KB - 1 MB"
  ∧ ASD.get_size_bucket 1024 = "1 KB - 1 MB".
Proof.
  split; [apply size_bucket_only|].
  split; [apply age_bucket_only|].
  repeat split.
Qed.

(** *** Categories *)

Lemma first_match_no_table tables ext :
  forallb (fun t => negb (py_in ext t.2)) tables = true →
  SpecTables.first_match tables ext = "Other".
Proof.
  induction tables as [|[category exts] tables IH]; simpl; [done|].
  intros [Hhd Htl]%andb_prop.
  apply negb_true_iff in Hhd. rewrite Hhd. by apply IH.
Qed.

(** C9.  Categorisation looks at the lower-cased extension only, in both
    copies of the helper: two extensions with the same lower-cased form
    have the same category, so that, [str.lower] leaving a lower-cased
    string as it is, [get_file_category e] is
    [get_file_category (lower e)]; and an extension that (lower-cased, as
    the helper compares it) is in none of the category tables is given
    the category "Other". *)
Theorem categorization_case_insensitive (lower : string → string)
    (e : string) :
  lower (lower e) = lower e →
  Models.get_file_category lower e
  = Models.get_file_category lower (lower e)
  ∧ ASD.get_file_category lower e = ASD.get_file_category lower (lower e)
  ∧ (∀ e', lower e' = lower e →
       Models.get_file_category lower e' = Models.get_file_category lower e
       ∧ ASD.get_file_category lower e' = ASD.get_file_category lower e)
  ∧ (SpecTables.in_no_table (lower e) = true →
     Models.get_file_category lower e = "Other"
     ∧ ASD.get_file_category lower e = "Other").
Proof.
  intros Hlower.
  assert (∀ e', lower e' = lower e →
            Models.get_file_category lower e'
            = Models.get_file_category lower e) as Hsame.
  { intros e' He'. unfold Models.get_file_category. by rewrite He'. }
  split; [symmetry; by apply Hsame|].
  split; [symmetry; by apply (Hsame (lower e))|].
  split; [intros e' He'; split; by apply Hsame|].
  intros Hnone.
  change (ASD.get_file_category lower e)
    with (Models.get_file_category lower e).
  rewrite get_file_category_first_match.
  split; by apply first_match_no_table.
Qed.

Lemma categorization_case_insensitive_witness :
  let e := ".M" +:+ kelvin_sign +:+ "V" in
  sample_lower e = ".mkv"
  ∧ Models.get_file_category sample_lower e = "Videos"
  ∧ ASD.get_file_category sample_lower e
    = ASD.get_file_category sample_lower ".mkv"
  ∧ SpecTables.in_no_table (sample_lower ".XyZ") = true
  ∧ Models.get_file_category sample_lower ".XyZ" = "Other"
  ∧ ASD.get_file_category sample_lower ".XyZ" = "Other".
Proof.
  cbv zeta.
  destruct (categorization_case_insensitive sample_lower
              (".M" +:+ kelvin_sign +:+ "V") eq_refl)
    as (Hmodels & Hactivity & _).
  destruct (categorization_case_insensitive sample_lower ".XyZ" eq_refl)
    as (_ & _ & _ & Hother).
  assert (SpecTables.in_no_table (sample_lower ".XyZ") = true) as Hnone
    by (vm_compute; reflexivity).
  split; [reflexivity|].
  split; [rewrite Hmodels; vm_compute; reflexivity|].
  split; [exact Hactivity|].
  split; [exact Hnone|].
  exact (Hother Hnone).
Defined.

(** C10.  The category tables overlap and are tried in the fixed order
    Documents, Images, Videos, Audio, Archives, Code, Executables,
    Databases, Logs, Temporary; the first table that holds the
    lower-cased extension gives the category.  ".bak" is in the database
    table and in the temporary table, and every extension that
    [str.lower] turns into ".bak" is categorised "Databases". *)
Theorem first_matching_table_wins (lower : string → string) (e : string) :
  Models.get_file_category lower e
  = SpecTables.first_match SpecTables.category_tables (lower e)
  ∧ ASD.get_file_category lower e
    = SpecTables.first_match SpecTables.category_tables (lower e)
  ∧ SpecTables.category_tables.*1
    = [ "Documents"; "Images"; "Videos"; "Audio"; "Archives"; "Code";
        "Executables"; "Databases"; "Logs"; "Temporary" ]
  ∧ py_in ".bak" Models.database_exts = true
  ∧ py_in ".bak" Models.temp_exts = true
  ∧ (lower e = ".bak" →
     Models.get_file_category lower e = "Databases"
     ∧ ASD.get_file_category lower e = "Databases").
Proof.
  split; [reflexivity|].
  split; [reflexivity|].
  split; [reflexivity|].
  split; [vm_compute; reflexivity|].
  split; [vm_compute; reflexivity|].
  intros Hbak.
  change (ASD.get_file_category lower e)
    with (Models.get_file_category lower e).
  unfold Models.get_file_category. rewrite Hbak.
  split; vm_compute; reflexivity.
Qed.

Lemma first_matching_table_wins_witness :
  let e := ".BA" +:+ kelvin_sign in
  sample_lower e = ".bak"
  ∧ Models.get_file_category sample_lower e = "Databases"
  ∧ ASD.get_file_category sample_lower e = "Databases"
  ∧ Models.get_file_category sample_lower ".BAK" = "Databases".
Proof.
  cbv zeta. split; [reflexivity|].
  destruct (proj2 (proj2 (proj2 (proj2 (proj2
              (first_matching_table_wins sample_lower
                 (".BA" +:+ kelvin_sign)))))) eq_refl)
    as [Hmodels Hactivity].
  split; [exact Hmodels|]. split; [exact Hactivity|].
  exact (proj1 (proj2 (proj2 (proj2 (proj2 (proj2
           (first_matching_table_wins sample_lower ".BAK"))))) eq_refl)).
Defined.

(** ** The directory scan *)

Section DirectoryScan.

Variables (lib : ASD.PyLib) (store : ASD.Storage) (input : ASD.Input)
          (now : Z).

Local Abbreviation scan := (ASD.scan_items lib store input now).
Local Abbreviation step := (ASD.scan_item lib store input now).

Lemma merge_scans_assoc a b c :
  merge_scans (merge_scans a b) c = merge_scans a (merge_scans b c).
Proof.
  unfold merge_scans; simpl. f_equal; [f_equal|]; try lia;
    by rewrite app_assoc.
Qed.

Lemma merge_scans_empty a :
  merge_scans a (ASD.empty_result input, []) = a.
Proof.
  destruct a as [[] calls]. unfold merge_scans; simpl.
  rewrite !Z.add_0_r, !app_nil_r. reflexivity.
Qed.

(** One entry adds its own contribution to what was gathered before. *)
Lemma scan_item_merge acc item :
  step acc item = merge_scans acc (step (ASD.empty_result input, []) item).
Proof.
  destruct acc as [r calls]. unfold ASD.scan_item.
  destruct (ASD.item_is_directory item).
  { unfold merge_scans; simpl. by rewrite !Z.add_0_r, !app_nil_r. }
  destruct (ASD.is_file_excluded _ _ _).
  { symmetry. apply merge_scans_empty. }
  destruct (ASD.process_file _ _ _ _ _) as [[record|msg] io];
    unfold merge_scans; simpl; by rewrite ?Z.add_0_r, ?app_nil_r.
Qed.

Lemma fold_scan_item_merge items acc :
  fold_left step items acc = merge_scans acc (scan items).
Proof.
  unfold ASD.scan_items.
  induction items as [|item items IH] using rev_ind.
  { simpl. symmetry. apply merge_scans_empty. }
  rewrite !fold_left_app. simpl.
  rewrite IH, scan_item_merge, merge_scans_assoc.
  f_equal. symmetry. apply scan_item_merge.
Qed.

Lemma scan_items_app xs ys :
  scan (xs ++ ys) = merge_scans (scan xs) (scan ys).
Proof.
  unfold ASD.scan_items at 1. rewrite fold_left_app.
  apply fold_scan_item_merge.
Qed.

Lemma scan_items_cons x xs :
  scan (x :: xs) = merge_scans (scan [x]) (scan xs).
Proof. apply (scan_items_app [x] xs). Qed.

(** What [main] returns, field by field. *)
Lemma main_file_records :
  ASD.file_records (ASD.main lib store now input).1
  = ASD.file_records (scan (ASD.listed store)).1.
Proof.
  unfold ASD.main. destruct (scan _) as [r c].
  by destruct (ASD.listing_raises store).
Qed.

Lemma main_subdirectories :
  ASD.subdirectories (ASD.main lib store now input).1
  = ASD.subdirectories (scan (ASD.listed store)).1.
Proof.
  unfold ASD.main. destruct (scan _) as [r c].
  by destruct (ASD.listing_raises store).
Qed.

Lemma main_calls :
  (ASD.main lib store now input).2 = (scan (ASD.listed store)).2.
Proof.
  unfold ASD.main. destruct (scan _) as [r c].
  by destruct (ASD.listing_raises store).
Qed.

(** *** What one entry contributes *)

Lemma scan_single item :
  scan [item] = step (ASD.empty_result input, []) item.
Proof. reflexivity. Qed.

Lemma compute_hash_download skip max name sz f :
  ASD.CallDownload f ∈ (ASD.compute_hash lib store skip max name sz).2 →
  f = name ∧ skip = false ∧ (sz <= max)%Z ∧ (sz <= 10 * 1024 * 1024)%Z.
Proof.
  unfold ASD.compute_hash.
  destruct skip; simpl.
  { intros []%elem_of_nil. }
  destruct (Z.leb_spec sz max); simpl.
  - destruct (Z.leb_spec sz (10 * 1024 * 1024)); simpl.
    + destruct (ASD.download_file store name); simpl;
        intros [= ->]%list_elem_of_singleton; auto.
    + destruct (max <? sz)%Z; intros []%elem_of_nil.
  - destruct (max <? sz)%Z; intros []%elem_of_nil.
Qed.

Lemma process_file_download item f :
  ASD.CallDownload f ∈ (ASD.process_file lib store input now item).2 →
  ASD.item_name item = f
  ∧ ASD.skip_hash_computation input = false
  ∧ (ASD.item_size item <= hash_limit input)%Z.
Proof.
  unfold ASD.process_file, hash_limit.
  destruct (ASD.get_file_properties store _) as [props|msg]; simpl.
  - destruct (ASD.compute_hash _ _ _ _ _ _) as [h calls] eqn:Hh; simpl.
    intros [Hin|Hin]%elem_of_cons; [discriminate|].
    assert (ASD.CallDownload f
              ∈ (ASD.compute_hash lib store (ASD.skip_hash_computation input)
                   (ASD.max_file_size_for_hash_mb input * 1024 * 1024)
                   (ASD.item_name item) (ASD.item_size item)).2) as Hc
      by (rewrite Hh; exact Hin).
    apply compute_hash_download in Hc as (-> & ? & ? & ?).
    repeat split; [done|lia].
  - intros [Hin|[]%elem_of_nil]%elem_of_cons. discriminate.
Qed.

Lemma scan_single_download item f :
  ASD.CallDownload f ∈ (scan [item]).2 →
  ASD.item_name item = f
  ∧ ASD.skip_hash_computation input = false
  ∧ (ASD.item_size item <= hash_limit input)%Z.
Proof.
  rewrite scan_single. unfold ASD.scan_item.
  destruct (ASD.item_is_directory item); [intros []%elem_of_nil|].
  destruct (ASD.is_file_excluded _ _ _); [intros []%elem_of_nil|].
  destruct (ASD.process_file _ _ _ _ _) as [[record|msg] io] eqn:Hp;
    simpl; intros Hin; apply process_file_download; by rewrite Hp.
Qed.

Lemma scan_items_download items f :
  ASD.CallDownload f ∈ (scan items).2 →
  ASD.skip_hash_computation input = false
  ∧ ∃ item, item ∈ items ∧ ASD.item_name item = f
            ∧ (ASD.item_size item <= hash_limit input)%Z.
Proof.
  induction items as [|item items IH].
  { intros []%elem_of_nil. }
  rewrite scan_items_cons. simpl.
  intros [Hin|Hin]%elem_of_app.
  - apply scan_single_download in Hin as (? & ? & ?).
    split; [done|]. exists item. split; [apply list_elem_of_here|done].
  - destruct (IH Hin) as (? & item' & ? & ? & ?).
    split; [done|]. exists item'. split; [by apply list_elem_of_further|done].
Qed.

(** The records are those of the retained files whose processing
    returned. *)
Lemma scan_single_records item rec :
  rec ∈ ASD.file_records (scan [item]).1 ↔
  retained_file lib input item = true
  ∧ ∃ io, ASD.process_file lib store input now item = (ASD.Returned rec, io).
Proof.
  rewrite scan_single. unfold ASD.scan_item, retained_file.
  destruct (ASD.item_is_directory item); simpl.
  { split; [intros []%elem_of_nil|intros [? _]; discriminate]. }
  destruct (ASD.is_file_excluded _ _ _); simpl.
  { split; [intros []%elem_of_nil|intros [? _]; discriminate]. }
  destruct (ASD.process_file _ _ _ _ _) as [[record|msg] io]; simpl.
  - split.
    + intros ->%list_elem_of_singleton. eauto.
    + intros [_ [io' [= ->]]]. apply list_elem_of_here.
  - split; [intros []%elem_of_nil|intros [_ [io' ?]]; discriminate].
Qed.

Lemma scan_items_records items rec :
  rec ∈ ASD.file_records (scan items).1 ↔
  ∃ item, item ∈ items ∧ retained_file lib input item = true
    ∧ ∃ io, ASD.process_file lib store input now item = (ASD.Returned rec, io).
Proof.
  induction items as [|item items IH].
  { split; [intros []%elem_of_nil|intros (? & []%elem_of_nil & _)]. }
  rewrite scan_items_cons. simpl. rewrite elem_of_app, IH.
  rewrite scan_single_records. split.
  - intros [[? ?]|(item' & ? & ?)].
    + exists item. split; [apply list_elem_of_here|done].
    + exists item'. split; [by apply list_elem_of_further|done].
  - intros (item' & [->|Hin]%elem_of_cons & ?); [by left|].
    right. by exists item'.
Qed.

(** The hash field of a record. *)
Lemma process_file_hash_skipped item rec io :
  ASD.skip_hash_computation input = true →
  ASD.process_file lib store input now item = (ASD.Returned rec, io) →
  ASD.FileHash rec = "SKIPPED" ∧ ASD.FileName rec = ASD.item_name item.
Proof.
  unfold ASD.process_file, ASD.compute_hash. intros ->.
  destruct (ASD.get_file_properties store _); [|discriminate].
  simpl. by intros [= <- _].
Qed.

Lemma process_file_hash_error item props msg :
  ASD.skip_hash_computation input = false →
  (ASD.item_size item <= hash_limit input)%Z →
  ASD.get_file_properties store (ASD.item_name item) = ASD.Returned props →
  ASD.download_file store (ASD.item_name item) = ASD.Raised msg →
  ∃ rec io, ASD.process_file lib store input now item = (ASD.Returned rec, io)
    ∧ ASD.FileName rec = ASD.item_name item
    ∧ ASD.FileSizeBytes rec = ASD.item_size item
    ∧ ASD.FileHash rec = "ERROR".
Proof.
  unfold ASD.process_file, ASD.compute_hash, hash_limit.
  intros -> Hsize -> ->. simpl.
  destruct (Z.leb_spec (ASD.item_size item)
              (ASD.max_file_size_for_hash_mb input * 1024 * 1024)); [|lia].
  destruct (Z.leb_spec (ASD.item_size item) (10 * 1024 * 1024)); [|lia].
  simpl. eauto 10.
Qed.

End DirectoryScan.

Example sample_scan_run :
  let r := (ASD.main sample_lib sample_store sample_now
              (sample_scan_input false)).1 in
  ASD.subdirectories r = ["sub"]
  ∧ ASD.FileName <$> ASD.file_records r = ["a.txt"; "c.pdf"; "big.iso"]
  ∧ ASD.FileHash <$> ASD.file_records r = ["MD5:content"; "ERROR"; "SKIPPED"]
  ∧ ASD.FileCategory <$> ASD.file_records r = ["Documents"; "Documents"; "Other"]
  ∧ ASD.SizeBucket <$> ASD.file_records r
    = ["< 1 KB"; "1 MB - 10 MB"; "10 MB - 100 MB"]
  ∧ ASD.AgeBucket <$> ASD.file_records r
    = ["8-30 days"; "8-30 days"; "8-30 days"]
  ∧ ASD.files_processed r = 3%Z
  ∧ ASD.errors r = ["Error processing file locked.doc: access denied"].
Proof. vm_compute. repeat split. Qed.

(** C6.  When hashing is enabled a file is downloaded for hashing only
    if its size is at most the smaller of the configured maximum and the
    fixed ceiling of 10 MiB; when that download fails the record of the
    file is still produced, with the hash "ERROR"; when hashing is
    disabled no file is downloaded and every record carries the sentinel
    "SKIPPED". *)
Theorem hash_policy (lib : ASD.PyLib) (store : ASD.Storage) (now : Z)
    (input : ASD.Input) :
  (∀ f, ASD.CallDownload f ∈ (ASD.main lib store now input).2 →
     ASD.skip_hash_computation input = false
     ∧ ∃ item, item ∈ ASD.listed store ∧ ASD.item_name item = f
         ∧ (ASD.item_size item <= hash_limit input)%Z)
  ∧ (∀ item props msg,
       item ∈ ASD.listed store →
       retained_file lib input item = true →
       ASD.skip_hash_computation input = false →
       (ASD.item_size item <= hash_limit input)%Z →
       ASD.get_file_properties store (ASD.item_name item)
         = ASD.Returned props →
       ASD.download_file store (ASD.item_name item) = ASD.Raised msg →
       ∃ rec, rec ∈ ASD.file_records (ASD.main lib store now input).1
         ∧ ASD.FileName rec = ASD.item_name item
         ∧ ASD.FileSizeBytes rec = ASD.item_size item
         ∧ ASD.FileHash rec = "ERROR")
  ∧ (ASD.skip_hash_computation input = true →
     (∀ f, ASD.CallDownload f ∉ (ASD.main lib store now input).2)
     ∧ ∀ rec, rec ∈ ASD.file_records (ASD.main lib store now input).1 →
         ASD.FileHash rec = "SKIPPED").
Proof.
  rewrite main_calls, main_file_records.
  split; [|split].
  - intros f. apply scan_items_download.
  - intros item props msg Hin Hkept Hskip Hsize Hprops Hdown.
    destruct (process_file_hash_error lib store input now item props msg)
      as (rec & io & Hp & ? & ? & ?); try done.
    exists rec. split; [|done].
    apply scan_items_records. exists item. eauto.
  - intros Hskip. split.
    + intros f [Hno _]%scan_items_download. congruence.
    + intros rec (item & _ & _ & io & Hp)%scan_items_records.
      by destruct (process_file_hash_skipped lib store input now item rec io).
Qed.

Lemma hash_policy_witness :
  (ASD.CallDownload "a.txt"
     ∈ (ASD.main sample_lib sample_store sample_now
          (sample_scan_input false)).2
   ∧ ASD.skip_hash_computation (sample_scan_input false) = false
   ∧ ∃ item, item ∈ ASD.listed sample_store ∧ ASD.item_name item = "a.txt"
       ∧ (ASD.item_size item <= hash_limit (sample_scan_input false))%Z)
  ∧ (∃ rec, rec ∈ ASD.file_records
                    (ASD.main sample_lib sample_store sample_now
                       (sample_scan_input false)).1
       ∧ ASD.FileName rec = "c.pdf" ∧ ASD.FileSizeBytes rec = 2097152%Z
       ∧ ASD.FileHash rec = "ERROR")
  ∧ (ASD.skip_hash_computation (sample_scan_input true) = true
     ∧ (∀ f, ASD.CallDownload f
               ∉ (ASD.main sample_lib sample_store sample_now
                    (sample_scan_input true)).2)
     ∧ ∀ rec, rec ∈ ASD.file_records
                      (ASD.main sample_lib sample_store sample_now
                         (sample_scan_input true)).1 →
         ASD.FileHash rec = "SKIPPED").
Proof.
  pose proof (hash_policy sample_lib sample_store sample_now
                (sample_scan_input false)) as (Hdown & Herr & _).
  pose proof (hash_policy sample_lib sample_store sample_now
                (sample_scan_input true)) as (_ & _ & Hskip).
  split; [|split].
  - assert (ASD.CallDownload "a.txt"
              ∈ (ASD.main sample_lib sample_store sample_now
                   (sample_scan_input false)).2) as Hin.
    { vm_compute. apply list_elem_of_further, list_elem_of_here. }
    split; [exact Hin|]. exact (Hdown _ Hin).
  - apply (Herr (sample_file "c.pdf" 2097152)
                {| ASD.last_modified := Some 0%Z; ASD.creation_time := None |}
                "timed out"); try reflexivity.
    + vm_compute. do 4 apply list_elem_of_further. apply list_elem_of_here.
    + vm_compute. discriminate.
  - split; [reflexivity|]. exact (Hskip eq_refl).
Defined.




Lemma main_errors lib store now input :
  ASD.errors (ASD.main lib store now input).1
  = ASD.errors (ASD.scan_items lib store input now (ASD.listed store)).1
    ++ match ASD.listing_raises store with
       | Some e => [directory_error_message input e]
       | None => []
       end.
Proof.
  unfold ASD.main. destruct (ASD.scan_items _ _ _ _ _) as [r c].
  destruct (ASD.listing_raises store); simpl; [done|by rewrite app_nil_r].
Qed.

Lemma main_counters lib store now input :
  ASD.files_processed (ASD.main lib store now input).1
  = ASD.files_processed
      (ASD.scan_items lib store input now (ASD.listed store)).1
  ∧ ASD.bytes_processed (ASD.main lib store now input).1
    = ASD.bytes_processed
        (ASD.scan_items lib store input now (ASD.listed store)).1.
Proof.
  unfold ASD.main. destruct (ASD.scan_items _ _ _ _ _) as [r c].
  by destruct (ASD.listing_raises store).
Qed.




(** ** The per-share wave loop *)

(** *** Slices *)

Lemma slice_to_from {A} (l : list A) n : slice_to l n ++ slice_from l n = l.
Proof. apply firstn_skipn. Qed.

Lemma slice_bound_pos n len :
  (0 < n)%Z → (n <= Z.of_nat len)%Z → slice_bound n len = Z.to_nat n.
Proof.
  intros Hpos Hle. unfold slice_bound.
  destruct (Z.ltb_spec n 0); [lia|]. f_equal. lia.
Qed.

Lemma slice_to_length {A} (l : list A) n :
  (0 < n)%Z → (n <= Z.of_nat (length l))%Z →
  Z.of_nat (length (slice_to l n)) = n.
Proof.
  intros Hpos Hle. unfold slice_to.
  rewrite slice_bound_pos, length_take by done. lia.
Qed.

Lemma slice_from_length {A} (l : list A) n :
  (0 < n)%Z → (n <= Z.of_nat (length l))%Z →
  Z.of_nat (length (slice_from l n)) = (Z.of_nat (length l) - n)%Z.
Proof.
  intros Hpos Hle. unfold slice_from.
  rewrite slice_bound_pos, length_drop by done. lia.
Qed.

(** *** Deliveries *)

Lemma successful_from_snoc act i calls batch :
  successful_from act i (calls ++ [batch])
  = successful_from act i calls
    + (if send_succeeded act (i + length calls) batch then 1 else 0).
Proof.
  revert i. induction calls as [|c calls IH]; intros i; simpl.
  - replace (i + 0) with i by lia. lia.
  - rewrite IH. replace (S i + length calls) with (i + S (length calls)) by lia.
    lia.
Qed.

Lemma successful_from_le act i calls :
  successful_from act i calls ≤ length calls.
Proof.
  revert i. induction calls as [|c calls IH]; intros i; simpl; [lia|].
  specialize (IH (S i)). destruct (send_succeeded act i c); lia.
Qed.

Section FileShare.

Variables (act : OFS.Activities) (input : OFS.Input).

Local Abbreviation batch_size := (OFS.batch_size input).

(** A rule for the delivery loop: what every delivery preserves holds
    when the loop exits, and fewer than [batch_size] records are left. *)
Lemma send_full_batches_rule (P : OFS.State → Prop) fuel st st' :
  (∀ s, (batch_size <= Z.of_nat (length (OFS.current_batch s)))%Z → P s →
        P (OFS.send_batch act s
             (slice_to (OFS.current_batch s) batch_size)
             (slice_from (OFS.current_batch s) batch_size))) →
  OFS.send_full_batches fuel act input st = Some st' →
  P st →
  P st' ∧ (Z.of_nat (length (OFS.current_batch st')) < batch_size)%Z.
Proof.
  intros Hstep. revert st.
  induction fuel as [|fuel IH]; intros st; simpl;
    destruct (Z.leb_spec batch_size (Z.of_nat (length (OFS.current_batch st))));
    try discriminate.
  - intros [= <-]; auto.
  - intros Hrun HP. apply (IH _ Hrun). by apply Hstep.
  - intros [= <-]; auto.
Qed.

(** With a positive batch size the delivery loop exits. *)
Lemma send_full_batches_exits fuel st :
  (0 < batch_size)%Z →
  length (OFS.current_batch st) ≤ fuel →
  is_Some (OFS.send_full_batches fuel act input st).
Proof.
  intros Hpos. revert st.
  induction fuel as [|fuel IH]; intros st Hfuel; simpl;
    destruct (Z.leb_spec batch_size (Z.of_nat (length (OFS.current_batch st))));
    try (by eexists); try lia.
  apply IH. simpl.
  pose proof (slice_from_length (OFS.current_batch st) batch_size). lia.
Qed.

(** A rule for the loop over the results of a wave: [P seen s] holds
    between the results [seen] folded so far and the state. *)
Lemma process_results_rule (P : list ASD.ScanResult → OFS.State → Prop)
    fuel results :
  (∀ seen s,
     (batch_size <= Z.of_nat (length (OFS.current_batch s)))%Z → P seen s →
     P seen (OFS.send_batch act s
               (slice_to (OFS.current_batch s) batch_size)
               (slice_from (OFS.current_batch s) batch_size))) →
  (∀ seen s r, P seen s → P (seen ++ [r]) (OFS.fold_result s r)) →
  ∀ st st' seen,
    OFS.process_results fuel act input st results = Some st' →
    P seen st → P (seen ++ omap id results) st'.
Proof.
  intros Hsend Hfold.
  induction results as [|[r|] results IH]; intros st st' seen Hrun HP;
    simpl in Hrun.
  - injection Hrun as <-. change (omap id []) with (@nil ASD.ScanResult).
    by rewrite app_nil_r.
  - destruct (OFS.send_full_batches _ _ _ _) as [s|] eqn:Hs; [|discriminate].
    change (omap id (Some r :: results)) with ([r] ++ omap id results).
    rewrite app_assoc.
    apply (IH _ _ _ Hrun).
    apply (send_full_batches_rule (P (seen ++ [r])) _ _ _ (Hsend _) Hs).
    by apply Hfold.
  - change (omap id (None :: results)) with (omap id results).
    by apply (IH _ _ _ Hrun).
Qed.

(** After the results of a wave fewer than [batch_size] records stay in
    the batch, as before them. *)
Lemma process_results_short fuel results st st' :
  OFS.process_results fuel act input st results = Some st' →
  (Z.of_nat (length (OFS.current_batch st)) < batch_size)%Z →
  (Z.of_nat (length (OFS.current_batch st')) < batch_size)%Z.
Proof.
  revert st. induction results as [|[r|] results IH]; intros st; simpl.
  - by intros [= <-].
  - destruct (OFS.send_full_batches _ _ _ _) as [s|] eqn:Hs; [|discriminate].
    intros Hrun _. apply (IH _ Hrun).
    by apply (send_full_batches_rule (fun _ => True) _ _ _ (fun _ _ _ => I) Hs).
  - apply IH.
Qed.

Lemma py_sum_snoc l x : py_sum (l ++ [x]) = (py_sum l + x)%Z.
Proof. induction l as [|y l IH]; simpl; lia. Qed.

Lemma py_sum_app l1 l2 : py_sum (l1 ++ l2) = (py_sum l1 + py_sum l2)%Z.
Proof. induction l1 as [|y l IH]; simpl; lia. Qed.

Lemma folded_start st : folded act input st [] st.
Proof.
  unfold folded, queued_from; simpl. rewrite !app_nil_r, !Z.add_0_r.
  repeat (split; [reflexivity|]).
  exists []. rewrite app_nil_r. simpl. repeat split; [lia|].
  intros _. constructor.
Qed.

Lemma folded_send st seen s :
  (batch_size <= Z.of_nat (length (OFS.current_batch s)))%Z →
  folded act input st seen s →
  folded act input st seen
    (OFS.send_batch act s (slice_to (OFS.current_batch s) batch_size)
       (slice_from (OFS.current_batch s) batch_size)).
Proof.
  intros Hfull (Hq & Hp & Hw & Hc & He & Hr & Hf & Hb & new & Hnew & Hn & Hlen).
  unfold folded; simpl.
  repeat (split; [assumption|]).
  split.
  { rewrite <- Hr, concat_app; simpl. rewrite app_nil_r, <- app_assoc.
    by rewrite slice_to_from. }
  repeat (split; [assumption|]).
  exists (new ++ [slice_to (OFS.current_batch s) batch_size]).
  split; [by rewrite Hnew, app_assoc|].
  split.
  - rewrite successful_from_snoc, Hn, Hnew, length_app.
    unfold send_succeeded.
    destruct (OFS.activity_send_to_log_analytics act _ _) as [r|];
      [destruct (OFS.success r)|]; lia.
  - intros Hpos. apply Forall_app. split; [by apply Hlen|].
    constructor; [|constructor]. by apply slice_to_length.
Qed.

Lemma folded_fold st seen s r :
  folded act input st seen s →
  folded act input st (seen ++ [r]) (OFS.fold_result s r).
Proof.
  intros (Hq & Hp & Hw & Hc & He & Hr & Hf & Hb & new & Hnew & Hn & Hlen).
  unfold folded, queued_from; simpl.
  rewrite !flat_map_app, !map_app, !py_sum_app; simpl.
  rewrite !app_nil_r, !Z.add_0_r.
  split; [by rewrite Hq, Hp, <- app_assoc|].
  repeat (split; [assumption|]).
  split; [by rewrite He, <- app_assoc|].
  split; [by rewrite app_assoc, Hr, <- !app_assoc|].
  split; [lia|]. split; [lia|]. by exists new.
Qed.

(** What the loop over the results of a wave does to the state. *)
Lemma process_results_folded fuel results st st' :
  OFS.process_results fuel act input st results = Some st' →
  folded act input st (omap id results) st'.
Proof.
  intros Hrun.
  apply (process_results_rule (folded act input st) fuel results
           (fun seen s => folded_send st seen s)
           (fun seen s r => folded_fold st seen s r) st st' [] Hrun).
  apply folded_start.
Qed.

(** With a positive batch size the loop over the results exits. *)
Lemma process_results_exits fuel results st :
  (0 < batch_size)%Z →
  length (OFS.current_batch st)
    + length (flat_map ASD.file_records (omap id results)) ≤ fuel →
  is_Some (OFS.process_results fuel act input st results).
Proof.
  intros Hpos. revert st.
  induction results as [|[r|] results IH]; intros st Hfuel; simpl.
  - by eexists.
  - change (length (OFS.current_batch st)
            + length (ASD.file_records r
                        ++ flat_map ASD.file_records (omap id results))
            ≤ fuel) in Hfuel.
    rewrite length_app in Hfuel.
    destruct (send_full_batches_exits fuel (OFS.fold_result st r) Hpos)
      as [s Hs].
    { simpl. rewrite length_app. lia. }
    rewrite Hs. apply IH.
    assert (length (OFS.current_batch s)
            ≤ length (OFS.current_batch (OFS.fold_result st r))) as Hle.
    { eapply proj1,
        (send_full_batches_rule
           (fun s => length (OFS.current_batch s)
                     ≤ length (OFS.current_batch (OFS.fold_result st r)))
           fuel (OFS.fold_result st r) s); [|exact Hs|lia].
      intros s0 Hfull Hs0.
      pose proof (slice_from_length (OFS.current_batch s0) batch_size).
      simpl in *. lia. }
    simpl in Hle. rewrite length_app in Hle. lia.
  - apply IH. exact Hfuel.
Qed.

(** *** One wave *)

(** The directories picked for a wave are distinct and were not dequeued
    before; what stays in the queue is a suffix of it. *)
Lemma take_wave_spec q cur P cur' q' P' :
  OFS.take_wave q cur P = (cur', q', P') →
  ∃ taken,
    cur' = cur ++ taken ∧ P' = list_to_set taken ∪ P ∧ NoDup taken
    ∧ (∀ x, x ∈ taken → x ∉ P) ∧ (∀ x, x ∈ taken → x ∈ q)
    ∧ q' `suffix_of` q.
Proof.
  revert cur P. induction q as [|x q IH]; intros cur P; simpl.
  - intros [= <- <- <-]. exists []. rewrite app_nil_r.
    repeat split; [set_solver|constructor|set_solver|set_solver|done].
  - destruct (Nat.ltb_spec (length cur) OFS.max_parallel_dirs).
    + case_bool_decide as Hx.
      * intros Hrun. destruct (IH _ _ Hrun) as (taken & ? & ? & ? & ? & ? & ?).
        exists taken. repeat split; try done.
        -- intros y Hy. apply list_elem_of_further. auto.
        -- by apply suffix_cons_r.
      * intros Hrun.
        destruct (IH _ _ Hrun) as (taken & -> & -> & Hnd & Hnew & Hin & Hsuf).
        exists (x :: taken). rewrite <- app_assoc. simpl.
        repeat split.
        -- set_solver.
        -- constructor; [|done]. intros Hx'. apply (Hnew _ Hx'). set_solver.
        -- intros y [->|Hy]%elem_of_cons; [done|].
           intros HyP. apply (Hnew _ Hy). set_solver.
        -- intros y [->|Hy]%elem_of_cons; [apply list_elem_of_here|].
           apply list_elem_of_further. auto.
        -- by apply suffix_cons_r.
    + intros [= <- <- <-]. exists []. rewrite app_nil_r.
      repeat split; [set_solver|constructor|set_solver|set_solver|done].
Qed.

Lemma omap_id_map {A B} (f : A → option B) (l : list A) :
  omap id (map f l) = omap f l.
Proof.
  induction l as [|x l IH]; [reflexivity|].
  cbn. destruct (f x); cbn; by rewrite <- IH.
Qed.

Lemma received_app dirs1 dirs2 :
  received act input (dirs1 ++ dirs2)
  = received act input dirs1 ++ received act input dirs2.
Proof. apply omap_app. Qed.

Lemma successful_from_app i calls1 calls2 :
  successful_from act i (calls1 ++ calls2)
  = successful_from act i calls1
    + successful_from act (i + length calls1) calls2.
Proof.
  revert i. induction calls1 as [|c calls1 IH]; intros i; simpl.
  - by replace (i + 0) with i by lia.
  - rewrite IH. replace (S i + length calls1) with (i + S (length calls1))
      by lia. lia.
Qed.

(** What one iteration of the outer loop does to the state. *)
Lemma wave_body_spec fuel st st' :
  OFS.wave_body fuel act input st = Some st' →
  ∃ taken kept,
    NoDup taken
    ∧ (∀ x, x ∈ taken → x ∉ OFS.processed_directories st)
    ∧ (∀ x, x ∈ taken → x ∈ OFS.directories_to_process st)
    ∧ kept `suffix_of` OFS.directories_to_process st
    ∧ OFS.scan_calls st' = OFS.scan_calls st ++ taken
    ∧ OFS.processed_directories st'
      = list_to_set taken ∪ OFS.processed_directories st
    ∧ OFS.wave_number st' = OFS.wave_number st + 1
    ∧ OFS.directories_to_process st'
      = kept ++ queued_from (OFS.processed_directories st')
                            (received act input taken)
    ∧ OFS.all_errors st'
      = OFS.all_errors st ++ errors_received act input taken
    ∧ concat (OFS.send_calls st') ++ OFS.current_batch st'
      = (concat (OFS.send_calls st) ++ OFS.current_batch st)
          ++ records_received act input taken
    ∧ OFS.total_files_processed st'
      = (OFS.total_files_processed st
         + py_sum (map ASD.files_processed (received act input taken)))%Z
    ∧ OFS.total_bytes_processed st'
      = (OFS.total_bytes_processed st
         + py_sum (map ASD.bytes_processed (received act input taken)))%Z
    ∧ (∃ new, OFS.send_calls st' = OFS.send_calls st ++ new
         ∧ OFS.total_batches_sent st'
           = OFS.total_batches_sent st
             + successful_from act (length (OFS.send_calls st)) new
         ∧ ((0 < batch_size)%Z →
            Forall (fun b => Z.of_nat (length b) = batch_size) new))
    ∧ ((Z.of_nat (length (OFS.current_batch st)) < batch_size)%Z →
       (Z.of_nat (length (OFS.current_batch st')) < batch_size)%Z).
Proof.
  unfold OFS.wave_body.
  destruct (OFS.take_wave _ _ _) as [[cur q'] P'] eqn:Htake.
  destruct (take_wave_spec _ _ _ _ _ _ Htake)
    as (taken & -> & -> & Hnd & Hnew & Hin & Hsuf).
  simpl. intros Hrun. exists taken, q'.
  repeat (split; [assumption|]).
  destruct taken as [|d taken].
  - injection Hrun as <-; simpl.
    unfold errors_received, records_received, queued_from; simpl.
    rewrite !app_nil_r, !Z.add_0_r.
    repeat (split; [reflexivity|]).
    split; [|done]. exists []. rewrite app_nil_r. simpl.
    repeat split; [lia|]. intros _; constructor.
  - pose proof (process_results_short _ _ _ _ Hrun) as Hshort.
    apply process_results_folded in Hrun.
    rewrite omap_id_map in Hrun.
    destruct Hrun as (Hq & Hp & Hw & Hc & He & Hr & Hf & Hb & Hsend).
    simpl in *. rewrite Hp.
    repeat (split; [assumption|]). done.
Qed.

(** The invariant of the outer loop is kept by every wave. *)
Lemma wave_body_invariant fuel st st' :
  OFS.wave_body fuel act input st = Some st' →
  wave_invariant act input st → wave_invariant act input st'.
Proof.
  intros (taken & kept & Hnd & Hnew & _ & _ & Hc & Hp & _ & _ & He & Hr & Hf
          & Hb & (new & Hs & Hn & Hlen) & Hshort)%wave_body_spec.
  intros (Ind & Ip & Ie & Ir & If & Ib & In & Il).
  unfold wave_invariant.
  rewrite Hc, Hp, He, Hr, Hf, Hb, Hs, Hn.
  unfold errors_received, records_received.
  rewrite received_app, !flat_map_app, !map_app, !py_sum_app.
  split.
  { apply NoDup_app. repeat split; [done| |done].
    intros x Hx Hx'. apply (Hnew _ Hx'). rewrite Ip. set_solver. }
  split; [rewrite Ip; set_solver|].
  split; [by rewrite Ie|].
  split; [by rewrite Ir|].
  split; [by rewrite If|].
  split; [by rewrite Ib|].
  split.
  { unfold successful_sends. rewrite successful_from_app, In. reflexivity. }
  intros Hpos. destruct (Il Hpos) as [Hall Hcb].
  split; [apply Forall_app; auto|auto].
Qed.

Lemma initial_state_invariant : wave_invariant act input OFS.initial_state.
Proof.
  unfold wave_invariant; simpl.
  repeat split; try done; try constructor; lia.
Qed.

Lemma reachable_invariant st :
  reachable act input st → wave_invariant act input st.
Proof.
  induction 1 as [|fuel st st' _ IH _ Hrun].
  - apply initial_state_invariant.
  - by apply (wave_body_invariant fuel st st').
Qed.

(** When the outer loop exits the queue is empty, the state is reachable
    and the invariant holds. *)
Lemma wave_loop_exit fuel st st' :
  OFS.wave_loop fuel act input st = Some st' →
  reachable act input st →
  reachable act input st' ∧ OFS.directories_to_process st' = [].
Proof.
  revert st. induction fuel as [|fuel IH]; intros st; simpl.
  - destruct (OFS.directories_to_process st) as [|d q] eqn:Hq; [|discriminate].
    by intros [= <-].
  - destruct (OFS.directories_to_process st) as [|d q] eqn:Hq.
    { by intros [= <-]. }
    destruct (OFS.wave_body fuel act input st) as [s|] eqn:Hs; [|discriminate].
    intros Hrun Hreach. apply (IH _ Hrun).
    apply (reachable_wave act input fuel st s Hreach); [by rewrite Hq|done].
Qed.

End FileShare.

(** *** Batches *)

Lemma concat_length_uniform {A} (l : list (list A)) (n : Z) :
  Forall (fun b => Z.of_nat (length b) = n) l →
  Z.of_nat (length (concat l)) = (n * Z.of_nat (length l))%Z.
Proof.
  induction 1 as [|b l Hb _ IH]; simpl; [lia|].
  rewrite length_app. lia.
Qed.

Example sample_run_batches :
  (fun st => map (map ASD.FileName) (OFS.send_calls st))
    <$> OFS.final_state 5 sample_activities (sample_share_input 2)
  = Some [["a.txt"; "c.pdf"]; ["big.iso"; "d.log"]; ["e.mp3"]].
Proof. vm_compute. reflexivity. Qed.

(** C2.  For a positive [batch_size] [B] and a run whose loop has
    exited with [N] records received in all: every batch handed to the
    delivery activity by the loop has exactly [B] records; [N mod B]
    records are left, and the final flush hands over exactly those, as
    one batch, or nothing when [N mod B = 0]. *)
Theorem batch_exactness (fuel : nat) (act : OFS.Activities)
    (input : OFS.Input) (st : OFS.State) :
  (0 < OFS.batch_size input)%Z →
  OFS.wave_loop fuel act input OFS.initial_state = Some st →
  let B := OFS.batch_size input in
  let N := Z.of_nat (length (records_received act input (OFS.scan_calls st))) in
  OFS.final_state fuel act input = Some (OFS.send_remaining act st)
  ∧ Forall (fun b => Z.of_nat (length b) = B) (OFS.send_calls st)
  ∧ Z.of_nat (length (OFS.current_batch st)) = (N mod B)%Z
  ∧ OFS.send_calls (OFS.send_remaining act st)
    = OFS.send_calls st
        ++ (if (N mod B =? 0)%Z then [] else [OFS.current_batch st]).
Proof.
  intros Hpos Hrun. cbv zeta.
  split; [unfold OFS.final_state; by rewrite Hrun|].
  destruct (wave_loop_exit act input fuel _ _ Hrun) as [Hreach _];
    [constructor|].
  apply reachable_invariant in Hreach
    as (_ & _ & _ & Hrec & _ & _ & _ & Hlen).
  destruct (Hlen Hpos) as [Hall Hshort].
  assert (Z.of_nat (length (OFS.current_batch st))
          = (Z.of_nat (length (records_received act input (OFS.scan_calls st)))
             mod OFS.batch_size input)%Z) as Hmod.
  { rewrite <- Hrec, length_app, Nat2Z.inj_add.
    rewrite (concat_length_uniform _ _ Hall).
    rewrite Z.add_comm, Z.mul_comm, Z_mod_plus_full.
    symmetry. apply Z.mod_small. lia. }
  repeat split; [done|done|].
  rewrite <- Hmod. unfold OFS.send_remaining.
  destruct (OFS.current_batch st) as [|r cb] eqn:Hcb; simpl.
  - by rewrite app_nil_r.
  - reflexivity.
Qed.

Lemma batch_exactness_witness :
  ∃ st,
    OFS.wave_loop 5 sample_activities (sample_share_input 2)
                  OFS.initial_state = Some st
    ∧ length (records_received sample_activities (sample_share_input 2)
                               (OFS.scan_calls st)) = 5
    ∧ OFS.final_state 5 sample_activities (sample_share_input 2)
      = Some (OFS.send_remaining sample_activities st)
    ∧ Forall (fun b => Z.of_nat (length b) = 2%Z) (OFS.send_calls st)
    ∧ Z.of_nat (length (OFS.current_batch st))
      = (Z.of_nat (length (records_received sample_activities
                             (sample_share_input 2) (OFS.scan_calls st)))
         mod 2)%Z
    ∧ OFS.send_calls (OFS.send_remaining sample_activities st)
      = OFS.send_calls st
          ++ (if (Z.of_nat (length (records_received sample_activities
                                      (sample_share_input 2)
                                      (OFS.scan_calls st))) mod 2 =? 0)%Z
              then [] else [OFS.current_batch st]).
Proof.
  destruct (OFS.wave_loop 5 sample_activities (sample_share_input 2)
              OFS.initial_state) as [st|] eqn:Hrun;
    [|by vm_compute in Hrun].
  exists st. split; [reflexivity|].
  split.
  { assert (Some (length (records_received sample_activities
                            (sample_share_input 2) (OFS.scan_calls st)))
            = Some 5) as [= ->]; [|reflexivity].
    change (Some (length (records_received sample_activities
                            (sample_share_input 2) (OFS.scan_calls st))))
      with ((fun s => length (records_received sample_activities
                                (sample_share_input 2) (OFS.scan_calls s)))
              <$> Some st).
    rewrite <- Hrun. vm_compute. reflexivity. }
  exact (batch_exactness 5 sample_activities (sample_share_input 2) st
           eq_refl Hrun).
Defined.

(** *** The frontier *)





Example repeated_directory_run :
  OFS.orchestrator_file_share 5 repeating_activities "T" (sample_share_input 2)
  = Some {| OFS.file_share := "share"; OFS.status := "completed";
            OFS.files_processed := 0; OFS.bytes_processed := 0;
            OFS.directories_processed := 11; OFS.batches_sent := 0;
            OFS.waves_completed := 3; OFS.errors := [];
            OFS.error_count := 0; OFS.completed_at := "T" |}.
Proof. vm_compute. reflexivity. Qed.

(** *** The end of a run *)

(** What holds of the state with which the orchestrator returns. *)
Lemma final_state_facts act input fuel st :
  OFS.final_state fuel act input = Some st →
  OFS.directories_to_process st = []
  ∧ NoDup (OFS.scan_calls st)
  ∧ OFS.processed_directories st = list_to_set (OFS.scan_calls st)
  ∧ OFS.all_errors st = errors_received act input (OFS.scan_calls st)
  ∧ concat (OFS.send_calls st)
    = records_received act input (OFS.scan_calls st)
  ∧ OFS.total_batches_sent st = successful_sends act (OFS.send_calls st).
Proof.
  unfold OFS.final_state.
  destruct (OFS.wave_loop _ _ _ _) as [st0|] eqn:Hrun; [|discriminate].
  intros [= <-].
  destruct (wave_loop_exit act input fuel _ _ Hrun) as [Hreach Hq];
    [constructor|].
  apply reachable_invariant in Hreach
    as (Hnd & Hset & Herr & Hrec & _ & _ & Hsent & _).
  unfold OFS.send_remaining.
  destruct (OFS.current_batch st0) as [|r cb] eqn:Hcb.
  - rewrite app_nil_r in Hrec. done.
  - simpl. repeat (split; [assumption|]).
    split; [by rewrite concat_app; simpl; rewrite app_nil_r|].
    unfold successful_sends. rewrite successful_from_snoc, Hsent.
    unfold send_succeeded, successful_sends. simpl.
    destruct (OFS.activity_send_to_log_analytics act _ _) as [res|];
      [destruct (OFS.success res)|]; lia.
Qed.

Lemma slice_to_100_length {A} (l : list A) :
  length (slice_to l 100) = Nat.min 100 (length l).
Proof.
  unfold slice_to, slice_bound. change (100 <? 0)%Z with false. cbv iota.
  rewrite length_take. lia.
Qed.

Lemma run_shares_spec fuel w input names results :
  OM.run_shares fuel w input names = Some results →
  Forall2
    (fun name r =>
       OFS.orchestrator_file_share fuel (OM.share_activities w name)
         (OM.share_clock w name) (OM.share_input input name) = Some r)
    names results.
Proof.
  revert results. induction names as [|name names IH]; intros results; simpl.
  - intros [= <-]. constructor.
  - destruct (OFS.orchestrator_file_share _ _ _ _) as [r|] eqn:Hr;
      [|discriminate].
    destruct (OM.run_shares _ _ _ _) as [rs|]; [|discriminate].
    intros [= <-]. constructor; [done|by apply IH].
Qed.

Lemma orchestrator_main_completed fuel w input report statuses :
  OM.orchestrator_main fuel w input = Some (OM.Completed report, statuses) →
  ∃ results,
    OM.run_shares fuel w input (OM.shares_to_scan w input) = Some results
    ∧ report = OM.aggregate w input (OM.shares_to_scan w input) results.
Proof.
  unfold OM.orchestrator_main.
  destruct (OM.shares_to_scan w input) as [|name names]; [discriminate|].
  destruct (OM.run_shares _ _ _ _) as [results|]; [|discriminate].
  intros [= <- _]. by exists results.
Qed.

Example failed_delivery_run :
  OM.orchestrator_main 3
    (sample_world quiet_activities "T0" "T1" "T2") (sample_main_input 1)
  = let report :=
      {| OM.status := "completed"; OM.rep_execution_id := "run-1";
         OM.storage_account := "account"; OM.total_shares_scanned := 1;
         OM.total_files_processed := 1; OM.total_bytes_processed := 500;
         OM.total_batches_sent := 0; OM.total_errors := 0;
         OM.share_results :=
           [ {| OFS.file_share := "share"; OFS.status := "completed";
                OFS.files_processed := 1; OFS.bytes_processed := 500;
                OFS.directories_processed := 1; OFS.batches_sent := 0;
                OFS.waves_completed := 1; OFS.errors := [];
                OFS.error_count := 0; OFS.completed_at := "T1" |} ];
         OM.completed_at := "T2" |} in
    Some (OM.Completed report,
          [ OM.Initializing "account" "T0"; OM.DiscoveringFileShares;
            OM.ScanningFileShares 1 ["share"]; OM.AggregatingResults;
            OM.CompletedStatus report ]).
Proof. vm_compute. reflexivity. Qed.

(** What a share's result says about its run. *)
Lemma share_result_facts fuel act utcnow share r :
  OFS.orchestrator_file_share fuel act utcnow share = Some r →
  length (OFS.errors r) = Nat.min 100 (OFS.error_count r)
  ∧ ∃ st,
      OFS.final_state fuel act share = Some st
      ∧ r = OFS.build_result utcnow share st
      ∧ concat (OFS.send_calls st)
        = records_received act share (OFS.scan_calls st)
      ∧ OFS.error_count r
        = length (errors_received act share (OFS.scan_calls st))
      ∧ OFS.batches_sent r + failed_sends act (OFS.send_calls st)
        = length (OFS.send_calls st).
Proof.
  unfold OFS.orchestrator_file_share.
  destruct (OFS.final_state fuel act share) as [st|] eqn:Hst; [|discriminate].
  intros [= <-]. simpl. split; [apply slice_to_100_length|].
  exists st.
  destruct (final_state_facts act share fuel st Hst)
    as (_ & _ & _ & Herr & Hrec & Hsent).
  repeat split; [done|by rewrite Herr|].
  rewrite Hsent. unfold failed_sends, successful_sends.
  pose proof (successful_from_le act 0 (OFS.send_calls st)). lia.
Qed.

Lemma run_shares_errors fuel w input names results :
  OM.run_shares fuel w input names = Some results →
  list_sum (map (fun r => length (OFS.errors r)) results)
  = list_sum (map (fun r => Nat.min 100 (OFS.error_count r)) results).
Proof.
  intros Hrun%run_shares_spec.
  induction Hrun as [|name r names results Hr _ IH]; [reflexivity|].
  simpl. rewrite IH.
  by destruct (share_result_facts _ _ _ _ _ Hr) as [-> _].
Qed.

(** C4, as the code has it.  A batch is handed to the delivery activity
    once, whatever the answer: the batches delivered by a share's run
    are, put end to end, exactly the records received, so none is sent
    again and none returns to the pending batch.  A failed delivery is
    not counted in [batches_sent] and is counted nowhere else: the error
    count of a share is the number of error strings of its scan results,
    and [total_errors] adds up, per share, at most the 100 strings kept. *)
Theorem failed_delivery_not_counted (fuel : nat) (w : OM.World)
    (input : OM.Input) (report : OM.Report) (statuses : list OM.CustomStatus) :
  OM.orchestrator_main fuel w input = Some (OM.Completed report, statuses) →
  OM.total_errors report
  = list_sum (map (fun r => Nat.min 100 (OFS.error_count r))
                  (OM.share_results report))
  ∧ OM.total_batches_sent report
    = list_sum (map OFS.batches_sent (OM.share_results report))
  ∧ Forall2
      (fun name r =>
         let act := OM.share_activities w name in
         let share := OM.share_input input name in
         ∃ st,
           OFS.final_state fuel act share = Some st
           ∧ r = OFS.build_result (OM.share_clock w name) share st
           ∧ concat (OFS.send_calls st)
             = records_received act share (OFS.scan_calls st)
           ∧ OFS.error_count r
             = length (errors_received act share (OFS.scan_calls st))
           ∧ OFS.batches_sent r + failed_sends act (OFS.send_calls st)
             = length (OFS.send_calls st))
      (OM.shares_to_scan w input) (OM.share_results report).
Proof.
  intros (results & Hrun & ->)%orchestrator_main_completed. simpl.
  split; [by apply (run_shares_errors fuel w input _ _ Hrun)|].
  split; [reflexivity|].
  apply run_shares_spec in Hrun.
  eapply Forall2_impl; [exact Hrun|].
  intros name r Hr. by destruct (share_result_facts _ _ _ _ _ Hr) as [_ ?].
Qed.

Lemma failed_delivery_not_counted_witness :
  ∃ report statuses,
    OM.orchestrator_main 5
      (sample_world sample_activities "T0" "T1" "T2") (sample_main_input 2)
    = Some (OM.Completed report, statuses)
    ∧ OM.total_errors report
      = list_sum (map (fun r => Nat.min 100 (OFS.error_count r))
                      (OM.share_results report))
    ∧ OM.total_batches_sent report
      = list_sum (map OFS.batches_sent (OM.share_results report))
    ∧ Forall2
        (fun name r =>
           ∃ st,
             OFS.final_state 5 sample_activities
               (OM.share_input (sample_main_input 2) name) = Some st
             ∧ r = OFS.build_result "T1"
                     (OM.share_input (sample_main_input 2) name) st
             ∧ concat (OFS.send_calls st)
               = records_received sample_activities
                   (OM.share_input (sample_main_input 2) name)
                   (OFS.scan_calls st)
             ∧ OFS.error_count r
               = length (errors_received sample_activities
                           (OM.share_input (sample_main_input 2) name)
                           (OFS.scan_calls st))
             ∧ OFS.batches_sent r
                 + failed_sends sample_activities (OFS.send_calls st)
               = length (OFS.send_calls st))
        ["share"] (OM.share_results report).
Proof.
  destruct (OM.orchestrator_main 5
              (sample_world sample_activities "T0" "T1" "T2")
              (sample_main_input 2)) as [[[e|report] statuses]|] eqn:Hrun;
    [by vm_compute in Hrun| |by vm_compute in Hrun].
  exists report, statuses. split; [reflexivity|].
  exact (failed_delivery_not_counted 5
           (sample_world sample_activities "T0" "T1" "T2")
           (sample_main_input 2) report statuses Hrun).
Defined.

(** C4 as stated fails: the only delivery of this run fails, and the
    run reports no error at all. *)
Lemma failed_delivery_leaves_no_error :
  (fun st => (length (OFS.send_calls st),
              failed_sends quiet_activities (OFS.send_calls st)))
    <$> OFS.final_state 3 quiet_activities
          (OM.share_input (sample_main_input 1) "share")
  = Some (1, 1)
  ∧ (fun o => match o.1 with
              | OM.Completed report =>
                  (OM.total_errors report, OM.total_batches_sent report,
                   OFS.error_count <$> OM.share_results report,
                   OFS.errors <$> OM.share_results report)
              | OM.NoFileShares _ => (1, 1, [], [])
              end)
      <$> OM.orchestrator_main 3
            (sample_world quiet_activities "T0" "T1" "T2")
            (sample_main_input 1)
    = Some (0, 0, [0], [[]]).
Proof. split; vm_compute; reflexivity. Qed.

(** *** More iterations *)

(** A loop that has exited within [fuel] iterations exits in the same
    state when more iterations are allowed. *)
Lemma send_full_batches_more_fuel act input fuel fuel' st s :
  OFS.send_full_batches fuel act input st = Some s →
  fuel ≤ fuel' →
  OFS.send_full_batches fuel' act input st = Some s.
Proof.
  revert fuel' st.
  induction fuel as [|fuel IH]; intros fuel' st; simpl;
    destruct (Z.leb_spec (OFS.batch_size input)
                (Z.of_nat (length (OFS.current_batch st)))) as [Hfull|Hshort];
    try discriminate.
  - intros [= <-] _. destruct fuel'; simpl;
      by destruct (Z.leb_spec (OFS.batch_size input)
                     (Z.of_nat (length (OFS.current_batch st)))); try lia.
  - intros Hrun Hle. destruct fuel' as [|fuel']; [lia|]. simpl.
    destruct (Z.leb_spec (OFS.batch_size input)
                (Z.of_nat (length (OFS.current_batch st)))); [|lia].
    apply (IH _ _ Hrun). lia.
  - intros [= <-] _. destruct fuel'; simpl;
      by destruct (Z.leb_spec (OFS.batch_size input)
                     (Z.of_nat (length (OFS.current_batch st)))); try lia.
Qed.

Lemma process_results_more_fuel act input fuel fuel' results st s :
  OFS.process_results fuel act input st results = Some s →
  fuel ≤ fuel' →
  OFS.process_results fuel' act input st results = Some s.
Proof.
  intros Hrun Hle. revert st Hrun.
  induction results as [|[r|] results IH]; intros st; simpl; [done| |by auto].
  destruct (OFS.send_full_batches fuel act input _) as [s1|] eqn:Hs1;
    [|discriminate].
  rewrite (send_full_batches_more_fuel _ _ _ _ _ _ Hs1 Hle). apply IH.
Qed.

Lemma wave_body_more_fuel act input fuel fuel' st s :
  OFS.wave_body fuel act input st = Some s →
  fuel ≤ fuel' →
  OFS.wave_body fuel' act input st = Some s.
Proof.
  unfold OFS.wave_body.
  destruct (OFS.take_wave _ _ _) as [[cur q] P].
  destruct cur; [done|]. apply process_results_more_fuel.
Qed.

Lemma wave_loop_more_fuel act input fuel fuel' st s :
  OFS.wave_loop fuel act input st = Some s →
  fuel ≤ fuel' →
  OFS.wave_loop fuel' act input st = Some s.
Proof.
  revert fuel' st.
  induction fuel as [|fuel IH]; intros fuel' st; simpl;
    destruct (OFS.directories_to_process st) as [|d q] eqn:Hq;
    try discriminate.
  - intros [= <-] _. destruct fuel'; simpl; by rewrite Hq.
  - intros [= <-] _. destruct fuel'; simpl; by rewrite Hq.
  - destruct (OFS.wave_body fuel act input st) as [s1|] eqn:Hs1;
      [|discriminate].
    intros Hrun Hle. destruct fuel' as [|fuel']; [lia|]. simpl. rewrite Hq.
    rewrite (wave_body_more_fuel _ _ _ fuel' _ _ Hs1) by lia.
    apply (IH _ _ Hrun). lia.
Qed.

Lemma final_state_more_fuel act input fuel fuel' st :
  OFS.final_state fuel act input = Some st →
  fuel ≤ fuel' →
  OFS.final_state fuel' act input = Some st.
Proof.
  unfold OFS.final_state.
  destruct (OFS.wave_loop fuel act input _) as [s|] eqn:Hs; [|discriminate].
  intros [= <-] Hle. by rewrite (wave_loop_more_fuel _ _ _ _ _ _ Hs Hle).
Qed.

(** *** Replay *)

Lemma orchestrator_file_share_build fuel act utcnow input :
  OFS.orchestrator_file_share fuel act utcnow input
  = OFS.build_result utcnow input <$> OFS.final_state fuel act input.
Proof.
  unfold OFS.orchestrator_file_share.
  by destruct (OFS.final_state fuel act input).
Qed.

Lemma orchestrator_file_share_clock fuel act utc1 utc2 input :
  without_time <$> OFS.orchestrator_file_share fuel act utc1 input
  = without_time <$> OFS.orchestrator_file_share fuel act utc2 input.
Proof.
  rewrite !orchestrator_file_share_build.
  by destruct (OFS.final_state fuel act input).
Qed.

Lemma run_shares_clock fuel w1 w2 input names :
  (∀ name, OM.share_activities w1 name = OM.share_activities w2 name) →
  map without_time <$> OM.run_shares fuel w1 input names
  = map without_time <$> OM.run_shares fuel w2 input names.
Proof.
  intros Hact. induction names as [|name names IH]; simpl; [done|].
  rewrite Hact.
  pose proof (orchestrator_file_share_clock fuel
                (OM.share_activities w2 name) (OM.share_clock w1 name)
                (OM.share_clock w2 name) (OM.share_input input name)) as Hr.
  destruct (OFS.orchestrator_file_share fuel _ (OM.share_clock w1 name) _)
    as [r1|];
    destruct (OFS.orchestrator_file_share fuel _ (OM.share_clock w2 name) _)
    as [r2|]; try discriminate; [|done].
  apply (inj Some) in Hr.
  destruct (OM.run_shares fuel w1 input names) as [rs1|];
    destruct (OM.run_shares fuel w2 input names) as [rs2|];
    try discriminate; [|done].
  apply (inj Some) in IH. simpl. by rewrite Hr, IH.
Qed.

(** The totals of a report do not look at the time of a share result. *)
Lemma aggregate_without_time w1 w2 input names rs1 rs2 :
  map without_time rs1 = map without_time rs2 →
  report_without_time (OM.aggregate w1 input names rs1)
  = report_without_time (OM.aggregate w2 input names rs2).
Proof.
  intros Hrs. unfold report_without_time, OM.aggregate; simpl.
  assert (∀ {A} (f : OFS.Result → A),
            (∀ r, f (without_time r) = f r) → map f rs1 = map f rs2) as Hmap.
  { intros A f Hf.
    rewrite <- (map_ext _ _ Hf rs1), <- (map_ext _ _ Hf rs2).
    by rewrite <- !(map_map without_time f), Hrs. }
  rewrite (Hmap _ OFS.files_processed), (Hmap _ OFS.bytes_processed),
    (Hmap _ OFS.batches_sent), (Hmap _ (fun r => length (OFS.errors r))), Hrs
    by done.
  reflexivity.
Qed.

(** C7, as the code has it.  The state with which the share orchestrator
    returns (frontier, visited set, counters) is computed from the
    recorded activity results alone, so that two executions over the
    same results agree on it, also when one is allowed more iterations
    than the other, and on every field of the results of both
    orchestrators except the times: [completed_at] of a share result and
    of the report, and [startTime] of the first status, are read from
    the clock of the execution. *)
Theorem replay_agrees_up_to_clock (fuel : nat) (act : OFS.Activities)
    (input : OFS.Input) :
  (∀ utcnow,
     OFS.orchestrator_file_share fuel act utcnow input
     = OFS.build_result utcnow input <$> OFS.final_state fuel act input)
  ∧ (∀ utc1 utc2,
       without_time <$> OFS.orchestrator_file_share fuel act utc1 input
       = without_time <$> OFS.orchestrator_file_share fuel act utc2 input)
  ∧ (∀ fuel' st,
       OFS.final_state fuel act input = Some st → fuel ≤ fuel' →
       OFS.final_state fuel' act input = Some st)
  ∧ (∀ w1 w2 main_input,
       same_recorded_results w1 w2 →
       outcome_without_time <$> OM.orchestrator_main fuel w1 main_input
       = outcome_without_time <$> OM.orchestrator_main fuel w2 main_input).
Proof.
  split; [intros; apply orchestrator_file_share_build|].
  split; [intros; apply orchestrator_file_share_clock|].
  split; [intros fuel' st; apply final_state_more_fuel|].
  intros w1 w2 main_input [Hlist Hact].
  unfold OM.orchestrator_main, OM.shares_to_scan. rewrite Hlist.
  destruct (match OM.file_share_names main_input with
            | [] => OM.activity_list_file_shares w2
            | _ :: _ => OM.file_share_names main_input
            end) as [|name names] eqn:Hnames.
  { simpl. unfold outcome_without_time; simpl.
    by destruct (OM.file_share_names main_input). }
  pose proof (run_shares_clock fuel w1 w2 main_input (name :: names) Hact)
    as Hrs.
  destruct (OM.run_shares fuel w1 main_input (name :: names)) as [rs1|];
    destruct (OM.run_shares fuel w2 main_input (name :: names)) as [rs2|];
    try discriminate; [|done].
  apply (inj Some) in Hrs. simpl. unfold outcome_without_time; simpl.
  rewrite !map_app; simpl.
  rewrite (aggregate_without_time w1 w2 main_input (name :: names) rs1 rs2 Hrs).
  by destruct (OM.file_share_names main_input).
Qed.

Lemma replay_agrees_up_to_clock_witness :
  same_recorded_results
    (sample_world sample_activities "10:00:00" "10:00:05" "10:00:06")
    (sample_world sample_activities "10:07:30" "10:07:31" "10:07:32")
  ∧ outcome_without_time
      <$> OM.orchestrator_main 5
            (sample_world sample_activities "10:00:00" "10:00:05" "10:00:06")
            (sample_main_input 2)
    = outcome_without_time
        <$> OM.orchestrator_main 5
              (sample_world sample_activities "10:07:30" "10:07:31"
                            "10:07:32")
              (sample_main_input 2).
Proof.
  assert (same_recorded_results
            (sample_world sample_activities "10:00:00" "10:00:05" "10:00:06")
            (sample_world sample_activities "10:07:30" "10:07:31" "10:07:32"))
    as Hsame by (split; reflexivity).
  split; [exact Hsame|].
  exact (proj2 (proj2 (proj2 (replay_agrees_up_to_clock 5 sample_activities
                                (sample_share_input 2))))
           _ _ (sample_main_input 2) Hsame).
Defined.

(** C7 as stated fails: two executions over the same recorded results
    return different results, because each reads the clock: the share
    orchestrator for [completed_at], the main orchestrator for
    [startTime] and [completed_at]. *)
Lemma clock_is_read_by_each_execution :
  OFS.completed_at
    <$> OFS.orchestrator_file_share 5 sample_activities "10:00:05"
          (sample_share_input 2) = Some "10:00:05"
  ∧ OFS.completed_at
      <$> OFS.orchestrator_file_share 5 sample_activities "10:07:31"
            (sample_share_input 2) = Some "10:07:31"
  ∧ (fun o => head o.2)
      <$> OM.orchestrator_main 5
            (sample_world sample_activities "10:00:00" "10:00:05" "10:00:06")
            (sample_main_input 2)
    = Some (Some (OM.Initializing "account" "10:00:00"))
  ∧ (fun o => head o.2)
      <$> OM.orchestrator_main 5
            (sample_world sample_activities "10:07:30" "10:07:31" "10:07:32")
            (sample_main_input 2)
    = Some (Some (OM.Initializing "account" "10:07:30")).
Proof. repeat split; vm_compute; reflexivity. Qed.

(** ** Traversal of a directory tree *)

Import DirTree.

Lemma nodes_unfold t : nodes t = t :: fnodes (children t).
Proof. by destruct t. Qed.

Lemma fnodes_app f1 f2 : fnodes (f1 ++ f2) = fnodes f1 ++ fnodes f2.
Proof. apply flat_map_app. Qed.

Lemma fpaths_app f1 f2 : fpaths (f1 ++ f2) = fpaths f1 ++ fpaths f2.
Proof. unfold fpaths. by rewrite fnodes_app, map_app. Qed.

Lemma fnodes_cons t f :
  fnodes (t :: f) = t :: fnodes (children t) ++ fnodes f.
Proof. unfold fnodes at 1. simpl. by rewrite nodes_unfold. Qed.

(** The directories of a forest are its roots and the directories of the
    forest of their children. *)
Lemma fnodes_children g : fnodes g ≡ₚ g ++ fnodes (flat_map children g).
Proof.
  induction g as [|t g IH]; [reflexivity|].
  rewrite fnodes_cons. simpl. rewrite fnodes_app. constructor.
  rewrite IH. apply Permutation_app_swap_app.
Qed.

Lemma fpaths_children g :
  fpaths g ≡ₚ map path g ++ fpaths (flat_map children g).
Proof.
  unfold fpaths. rewrite <- map_app. apply Permutation_map, fnodes_children.
Qed.

Lemma roots_in_fpaths g x : x ∈ map path g → x ∈ fpaths g.
Proof. intros Hx. rewrite fpaths_children. apply elem_of_app. by left. Qed.

Lemma fnodes_next_frontier f :
  fnodes f ≡ₚ firstn OFS.max_parallel_dirs f ++ fnodes (next_frontier f).
Proof.
  rewrite <- (firstn_skipn OFS.max_parallel_dirs f) at 1.
  unfold next_frontier. rewrite !fnodes_app.
  rewrite (fnodes_children (firstn _ f)), <- app_assoc.
  apply Permutation_app_head, Permutation_app_comm.
Qed.

Lemma fpaths_next_frontier f :
  fpaths f
  ≡ₚ map path (firstn OFS.max_parallel_dirs f) ++ fpaths (next_frontier f).
Proof.
  unfold fpaths. rewrite <- map_app.
  apply Permutation_map, fnodes_next_frontier.
Qed.

Lemma next_frontier_length f :
  length (fnodes f)
  = length (firstn OFS.max_parallel_dirs f) + length (fnodes (next_frontier f)).
Proof.
  rewrite (Permutation_length (fnodes_next_frontier f)). apply length_app.
Qed.

(** When the queue holds distinct directories, none dequeued before, a
    wave takes its first [max_parallel_dirs] entries. *)
Lemma take_wave_fresh q cur (P : gset string) :
  NoDup q → (∀ x, x ∈ q → x ∉ P) →
  OFS.take_wave q cur P
  = (cur ++ firstn (OFS.max_parallel_dirs - length cur) q,
     skipn (OFS.max_parallel_dirs - length cur) q,
     list_to_set (firstn (OFS.max_parallel_dirs - length cur) q) ∪ P).
Proof.
  revert cur P. induction q as [|x q IH]; intros cur P Hnd Hfresh; simpl.
  - rewrite firstn_nil, skipn_nil, app_nil_r. f_equal. set_solver.
  - apply NoDup_cons in Hnd as [Hx Hnd].
    destruct (Nat.ltb_spec (length cur) OFS.max_parallel_dirs) as [Hlt|Hge].
    + rewrite bool_decide_eq_false_2
        by (apply Hfresh, list_elem_of_here).
      rewrite IH; [|done|].
      2: { intros y Hy. specialize (Hfresh y (list_elem_of_further _ _ _ Hy)).
           set_solver. }
      rewrite length_app; simpl.
      replace (OFS.max_parallel_dirs - length cur)
        with (S (OFS.max_parallel_dirs - (length cur + 1))) by lia.
      simpl. rewrite <- app_assoc. simpl. f_equal. set_solver.
    + replace (OFS.max_parallel_dirs - length cur) with 0 by lia.
      simpl. rewrite app_nil_r. f_equal. set_solver.
Qed.

Lemma filter_all {A} (p : A → bool) (l : list A) :
  (∀ x, x ∈ l → p x = true) → List.filter p l = l.
Proof.
  induction l as [|x l IH]; intros Hall; simpl; [done|].
  rewrite (Hall x) by apply list_elem_of_here.
  f_equal. apply IH. intros y Hy. by apply Hall, list_elem_of_further.
Qed.

Section Traversal.

Variables (act : OFS.Activities) (input : OFS.Input).

(** The scans of the roots of a forest queue the children of the roots,
    when none of them has been dequeued. *)
Lemma queued_from_forest (P : gset string) g :
  Forall (scan_ok act input) g →
  (∀ x, x ∈ map path (flat_map children g) → x ∉ P) →
  queued_from P (received act input (map path g))
  = map path (flat_map children g).
Proof.
  induction 1 as [|t g Ht _ IH]; intros Hfresh; [reflexivity|].
  unfold scan_ok in Ht.
  destruct (OFS.scan_of act input (path t)) as [r|] eqn:Hr; [|discriminate].
  injection Ht as Ht.
  unfold received in *. cbn [map omap list_omap]. rewrite Hr.
  unfold queued_from in *. cbn [flat_map]. rewrite map_app, Ht.
  simpl in Hfresh. rewrite map_app in Hfresh.
  rewrite filter_all, IH; [done| |].
  - intros x Hx. apply Hfresh, elem_of_app. by right.
  - intros x Hx. apply negb_true_iff, bool_decide_eq_false.
    apply Hfresh, elem_of_app. by left.
Qed.

Lemma records_received_cons d dirs :
  length (records_received act input (d :: dirs))
  = length (match OFS.scan_of act input d with
            | Some r => ASD.file_records r
            | None => []
            end)
    + length (records_received act input dirs).
Proof.
  unfold records_received, received. cbn [omap list_omap].
  destruct (OFS.scan_of act input d); [|reflexivity].
  cbn [flat_map]. apply length_app.
Qed.

Lemma records_received_length_app dirs1 dirs2 :
  length (records_received act input (dirs1 ++ dirs2))
  = length (records_received act input dirs1)
    + length (records_received act input dirs2).
Proof.
  induction dirs1 as [|d dirs1 IH]; [reflexivity|].
  simpl app. rewrite !records_received_cons, IH. lia.
Qed.

Lemma records_received_length_perm dirs1 dirs2 :
  dirs1 ≡ₚ dirs2 →
  length (records_received act input dirs1)
  = length (records_received act input dirs2).
Proof.
  induction 1 as [|d l1 l2 _ IH|d1 d2 l|l1 l2 l3 _ IH1 _ IH2];
    rewrite ?records_received_cons; lia.
Qed.

(** One wave over a frontier that is a forest. *)
Lemma wave_on_forest f st fuel :
  (0 < OFS.batch_size input)%Z →
  f ≠ [] →
  frontier_is act input f st →
  Z.to_nat (OFS.batch_size input)
    + length (records_received act input (fpaths f)) ≤ fuel →
  ∃ st',
    OFS.wave_body fuel act input st = Some st'
    ∧ frontier_is act input (next_frontier f) st'
    ∧ OFS.scan_calls st'
      = OFS.scan_calls st ++ map path (firstn OFS.max_parallel_dirs f)
    ∧ OFS.processed_directories st'
      = list_to_set (map path (firstn OFS.max_parallel_dirs f))
          ∪ OFS.processed_directories st
    ∧ OFS.wave_number st' = OFS.wave_number st + 1.
Proof.
  intros Hpos Hne (Hq & Hnd & Hfresh & Hscan & Hshort) Hfuel.
  pose proof (fpaths_next_frontier f) as Hperm.
  pose proof (fpaths_children f) as Hroots.
  assert (NoDup (map path f)) as Hndq.
  { rewrite Hroots in Hnd. by apply NoDup_app in Hnd as [? _]. }
  assert (∀ x, x ∈ map path f → x ∉ OFS.processed_directories st) as Hfq.
  { intros x Hx. apply Hfresh. rewrite Hroots. apply elem_of_app. by left. }
  rewrite Hperm in Hnd. apply NoDup_app in Hnd as (Hndg & Hdisj & Hnd').
  set (g := firstn OFS.max_parallel_dirs f) in *.
  assert (Forall (scan_ok act input) g
          ∧ Forall (scan_ok act input) (fnodes (next_frontier f)))
    as [Hscang Hscan'].
  { apply Forall_app.
    apply (Permutation_Forall (fnodes_next_frontier f) Hscan). }
  unfold OFS.wave_body. rewrite Hq, (take_wave_fresh _ _ _ Hndq Hfq).
  rewrite Nat.sub_0_r, firstn_map, skipn_map. fold g. cbn [app].
  set (st1 := {| OFS.total_files_processed := OFS.total_files_processed st;
                 OFS.directories_to_process :=
                   map path (skipn OFS.max_parallel_dirs f) |}).
  assert (length (records_received act input (map path g))
          ≤ length (records_received act input (fpaths f))) as Hrec.
  { rewrite (records_received_length_perm _ _ Hperm),
      records_received_length_app. lia. }
  destruct (process_results_exits act input fuel
              (map (OFS.scan_of act input) (map path g)) st1 Hpos)
    as [st' Hrun].
  { rewrite omap_id_map. fold (received act input (map path g)).
    fold (records_received act input (map path g)).
    subst st1; simpl. lia. }
  assert (map path g ≠ []) as Hgne.
  { subst g. destruct f; [done|discriminate]. }
  exists st'. split.
  { destruct (map path g); [done|exact Hrun]. }
  pose proof (process_results_short act input _ _ _ _ Hrun Hshort) as Hshort'.
  apply process_results_folded in Hrun. rewrite omap_id_map in Hrun.
  destruct Hrun as (Hq' & Hp' & Hw' & Hc' & _).
  subst st1; simpl in *.
  assert (∀ x, x ∈ fpaths (next_frontier f) →
               x ∉ OFS.processed_directories st') as Hfresh'.
  { intros x Hx. rewrite Hp'. intros [Hin|Hin]%elem_of_union.
    - apply elem_of_list_to_set in Hin. by apply (Hdisj x).
    - apply (Hfresh x); [|done]. rewrite Hperm. apply elem_of_app. by right. }
  repeat split; try done.
  rewrite Hq'. fold (received act input (map path g)).
  rewrite (queued_from_forest _ g Hscang).
  - unfold next_frontier. by rewrite map_app.
  - intros x Hx. rewrite <- Hp'. apply Hfresh'.
    unfold next_frontier. rewrite fpaths_app. apply elem_of_app. right.
    by apply roots_in_fpaths.
Qed.

(** The loop over a frontier that is a forest: it exits, having
    dequeued and dispatched exactly the directories of the forest. *)
Lemma wave_loop_on_forest n :
  ∀ f st fuel,
    (0 < OFS.batch_size input)%Z →
    length (fnodes f) ≤ n →
    frontier_is act input f st →
    n + Z.to_nat (OFS.batch_size input)
      + length (records_received act input (fpaths f)) ≤ fuel →
    ∃ st',
      OFS.wave_loop fuel act input st = Some st'
      ∧ OFS.directories_to_process st' = []
      ∧ OFS.scan_calls st' ≡ₚ OFS.scan_calls st ++ fpaths f
      ∧ OFS.processed_directories st'
        = list_to_set (fpaths f) ∪ OFS.processed_directories st
      ∧ OFS.wave_number st' = OFS.wave_number st + bfs_waves n f.
Proof.
  induction n as [|n IH]; intros f st fuel Hpos Hsize Hf Hfuel.
  - destruct f as [|t f]; [|rewrite fnodes_cons in Hsize; simpl in Hsize; lia].
    destruct Hf as (Hq & _). exists st.
    split; [destruct fuel; simpl; by rewrite Hq|].
    simpl. rewrite app_nil_r, Nat.add_0_r.
    repeat split; try done; set_solver.
  - destruct f as [|t f].
    { destruct Hf as (Hq & _). exists st.
      split; [destruct fuel; simpl; by rewrite Hq|].
      simpl. rewrite app_nil_r, Nat.add_0_r.
      repeat split; try done; set_solver. }
    destruct fuel as [|fuel]; [lia|].
    destruct (wave_on_forest (t :: f) st fuel Hpos) as
      (st1 & Hrun & Hf1 & Hc1 & Hp1 & Hw1); [done|done|lia|].
    pose proof (fpaths_next_frontier (t :: f)) as Hperm.
    pose proof (next_frontier_length (t :: f)) as Hlen.
    assert (1 ≤ length (firstn OFS.max_parallel_dirs (t :: f))) as Hone
      by (simpl; lia).
    destruct (IH (next_frontier (t :: f)) st1 fuel Hpos)
      as (st' & Hrun' & Hq' & Hc' & Hp' & Hw'); [lia|done| |].
    { rewrite (records_received_length_perm _ _ Hperm),
        records_received_length_app in Hfuel. lia. }
    exists st'. split.
    { simpl. destruct Hf as (-> & _). simpl. by rewrite Hrun. }
    split; [done|].
    split; [by rewrite Hc', Hc1, <- app_assoc, <- Hperm|].
    split.
    { rewrite Hp', Hp1. apply set_eq. intros x.
      rewrite !elem_of_union, !elem_of_list_to_set, Hperm, elem_of_app.
      tauto. }
    rewrite Hw', Hw1. simpl. lia.
Qed.

End Traversal.

(** *** The number of waves *)

Lemma fdepth_app f1 f2 : fdepth (f1 ++ f2) = Nat.max (fdepth f1) (fdepth f2).
Proof.
  unfold fdepth. induction f1 as [|t f1 IH]; simpl; [done|].
  rewrite IH. lia.
Qed.

Lemma depth_unfold t : depth t = S (fdepth (children t)).
Proof. by destruct t. Qed.

(** A forest that is not empty is one level deeper than the forest of
    the children of its roots. *)
Lemma fdepth_children f :
  f ≠ [] → fdepth f = S (fdepth (flat_map children f)).
Proof.
  induction f as [|t f IH]; [done|]. intros _.
  change (fdepth (t :: f)) with (Nat.max (depth t) (fdepth f)).
  simpl flat_map. rewrite fdepth_app, depth_unfold.
  destruct f as [|t' f].
  { simpl flat_map. change (fdepth []) with 0. lia. }
  rewrite IH by done. lia.
Qed.

Lemma flevel_children k f :
  flevel k (flat_map children f) = flevel (S k) f.
Proof.
  unfold flevel. induction f as [|t f IH]; [reflexivity|].
  simpl. by rewrite flat_map_app, IH.
Qed.

Lemma flevel_0_length f : length (flevel 0 f) = length f.
Proof.
  unfold flevel. induction f as [|t f IH]; [done|].
  simpl. f_equal. exact IH.
Qed.

(** When no level of the forest is wider than a wave, every wave takes
    one level, and the waves are as many as the levels. *)
Lemma bfs_waves_narrow n :
  ∀ f, (∀ k, length (flevel k f) ≤ OFS.max_parallel_dirs) →
       length (fnodes f) ≤ n → bfs_waves n f = fdepth f.
Proof.
  induction n as [|n IH]; intros f Hwidth Hsize.
  - destruct f as [|t f]; [reflexivity|].
    rewrite fnodes_cons in Hsize. simpl in Hsize. lia.
  - destruct f as [|t f]; [reflexivity|].
    assert (next_frontier (t :: f) = flat_map children (t :: f)) as Hnext.
    { unfold next_frontier.
      assert (length (t :: f) ≤ OFS.max_parallel_dirs) as Hlen.
      { specialize (Hwidth 0). by rewrite flevel_0_length in Hwidth. }
      by rewrite firstn_all2, skipn_all2 by done. }
    change (bfs_waves (S n) (t :: f))
      with (S (bfs_waves n (next_frontier (t :: f)))).
    pose proof (next_frontier_length (t :: f)) as Hlen.
    assert (1 ≤ length (firstn OFS.max_parallel_dirs (t :: f))) as Hone
      by (simpl; lia).
    rewrite (fdepth_children (t :: f)) by done.
    f_equal. rewrite Hnext in *. apply IH; [|lia].
    intros k. rewrite flevel_children. apply Hwidth.
Qed.

(** Every wave dequeues a directory: the waves are at most as many as
    the directories. *)
Lemma bfs_waves_le n : ∀ f, bfs_waves n f ≤ length (fnodes f).
Proof.
  induction n as [|n IH]; intros [|t f]; simpl bfs_waves; try lia.
  pose proof (next_frontier_length (t :: f)) as Hlen.
  assert (1 ≤ length (firstn OFS.max_parallel_dirs (t :: f))) as Hone
    by (simpl; lia).
  specialize (IH (next_frontier (t :: f))). lia.
Qed.

Lemma foldr_max_le (l : list nat) x : x ∈ l → x ≤ foldr Nat.max 0 l.
Proof.
  induction l as [|y l IH]; [intros []%elem_of_nil|].
  intros [->|Hx]%elem_of_cons; simpl; [lia|]. specialize (IH Hx). lia.
Qed.

(** Below the last level of a tree there is nothing. *)
Lemma level_beyond_depth k : ∀ t, depth t ≤ k → level k t = [].
Proof.
  induction k as [|k IH]; intros t Hk; rewrite depth_unfold in Hk; [lia|].
  simpl. assert (fdepth (children t) ≤ k) as Hcs by lia. clear Hk.
  induction (children t) as [|c cs IHcs]; [reflexivity|].
  change (fdepth (c :: cs)) with (Nat.max (depth c) (fdepth cs)) in Hcs.
  simpl. rewrite IH by lia. apply IHcs. lia.
Qed.

Lemma level_width t k : length (level k t) ≤ width t.
Proof.
  destruct (Nat.lt_ge_cases k (depth t)) as [Hlt|Hge].
  - apply foldr_max_le, list_elem_of_fmap.
    exists k. split; [done|]. apply elem_of_seq. lia.
  - rewrite level_beyond_depth by done. simpl. lia.
Qed.

(** *** The run over a tree *)

Lemma send_remaining_frame act st :
  OFS.directories_to_process (OFS.send_remaining act st)
  = OFS.directories_to_process st
  ∧ OFS.scan_calls (OFS.send_remaining act st) = OFS.scan_calls st
  ∧ OFS.processed_directories (OFS.send_remaining act st)
    = OFS.processed_directories st
  ∧ OFS.wave_number (OFS.send_remaining act st) = OFS.wave_number st.
Proof. unfold OFS.send_remaining. by destruct (OFS.current_batch st). Qed.

(** C1, as the code has it.  When the batch size is positive and the
    recorded scans present a finite tree of directories with distinct
    paths, the run returns (with enough iterations, and then with any
    larger number): the frontier is empty, the directories handed to the
    scan activity are those of the tree, each once,
    [directories_processed] is their number, the waves are at most as
    many as the directories, and when no level of the tree is wider than
    [max_parallel_dirs] the waves are exactly as many as the levels of
    the tree (its depth, a lone root having depth 1). *)
Theorem wave_loop_visits_tree (act : OFS.Activities) (input : OFS.Input)
    (t : tree) (utcnow : string) (fuel : nat) :
  (0 < OFS.batch_size input)%Z →
  presents act input t →
  enough_fuel act input t ≤ fuel →
  ∃ st r,
    OFS.final_state fuel act input = Some st
    ∧ OFS.orchestrator_file_share fuel act utcnow input = Some r
    ∧ OFS.directories_to_process st = []
    ∧ OFS.scan_calls st ≡ₚ paths t
    ∧ NoDup (OFS.scan_calls st)
    ∧ OFS.directories_processed r = length (paths t)
    ∧ OFS.waves_completed r ≤ length (paths t)
    ∧ (width t ≤ OFS.max_parallel_dirs → OFS.waves_completed r = depth t).
Proof.
  intros Hpos (Hroot & Hnd & Hscan) Hfuel.
  assert (fnodes [t] = nodes t) as Hnodes by apply app_nil_r.
  assert (fpaths [t] = paths t) as Hpaths
    by (unfold fpaths, paths; by rewrite Hnodes).
  destruct (wave_loop_on_forest act input (length (nodes t)) [t]
              OFS.initial_state fuel Hpos)
    as (st & Hrun & Hq & Hc & Hp & Hw).
  { by rewrite Hnodes. }
  { unfold frontier_is. rewrite Hpaths, Hnodes. simpl. rewrite Hroot.
    repeat split; try done; set_solver. }
  { rewrite Hpaths. unfold enough_fuel in Hfuel. lia. }
  rewrite Hpaths in *. simpl in Hc, Hw.
  destruct (send_remaining_frame act st) as (Hq' & Hc' & Hp' & Hw').
  exists (OFS.send_remaining act st),
    (OFS.build_result utcnow input (OFS.send_remaining act st)).
  unfold OFS.orchestrator_file_share, OFS.final_state. rewrite Hrun. simpl.
  rewrite Hq', Hc', Hp', Hw', Hp, Hw.
  repeat split; try done.
  - by rewrite Hc.
  - replace (list_to_set (paths t) ∪ OFS.processed_directories
               OFS.initial_state) with (list_to_set (paths t) : gset string)
      by (simpl; set_solver).
    by apply size_list_to_set.
  - pose proof (bfs_waves_le (length (nodes t)) [t]) as Hle.
    rewrite Hnodes in Hle. unfold paths. by rewrite length_map.
  - intros Hwidth. rewrite (bfs_waves_narrow _ [t]).
    + unfold fdepth. simpl. lia.
    + intros k. unfold flevel. simpl. rewrite app_nil_r.
      pose proof (level_width t k). lia.
    + by rewrite Hnodes.
Qed.

Lemma sample_tree_presented batch_size :
  presents sample_activities (sample_share_input batch_size) sample_tree.
Proof.
  split; [reflexivity|]. split.
  - apply NoDup_cons. split; [|apply NoDup_singleton].
    by intros [=]%list_elem_of_singleton.
  - repeat constructor.
Qed.

Lemma wave_loop_visits_tree_witness :
  ∃ st r,
    OFS.final_state 12 sample_activities (sample_share_input 2) = Some st
    ∧ OFS.orchestrator_file_share 12 sample_activities "T"
        (sample_share_input 2) = Some r
    ∧ OFS.directories_to_process st = []
    ∧ OFS.scan_calls st ≡ₚ paths sample_tree
    ∧ NoDup (OFS.scan_calls st)
    ∧ OFS.directories_processed r = length (paths sample_tree)
    ∧ OFS.waves_completed r ≤ length (paths sample_tree)
    ∧ (width sample_tree ≤ OFS.max_parallel_dirs →
       OFS.waves_completed r = depth sample_tree).
Proof.
  apply (wave_loop_visits_tree sample_activities (sample_share_input 2)
           sample_tree "T" 12).
  - reflexivity.
  - apply sample_tree_presented.
  - apply Nat.leb_le. vm_compute. reflexivity.
Defined.

(** *** A batch size that is not positive *)

Lemma send_full_batches_never_exits act input :
  (OFS.batch_size input <= 0)%Z →
  ∀ fuel st, OFS.send_full_batches fuel act input st = None.
Proof.
  intros Hzero fuel. induction fuel as [|fuel IH]; intros st; simpl;
    destruct (Z.leb_spec (OFS.batch_size input)
                (Z.of_nat (length (OFS.current_batch st)))); try lia; auto.
Qed.

Lemma wave_loop_never_exits act input :
  (OFS.batch_size input <= 0)%Z →
  is_Some (OFS.scan_of act input "") →
  ∀ fuel, OFS.wave_loop fuel act input OFS.initial_state = None.
Proof.
  intros Hzero [r Hr] [|fuel]; [reflexivity|].
  simpl. unfold OFS.wave_body. simpl.
  rewrite bool_decide_eq_false_2 by set_solver. simpl.
  by rewrite Hr, send_full_batches_never_exits.
Qed.

(** C1 as stated fails: with a batch size of zero the delivery loop
    never exits, and the run over the sample tree never returns. *)
Lemma zero_batch_size_never_returns :
  presents sample_activities (sample_share_input 0) sample_tree
  ∧ ∀ fuel,
      OFS.orchestrator_file_share fuel sample_activities "T"
        (sample_share_input 0) = None.
Proof.
  split; [apply sample_tree_presented|].
  intros fuel. unfold OFS.orchestrator_file_share, OFS.final_state.
  rewrite wave_loop_never_exits; [done|done|by eexists].
Qed.

(** A root with eleven subdirectories: two levels, three waves. *)
Example wide_tree_run :
  let act :=
    {| OFS.activity_scan_directory := fun task =>
         let dir := ASD.directory_path task in
         Some (only_subdirectories dir
                 (if String.eqb dir ""
                  then [ "d1"; "d2"; "d3"; "d4"; "d5"; "d6"; "d7"; "d8";
                         "d9"; "d10"; "d11" ]
                  else []));
       OFS.activity_send_to_log_analytics := sample_send |} in
  (fun r => (OFS.directories_processed r, OFS.waves_completed r))
    <$> OFS.orchestrator_file_share 5 act "T" (sample_share_input 2)
  = Some (12, 3).
Proof. vm_compute. reflexivity. Qed.

(** * Further properties *)

(** ** The directory scan: accounting *)

Section ScanAccounting.

Variables (lib : ASD.PyLib) (store : ASD.Storage) (input : ASD.Input)
          (now : Z).

Local Abbreviation scan := (ASD.scan_items lib store input now).

(** The four kinds of entry. *)
Lemma scan_single_directory item :
  ASD.item_is_directory item = true →
  scan [item]
  = ({| ASD.res_directory_path := ASD.directory_path input;
        ASD.files_processed := 0; ASD.bytes_processed := 0;
        ASD.subdirectories :=
          [ASD.join_path (ASD.directory_path input) (ASD.item_name item)];
        ASD.file_records := []; ASD.errors := [] |}, []).
Proof.
  intros Hdir. rewrite scan_single. unfold ASD.scan_item. by rewrite Hdir.
Qed.

Lemma scan_single_excluded item :
  ASD.item_is_directory item = false →
  retained_file lib input item = false →
  scan [item] = (ASD.empty_result input, []).
Proof.
  unfold retained_file. intros Hdir Hkept. rewrite Hdir in Hkept.
  simpl in Hkept. apply negb_false_iff in Hkept.
  rewrite scan_single. unfold ASD.scan_item. by rewrite Hdir, Hkept.
Qed.

Lemma scan_single_retained item :
  retained_file lib input item = true →
  scan [item]
  = match ASD.process_file lib store input now item with
    | (ASD.Returned record, io) =>
        ({| ASD.res_directory_path := ASD.directory_path input;
            ASD.files_processed := 1;
            ASD.bytes_processed := ASD.item_size item;
            ASD.subdirectories := [];
            ASD.file_records := [record]; ASD.errors := [] |}, io)
    | (ASD.Raised msg, io) =>
        ({| ASD.res_directory_path := ASD.directory_path input;
            ASD.files_processed := 0; ASD.bytes_processed := 0;
            ASD.subdirectories := []; ASD.file_records := [];
            ASD.errors := [file_error_message item msg] |}, io)
    end.
Proof.
  unfold retained_file. intros [Hdir Hexcl]%andb_prop.
  apply negb_true_iff in Hdir, Hexcl.
  rewrite scan_single. unfold ASD.scan_item. rewrite Hdir, Hexcl.
  by destruct (ASD.process_file _ _ _ _ _) as [[record|msg] io].
Qed.

Lemma retained_not_directory item :
  retained_file lib input item = true → ASD.item_is_directory item = false.
Proof.
  unfold retained_file. intros [Hdir _]%andb_prop.
  by apply negb_true_iff in Hdir.
Qed.

Lemma process_file_outcome item :
  (∃ msg, ASD.get_file_properties store (ASD.item_name item) = ASD.Raised msg
     ∧ ASD.process_file lib store input now item
       = (ASD.Raised msg, [ASD.CallGetProperties (ASD.item_name item)]))
  ∨ (∃ props rec io,
       ASD.get_file_properties store (ASD.item_name item) = ASD.Returned props
       ∧ ASD.process_file lib store input now item = (ASD.Returned rec, io)
       ∧ ASD.FileName rec = ASD.item_name item
       ∧ ASD.FileSizeBytes rec = ASD.item_size item).
Proof.
  unfold ASD.process_file.
  destruct (ASD.get_file_properties store _) as [props|msg]; [right|left].
  - destruct (ASD.compute_hash _ _ _ _ _ _) as [h calls]. eauto 10.
  - eauto.
Qed.

(** What one entry adds to the counters, the records and the errors. *)
Lemma scan_single_accounting item :
  let r := (scan [item]).1 in
  ASD.files_processed r = Z.of_nat (length (ASD.file_records r))
  ∧ ASD.bytes_processed r = py_sum (ASD.FileSizeBytes <$> ASD.file_records r)
  ∧ length (ASD.file_records r)
    = length (List.filter (fun f => negb (properties_fail store f))
                (List.filter (retained_file lib input) [item]))
  ∧ length (ASD.errors r)
    = length (List.filter (properties_fail store)
                (List.filter (retained_file lib input) [item])).
Proof.
  cbv zeta. simpl List.filter.
  destruct (retained_file lib input item) eqn:Hkept.
  - rewrite (scan_single_retained item Hkept). simpl List.filter.
    unfold properties_fail.
    destruct (process_file_outcome item)
      as [(msg & -> & ->)|(props & rec & io & -> & -> & _ & Hsize)]; simpl.
    + done.
    + rewrite Hsize. repeat split. lia.
  - destruct (ASD.item_is_directory item) eqn:Hdir.
    + by rewrite (scan_single_directory item Hdir).
    + by rewrite (scan_single_excluded item Hdir Hkept).
Qed.

Lemma scan_items_accounting items :
  let r := (scan items).1 in
  ASD.files_processed r = Z.of_nat (length (ASD.file_records r))
  ∧ ASD.bytes_processed r = py_sum (ASD.FileSizeBytes <$> ASD.file_records r)
  ∧ length (ASD.file_records r)
    = length (List.filter (fun f => negb (properties_fail store f))
                (List.filter (retained_file lib input) items))
  ∧ length (ASD.errors r)
    = length (List.filter (properties_fail store)
                (List.filter (retained_file lib input) items)).
Proof.
  induction items as [|item items IH]; [by cbv|].
  cbv zeta in *. rewrite scan_items_cons.
  destruct (scan_single_accounting item) as (Hf & Hb & Hr & He).
  destruct IH as (IHf & IHb & IHr & IHe).
  cbv zeta in *. unfold merge_scans. cbn [fst ASD.files_processed
    ASD.bytes_processed ASD.file_records ASD.errors].
  rewrite !length_app, fmap_app, py_sum_app.
  change (item :: items) with ([item] ++ items).
  rewrite !List.filter_app, !length_app.
  rewrite Hf, Hb, Hr, He, IHf, IHb, IHr, IHe. repeat split; lia.
Qed.

Lemma scan_items_subdirectories items :
  ASD.subdirectories (scan items).1
  = map (fun item => ASD.join_path (ASD.directory_path input)
                                   (ASD.item_name item))
        (List.filter ASD.item_is_directory items).
Proof.
  induction items as [|item items IH]; [reflexivity|].
  rewrite scan_items_cons. unfold merge_scans.
  cbn [fst ASD.subdirectories]. rewrite IH. simpl List.filter.
  destruct (ASD.item_is_directory item) eqn:Hdir.
  - by rewrite (scan_single_directory item Hdir).
  - destruct (retained_file lib input item) eqn:Hkept.
    + rewrite (scan_single_retained item Hkept).
      by destruct (ASD.process_file _ _ _ _ _) as [[record|msg] io].
    + by rewrite (scan_single_excluded item Hdir Hkept).
Qed.

(** The requests that one entry causes: none unless it is a retained
    file; then its properties, and after them, if they were read, at
    most a download. *)
Lemma scan_single_calls item :
  ∃ download : bool,
    (scan [item]).2
    = (if retained_file lib input item
       then ASD.CallGetProperties (ASD.item_name item)
              :: (if download then [ASD.CallDownload (ASD.item_name item)]
                  else [])
       else [])
    ∧ (download = true → properties_fail store item = false).
Proof.
  destruct (retained_file lib input item) eqn:Hkept.
  - rewrite (scan_single_retained item Hkept).
    unfold ASD.process_file, properties_fail, ASD.compute_hash.
    destruct (ASD.get_file_properties store _) as [props|msg].
    + destruct (negb _ && _ && _).
      * exists true. by destruct (ASD.download_file store _).
      * exists false. by destruct (negb _ && _).
    + by exists false.
  - exists false. split; [|done].
    destruct (ASD.item_is_directory item) eqn:Hdir.
    + by rewrite (scan_single_directory item Hdir).
    + by rewrite (scan_single_excluded item Hdir Hkept).
Qed.

Lemma scan_items_calls_cons x xs :
  (scan (x :: xs)).2 = (scan [x]).2 ++ (scan xs).2.
Proof. by rewrite scan_items_cons. Qed.

Lemma scan_items_calls_file items call :
  call ∈ (scan items).2 →
  ∃ item, item ∈ items ∧ retained_file lib input item = true
          ∧ call_file call = ASD.item_name item.
Proof.
  induction items as [|item items IH]; [intros []%elem_of_nil|].
  rewrite (scan_items_calls_cons item items).
  intros [Hin|Hin]%elem_of_app.
  - destruct (scan_single_calls item) as (dl & Hcalls & _).
    rewrite Hcalls in Hin.
    destruct (retained_file lib input item) eqn:Hkept;
      [|by apply elem_of_nil in Hin].
    exists item. split; [apply list_elem_of_here|]. split; [done|].
    apply elem_of_cons in Hin as [->|Hin]; [done|].
    destruct dl; [|by apply elem_of_nil in Hin].
    by apply list_elem_of_singleton in Hin as ->.
  - destruct (IH Hin) as (item' & ? & ? & ?).
    exists item'. split; [by apply list_elem_of_further|done].
Qed.

Lemma scan_items_properties_requests items :
  length (List.filter (fun call => negb (is_download call)) (scan items).2)
  = length (List.filter (retained_file lib input) items).
Proof.
  induction items as [|item items IH]; [reflexivity|].
  rewrite (scan_items_calls_cons item items), List.filter_app, length_app, IH.
  destruct (scan_single_calls item) as (dl & -> & _). simpl List.filter.
  destruct (retained_file lib input item); [|reflexivity].
  by destruct dl.
Qed.

Lemma scan_items_download_follows items f :
  ASD.CallDownload f ∈ (scan items).2 →
  ∃ before after,
    (scan items).2
    = before ++ [ASD.CallGetProperties f; ASD.CallDownload f] ++ after.
Proof.
  induction items as [|item items IH]; [intros []%elem_of_nil|].
  rewrite (scan_items_calls_cons item items).
  intros [Hin|Hin]%elem_of_app.
  - destruct (scan_single_calls item) as (dl & Hcalls & _).
    rewrite Hcalls in *.
    destruct (retained_file lib input item);
      [|by apply elem_of_nil in Hin].
    apply elem_of_cons in Hin as [?|Hin]; [discriminate|].
    destruct dl; [|by apply elem_of_nil in Hin].
    apply list_elem_of_singleton in Hin as [= ->].
    by exists [], (scan items).2.
  - destruct (IH Hin) as (before & after & ->).
    exists ((scan [item]).2 ++ before), after. by rewrite <- app_assoc.
Qed.

Lemma scan_items_no_download_after_failure items f :
  (∃ msg, ASD.get_file_properties store f = ASD.Raised msg) →
  ASD.CallDownload f ∉ (scan items).2.
Proof.
  intros [msg Hfail].
  induction items as [|item items IH]; [by intros []%elem_of_nil|].
  rewrite (scan_items_calls_cons item items).
  intros [Hin|Hin]%elem_of_app; [|done].
  destruct (scan_single_calls item) as (dl & Hcalls & Hdl).
  rewrite Hcalls in Hin.
  destruct (retained_file lib input item); [|by apply elem_of_nil in Hin].
  apply elem_of_cons in Hin as [?|Hin]; [discriminate|].
  destruct dl; [|by apply elem_of_nil in Hin].
  apply list_elem_of_singleton in Hin as [= ->].
  specialize (Hdl eq_refl). unfold properties_fail in Hdl.
  by rewrite Hfail in Hdl.
Qed.

(** The hash and the age of a record. *)
Lemma process_file_fields item rec io :
  ASD.process_file lib store input now item = (ASD.Returned rec, io) →
  ∃ props,
    ASD.get_file_properties store (ASD.item_name item) = ASD.Returned props
    ∧ ASD.FileName rec = ASD.item_name item
    ∧ ASD.FileSizeBytes rec = ASD.item_size item
    ∧ ASD.FileHash rec
      = (ASD.compute_hash lib store (ASD.skip_hash_computation input)
           (ASD.max_file_size_for_hash_mb input * 1024 * 1024)
           (ASD.item_name item) (ASD.item_size item)).1
    ∧ ASD.AgeInDays rec
      = match ASD.last_modified props with
        | Some lm_dt => ((now - lm_dt) / ASD.one_day)%Z
        | None => 0%Z
        end
    ∧ ASD.AgeBucket rec = ASD.get_age_bucket (ASD.AgeInDays rec)
    ∧ ASD.SizeBucket rec = ASD.get_size_bucket (ASD.FileSizeBytes rec)
    ∧ ASD.FileCategory rec
      = ASD.get_file_category (ASD.str_lower lib) (ASD.FileExtension rec).
Proof.
  unfold ASD.process_file.
  destruct (ASD.get_file_properties store _) as [props|msg]; [|discriminate].
  destruct (ASD.compute_hash _ _ _ _ _ _) as [h calls].
  intros [= <- _]. exists props. by repeat split.
Qed.

End ScanAccounting.

Lemma filter_split_length {A} (p : A → bool) (l : list A) :
  length (List.filter (fun x => negb (p x)) l) + length (List.filter p l)
  = length l.
Proof.
  induction l as [|x l IH]; [reflexivity|].
  simpl. destruct (p x); simpl; lia.
Qed.

(** X1.  The counters of a scan result agree with its records:
    [files_processed] is the number of records and [bytes_processed] the
    sum of their sizes.  Every retained file is accounted for once: it
    has a record, or, when its properties cannot be read, an error
    string; the only other error string is that of a listing that
    raised. *)
Theorem scan_counters_account_for_every_file (lib : ASD.PyLib)
    (store : ASD.Storage) (now : Z) (input : ASD.Input) :
  let r := (ASD.main lib store now input).1 in
  let failing :=
    length (List.filter (properties_fail store)
                        (retained_files lib store input)) in
  ASD.files_processed r = Z.of_nat (length (ASD.file_records r))
  ∧ ASD.bytes_processed r = py_sum (ASD.FileSizeBytes <$> ASD.file_records r)
  ∧ length (ASD.file_records r) + failing
    = length (retained_files lib store input)
  ∧ length (ASD.errors r)
    = failing + match ASD.listing_raises store with
                | Some _ => 1
                | None => 0
                end.
Proof.
  cbv zeta.
  destruct (main_counters lib store now input) as [-> ->].
  rewrite main_file_records, main_errors, length_app.
  destruct (scan_items_accounting lib store input now (ASD.listed store))
    as (Hf & Hb & Hr & He).
  cbv zeta in *. unfold retained_files. rewrite Hf, Hb, Hr, He.
  repeat split.
  - apply filter_split_length.
  - by destruct (ASD.listing_raises store).
Qed.

(** X2.  The subdirectories of a scan result are the directory entries
    of the listing, in its order, each joined to the path of the scanned
    directory; neither the exclusion patterns, nor the hash policy, nor
    what happens to the files changes them. *)
Theorem subdirectories_are_the_listed_directories (lib lib' : ASD.PyLib)
    (store store' : ASD.Storage) (now now' : Z) (input input' : ASD.Input) :
  ASD.subdirectories (ASD.main lib store now input).1
  = map (fun item => ASD.join_path (ASD.directory_path input)
                                   (ASD.item_name item))
        (List.filter ASD.item_is_directory (ASD.listed store))
  ∧ (ASD.listed store' = ASD.listed store →
     ASD.directory_path input' = ASD.directory_path input →
     ASD.subdirectories (ASD.main lib' store' now' input').1
     = ASD.subdirectories (ASD.main lib store now input).1).
Proof.
  rewrite !main_subdirectories, !scan_items_subdirectories.
  split; [done|]. by intros -> ->.
Qed.

Lemma subdirectories_are_the_listed_directories_witness :
  ASD.subdirectories
    (ASD.main sample_lib sample_store sample_now (sample_scan_input true)).1
  = ["sub"]
  ∧ ASD.subdirectories
      (ASD.main sample_lib interrupted_store 0
         {| ASD.storage_account_name := "account";
            ASD.storage_account_key := "key";
            ASD.file_share_name := "share";
            ASD.directory_path := "";
            ASD.execution_id := "run-2";
            ASD.skip_hash_computation := false;
            ASD.max_file_size_for_hash_mb := 1;
            ASD.exclude_patterns := ["sub"; "*.txt"] |}).1
    = ASD.subdirectories
        (ASD.main sample_lib
           (with_listing sample_sub_store
              [sample_dir "sub"; sample_file "a.txt" 500] None)
           sample_now (sample_scan_input true)).1.
Proof.
  split.
  - exact (proj1 (subdirectories_are_the_listed_directories sample_lib
                    sample_lib sample_store sample_store sample_now
                    sample_now (sample_scan_input true)
                    (sample_scan_input true))).
  - exact (proj2 (subdirectories_are_the_listed_directories sample_lib
                    sample_lib
                    (with_listing sample_sub_store
                       [sample_dir "sub"; sample_file "a.txt" 500] None)
                    interrupted_store sample_now 0 (sample_scan_input true) _)
             eq_refl eq_refl).
Defined.

Lemma scan_item_excluded lib store input now acc item :
  excluded_file lib input item = true →
  ASD.scan_item lib store input now acc item = acc.
Proof.
  intros [Hfile Hexcl]%andb_prop. apply negb_true_iff in Hfile.
  unfold ASD.scan_item. destruct acc as [result calls].
  by rewrite Hfile, Hexcl.
Qed.

Lemma scan_items_without_excluded lib store input now items :
  ASD.scan_items lib store input now
    (List.filter (fun item => negb (excluded_file lib input item)) items)
  = ASD.scan_items lib store input now items.
Proof.
  unfold ASD.scan_items. generalize (ASD.empty_result input, @nil ASD.IOCall).
  induction items as [|item items IH]; intros acc; [done|].
  cbn [List.filter fold_left].
  destruct (excluded_file lib input item) eqn:Hitem; cbn [negb].
  - by rewrite IH, scan_item_excluded.
  - cbn [fold_left]. apply IH.
Qed.

(** X3.  A file whose name matches an exclusion pattern is skipped
    without a trace: what the scan returns (records, error strings,
    counters and subdirectories) and the requests it makes to the storage
    are those of the same listing with the excluded files taken out; no
    request to the storage is about an excluded name, and no record
    carries one. *)
Theorem excluded_files_are_never_touched (lib : ASD.PyLib)
    (store : ASD.Storage) (now : Z) (input : ASD.Input) :
  ASD.main lib store now input
  = ASD.main lib (without_excluded lib input store) now input
  ∧ ∀ f,
      ASD.is_file_excluded lib f (ASD.exclude_patterns input) = true →
      (∀ call, call ∈ (ASD.main lib store now input).2 → call_file call ≠ f)
      ∧ (∀ rec, rec ∈ ASD.file_records (ASD.main lib store now input).1 →
           ASD.FileName rec ≠ f).
Proof.
  split.
  { unfold ASD.main, without_excluded, with_listing.
    cbn [ASD.listed ASD.listing_raises].
    change (ASD.scan_items lib
              {| ASD.listed := ?l; ASD.listing_raises := ?r;
                 ASD.get_file_properties := ASD.get_file_properties store;
                 ASD.download_file := ASD.download_file store |}
              input now ?items)
      with (ASD.scan_items lib store input now items).
    by rewrite scan_items_without_excluded. }
  intros f Hexcl. rewrite main_calls, main_file_records.
  assert (∀ item, retained_file lib input item = true →
                  ASD.item_name item ≠ f) as Hkept.
  { unfold retained_file. intros item [_ Hitem]%andb_prop Heq.
    rewrite Heq in Hitem. apply negb_true_iff in Hitem. congruence. }
  split.
  - intros call (item & _ & Hitem & ->)%scan_items_calls_file.
    by apply Hkept.
  - intros rec (item & _ & Hitem & io & Hp)%scan_items_records.
    destruct (process_file_fields lib store input now item rec io Hp)
      as (_ & _ & -> & _).
    by apply Hkept.
Qed.

Lemma excluded_files_are_never_touched_witness :
  ASD.listed (without_excluded sample_lib (sample_scan_input false)
                sample_store)
  = [ sample_file "a.txt" 500; sample_dir "sub"; sample_file "locked.doc" 40;
      sample_file "c.pdf" 2097152; sample_file "big.iso" 20971520 ]
  ∧ ASD.main sample_lib sample_store sample_now (sample_scan_input false)
    = ASD.main sample_lib
        (without_excluded sample_lib (sample_scan_input false) sample_store)
        sample_now (sample_scan_input false)
  ∧ (∀ call,
       call ∈ (ASD.main sample_lib sample_store sample_now
                 (sample_scan_input false)).2 →
       call_file call ≠ "b.tmp")
  ∧ (∀ rec,
       rec ∈ ASD.file_records
               (ASD.main sample_lib sample_store sample_now
                  (sample_scan_input false)).1 →
       ASD.FileName rec ≠ "b.tmp").
Proof.
  destruct (excluded_files_are_never_touched sample_lib sample_store
              sample_now (sample_scan_input false)) as [Hsame Hnever].
  split; [reflexivity|]. split; [exact Hsame|].
  apply (Hnever "b.tmp"). reflexivity.
Defined.

(** X4.  The hash field of every record, by the size of the file: with
    hashing disabled it is "SKIPPED"; with hashing enabled it is the
    digest of the content (or "ERROR" when the download failed) up to the
    smaller of the configured maximum and 10 MiB, "SKIPPED_TOO_LARGE"
    above the configured maximum, and "SKIPPED", as if hashing were
    disabled, for a file above 10 MiB that the configured maximum would
    admit. *)
Theorem hash_field_of_a_record (lib : ASD.PyLib) (store : ASD.Storage)
    (now : Z) (input : ASD.Input) (rec : ASD.FileRecord) :
  rec ∈ ASD.file_records (ASD.main lib store now input).1 →
  let size := ASD.FileSizeBytes rec in
  let configured := (ASD.max_file_size_for_hash_mb input * 1024 * 1024)%Z in
  if ASD.skip_hash_computation input then ASD.FileHash rec = "SKIPPED"
  else
    ((size <= hash_limit input)%Z →
     ASD.FileHash rec
     = match ASD.download_file store (ASD.FileName rec) with
       | ASD.Returned content => ASD.md5_hexdigest_upper lib content
       | ASD.Raised _ => "ERROR"
       end)
    ∧ ((configured < size)%Z → ASD.FileHash rec = "SKIPPED_TOO_LARGE")
    ∧ ((10 * 1024 * 1024 < size <= configured)%Z →
       ASD.FileHash rec = "SKIPPED").
Proof.
  rewrite main_file_records.
  intros (item & _ & _ & io & Hp)%scan_items_records. cbv zeta.
  destruct (process_file_fields lib store input now item rec io Hp)
    as (props & _ & Hname & Hsize & Hhash & _).
  rewrite Hhash, Hname, Hsize. unfold ASD.compute_hash, hash_limit.
  destruct (ASD.skip_hash_computation input); [reflexivity|]. simpl negb.
  cbn [andb].
  destruct (Z.leb_spec (ASD.item_size item)
              (ASD.max_file_size_for_hash_mb input * 1024 * 1024));
    destruct (Z.leb_spec (ASD.item_size item) (10 * 1024 * 1024));
    destruct (Z.ltb_spec (ASD.max_file_size_for_hash_mb input * 1024 * 1024)
                (ASD.item_size item)); try lia; cbn [andb fst].
  - split; [|split; intros; lia].
    intros _. by destruct (ASD.download_file store _).
  - split; [intros; lia|]. split; [intros; lia|done].
  - split; [intros; lia|]. split; [done|intros; lia].
  - split; [intros; lia|]. split; [done|intros; lia].
Qed.

Lemma hash_field_of_a_record_witness :
  ∃ rec,
    rec ∈ ASD.file_records
            (ASD.main sample_lib sample_store sample_now
               (sample_scan_input false)).1
    ∧ ASD.FileName rec = "big.iso"
    ∧ ((ASD.FileSizeBytes rec <= hash_limit (sample_scan_input false))%Z →
       ASD.FileHash rec
       = match ASD.download_file sample_store (ASD.FileName rec) with
         | ASD.Returned content => ASD.md5_hexdigest_upper sample_lib content
         | ASD.Raised _ => "ERROR"
         end)
    ∧ ((100 * 1024 * 1024 < ASD.FileSizeBytes rec)%Z →
       ASD.FileHash rec = "SKIPPED_TOO_LARGE")
    ∧ ((10 * 1024 * 1024 < ASD.FileSizeBytes rec <= 100 * 1024 * 1024)%Z →
       ASD.FileHash rec = "SKIPPED").
Proof.
  destruct (ASD.file_records
              (ASD.main sample_lib sample_store sample_now
                 (sample_scan_input false)).1 !! 2) as [rec|] eqn:Hrec;
    [|by vm_compute in Hrec].
  assert (rec ∈ ASD.file_records
                  (ASD.main sample_lib sample_store sample_now
                     (sample_scan_input false)).1) as Hin
    by (by eapply list_elem_of_lookup_2).
  exists rec. split; [exact Hin|]. split.
  { vm_compute in Hrec. by injection Hrec as <-. }
  exact (hash_field_of_a_record sample_lib sample_store sample_now
           (sample_scan_input false) rec Hin).
Defined.

Lemma get_age_bucket_negative a :
  (a < 0)%Z → ASD.get_age_bucket a = "0-7 days".
Proof.
  intros Ha. unfold ASD.get_age_bucket.
  by destruct (Z.leb_spec a 7); [|lia].
Qed.

(** X5.  The age of a record is the number of whole days from the last
    modification to the scan, rounded down: zero when the file has no
    modification time, and negative, in the bucket "0-7 days", when the
    file was modified after the scan. *)
Theorem age_of_a_record (lib : ASD.PyLib) (store : ASD.Storage) (now : Z)
    (input : ASD.Input) (item : ASD.Item) (props : ASD.FileProperties) :
  item ∈ ASD.listed store →
  retained_file lib input item = true →
  ASD.get_file_properties store (ASD.item_name item) = ASD.Returned props →
  ∃ rec,
    rec ∈ ASD.file_records (ASD.main lib store now input).1
    ∧ ASD.FileName rec = ASD.item_name item
    ∧ ASD.AgeBucket rec = ASD.get_age_bucket (ASD.AgeInDays rec)
    ∧ match ASD.last_modified props with
      | None => ASD.AgeInDays rec = 0%Z
      | Some modified =>
          (ASD.AgeInDays rec * ASD.one_day <= now - modified
           < (ASD.AgeInDays rec + 1) * ASD.one_day)%Z
          ∧ ((now < modified)%Z →
             (ASD.AgeInDays rec < 0)%Z ∧ ASD.AgeBucket rec = "0-7 days")
      end.
Proof.
  intros Hin Hkept Hprops. rewrite main_file_records.
  destruct (process_file_outcome lib store input now item)
    as [(msg & Hfail & _)|(props' & rec & io & _ & Hp & _)]; [congruence|].
  exists rec. split.
  { apply scan_items_records. exists item. eauto. }
  destruct (process_file_fields lib store input now item rec io Hp)
    as (props'' & Hprops'' & Hname & _ & _ & Hage & Hbucket & _).
  assert (props'' = props) as -> by congruence.
  split; [done|]. split; [done|].
  destruct (ASD.last_modified props) as [modified|]; [|done].
  assert (0 < ASD.one_day)%Z as Hday by (by vm_compute).
  pose proof (Z.mul_div_le (now - modified) _ Hday) as Hlow.
  pose proof (Z.mul_succ_div_gt (now - modified) _ Hday) as Hhigh.
  rewrite <- Hage in Hlow, Hhigh.
  assert (ASD.AgeInDays rec * ASD.one_day <= now - modified
          < (ASD.AgeInDays rec + 1) * ASD.one_day)%Z as Hbounds by lia.
  split; [exact Hbounds|].
  intros Hfuture.
  assert (ASD.AgeInDays rec < 0)%Z as Hneg by nia.
  split; [exact Hneg|]. rewrite Hbucket. by apply get_age_bucket_negative.
Qed.

Lemma age_of_a_record_witness :
  ∃ rec,
    rec ∈ ASD.file_records
            (ASD.main sample_lib sample_store (-1)
               (sample_scan_input true)).1
    ∧ ASD.FileName rec = "a.txt"
    ∧ ASD.AgeBucket rec = ASD.get_age_bucket (ASD.AgeInDays rec)
    ∧ ((ASD.AgeInDays rec * ASD.one_day <= -1 - 0
        < (ASD.AgeInDays rec + 1) * ASD.one_day)%Z
       ∧ ((-1 < 0)%Z →
          (ASD.AgeInDays rec < 0)%Z ∧ ASD.AgeBucket rec = "0-7 days")).
Proof.
  apply (age_of_a_record sample_lib sample_store (-1)
           (sample_scan_input true) (sample_file "a.txt" 500)
           {| ASD.last_modified := Some 0%Z; ASD.creation_time := None |}).
  - apply list_elem_of_here.
  - reflexivity.
  - reflexivity.
Defined.

(** X6.  The properties of every retained file are requested exactly
    once; a download is requested only right after the properties of the
    same file have been read, and never for a file whose properties
    cannot be read. *)
Theorem properties_are_read_before_a_download (lib : ASD.PyLib)
    (store : ASD.Storage) (now : Z) (input : ASD.Input) :
  let calls := (ASD.main lib store now input).2 in
  length (List.filter (fun call => negb (is_download call)) calls)
  = length (retained_files lib store input)
  ∧ (∀ f, ASD.CallDownload f ∈ calls →
       ∃ before after,
         calls
         = before ++ [ASD.CallGetProperties f; ASD.CallDownload f] ++ after)
  ∧ (∀ f msg, ASD.get_file_properties store f = ASD.Raised msg →
       ASD.CallDownload f ∉ calls).
Proof.
  cbv zeta. rewrite main_calls. split; [|split].
  - apply scan_items_properties_requests.
  - intros f. apply scan_items_download_follows.
  - intros f msg Hfail. apply scan_items_no_download_after_failure. eauto.
Qed.

Lemma properties_are_read_before_a_download_witness :
  let calls := (ASD.main sample_lib sample_store sample_now
                  (sample_scan_input false)).2 in
  (∃ before after,
     calls = before ++ [ASD.CallGetProperties "c.pdf";
                        ASD.CallDownload "c.pdf"] ++ after)
  ∧ ASD.CallDownload "locked.doc" ∉ calls.
Proof.
  cbv zeta.
  destruct (properties_are_read_before_a_download sample_lib sample_store
              sample_now (sample_scan_input false)) as (_ & Hfollows & Hnever).
  split.
  - apply Hfollows. vm_compute.
    do 4 apply list_elem_of_further. apply list_elem_of_here.
  - by apply (Hnever "locked.doc" "access denied").
Defined.

(** ** The share orchestrator: waves and totals *)







(** ** The share orchestrator over the scan activity *)

Lemma accounted_results_totals (results : list ASD.ScanResult) :
  Forall (fun r =>
            ASD.files_processed r = Z.of_nat (length (ASD.file_records r))
            ∧ ASD.bytes_processed r
              = py_sum (ASD.FileSizeBytes <$> ASD.file_records r)) results →
  py_sum (map ASD.files_processed results)
  = Z.of_nat (length (flat_map ASD.file_records results))
  ∧ py_sum (map ASD.bytes_processed results)
    = py_sum (ASD.FileSizeBytes <$> flat_map ASD.file_records results).
Proof.
  induction 1 as [|r results [Hf Hb] _ [IHf IHb]]; [done|].
  cbn [map flat_map py_sum fold_right].
  rewrite length_app, fmap_app, py_sum_app, Nat2Z.inj_add.
  unfold py_sum in *. rewrite IHf, IHb, Hf, Hb. done.
Qed.

Lemma main_accounting lib store now input :
  let r := (ASD.main lib store now input).1 in
  ASD.files_processed r = Z.of_nat (length (ASD.file_records r))
  ∧ ASD.bytes_processed r = py_sum (ASD.FileSizeBytes <$> ASD.file_records r).
Proof.
  cbv zeta. destruct (main_counters lib store now input) as [-> ->].
  rewrite main_file_records.
  destruct (scan_items_accounting lib store input now (ASD.listed store))
    as (Hf & Hb & _). done.
Qed.

(** Where a record of a scan comes from. *)
Lemma main_record_origin lib store now input rec :
  rec ∈ ASD.file_records (ASD.main lib store now input).1 →
  ASD.StorageAccount rec = ASD.storage_account_name input
  ∧ ASD.FileShare rec = ASD.file_share_name input
  ∧ ASD.ExecutionId rec = ASD.execution_id input
  ∧ ASD.FilePath rec
    = ASD.join_path (ASD.directory_path input) (ASD.FileName rec)
  ∧ ASD.TimeGenerated rec = ASD.format_datetime lib (Some now).
Proof.
  rewrite main_file_records.
  intros (item & _ & _ & io & Hp)%scan_items_records.
  unfold ASD.process_file in Hp.
  destruct (ASD.get_file_properties store _) as [props|msg]; [|discriminate].
  destruct (ASD.compute_hash _ _ _ _ _ _) as [h calls].
  by injection Hp as <- _.
Qed.

Lemma received_scanning lib storage clock send input dirs :
  received (scanning_activities lib storage clock send) input dirs
  = map (fun dir =>
           (ASD.main lib (storage (OFS.task_input input dir))
              (clock (OFS.task_input input dir))
              (OFS.task_input input dir)).1) dirs.
Proof.
  unfold received. induction dirs as [|dir dirs IH]; [done|].
  cbn. by rewrite IH.
Qed.

(** X8.  When the scans of a share are made by the scan activity, the
    totals that the share orchestrator reports are those of the records
    it handed to the delivery activity: [files_processed] is their number
    and [bytes_processed] the sum of their sizes, and every one of them
    carries the storage account, the share and the execution id of the
    orchestrator's input. *)
Theorem share_totals_are_those_of_the_delivered_records (lib : ASD.PyLib)
    (storage : ASD.Input → ASD.Storage) (clock : ASD.Input → Z)
    (send : nat → list ASD.FileRecord → option OFS.SendResult)
    (fuel : nat) (utcnow : string) (input : OFS.Input) (r : OFS.Result) :
  OFS.orchestrator_file_share fuel
    (scanning_activities lib storage clock send) utcnow input = Some r →
  ∃ st,
    OFS.final_state fuel (scanning_activities lib storage clock send) input
    = Some st
    ∧ OFS.files_processed r
      = Z.of_nat (length (concat (OFS.send_calls st)))
    ∧ OFS.bytes_processed r
      = py_sum (ASD.FileSizeBytes <$> concat (OFS.send_calls st))
    ∧ Forall (fun rec =>
                ASD.StorageAccount rec = OFS.storage_account_name input
                ∧ ASD.FileShare rec = OFS.file_share_name input
                ∧ ASD.ExecutionId rec = OFS.execution_id input)
             (concat (OFS.send_calls st)).
Proof.
  set (act := scanning_activities lib storage clock send).
  unfold OFS.orchestrator_file_share. intros Hrun.
  destruct (OFS.final_state fuel act input) as [st|] eqn:Hfinal;
    [|discriminate].
  injection Hrun as <-. exists st. split; [done|].
  destruct (final_state_facts act input fuel st Hfinal)
    as (_ & _ & _ & _ & Hrecords & _).
  unfold OFS.final_state in Hfinal.
  destruct (OFS.wave_loop fuel act input OFS.initial_state) as [s|] eqn:Hloop;
    [|discriminate].
  injection Hfinal as <-.
  destruct (wave_loop_exit act input fuel _ _ Hloop) as [Hreach _];
    [constructor|].
  apply reachable_invariant in Hreach
    as (_ & _ & _ & _ & Hfiles & Hbytes & _).
  destruct (send_remaining_frame act s) as (_ & Hcalls & _).
  rewrite Hcalls in Hrecords.
  assert (OFS.total_files_processed (OFS.send_remaining act s)
          = OFS.total_files_processed s
          ∧ OFS.total_bytes_processed (OFS.send_remaining act s)
            = OFS.total_bytes_processed s) as [Hf Hb].
  { unfold OFS.send_remaining. by destruct (OFS.current_batch s). }
  cbn [OFS.build_result OFS.files_processed OFS.bytes_processed].
  rewrite Hf, Hb, Hfiles, Hbytes, Hrecords. unfold records_received.
  unfold act. rewrite !received_scanning.
  split; [|split].
  - apply accounted_results_totals, Forall_map, Forall_forall.
    intros dir _. apply main_accounting.
  - apply accounted_results_totals, Forall_map, Forall_forall.
    intros dir _. apply main_accounting.
  - apply Forall_forall. intros rec Hin.
    apply list_elem_of_In, in_flat_map in Hin as (res & Hres & Hin).
    apply in_map_iff in Hres as (dir & <- & _).
    apply list_elem_of_In, main_record_origin in Hin
      as (-> & -> & -> & _). done.
Qed.

Lemma share_totals_are_those_of_the_delivered_records_witness :
  let act :=
    scanning_activities sample_lib
      (fun task => sample_storage (ASD.directory_path task))
      (fun _ => sample_now) sample_send in
  ∃ r st,
    OFS.orchestrator_file_share 5 act "2026-01-01T00:00:00"
      (sample_share_input 2) = Some r
    ∧ OFS.final_state 5 act (sample_share_input 2) = Some st
    ∧ OFS.files_processed r
      = Z.of_nat (length (concat (OFS.send_calls st)))
    ∧ OFS.bytes_processed r
      = py_sum (ASD.FileSizeBytes <$> concat (OFS.send_calls st))
    ∧ Forall (fun rec =>
                ASD.StorageAccount rec = "account"
                ∧ ASD.FileShare rec = "share"
                ∧ ASD.ExecutionId rec = "run-1")
             (concat (OFS.send_calls st)).
Proof.
  cbv zeta.
  destruct (OFS.orchestrator_file_share 5
              (scanning_activities sample_lib
                 (fun task => sample_storage (ASD.directory_path task))
                 (fun _ => sample_now) sample_send)
              "2026-01-01T00:00:00" (sample_share_input 2))
    as [r|] eqn:Hrun; [|by vm_compute in Hrun].
  destruct (share_totals_are_those_of_the_delivered_records sample_lib
              (fun task => sample_storage (ASD.directory_path task))
              (fun _ => sample_now) sample_send 5 "2026-01-01T00:00:00"
              (sample_share_input 2) r Hrun) as (st & Hst).
  exists r, st. split; [reflexivity|exact Hst].
Defined.

(** ** The main orchestrator and the list activity *)

Lemma run_shares_names fuel w input names results :
  OM.run_shares fuel w input names = Some results →
  map OFS.file_share results = names
  ∧ Forall (fun r => OFS.status r = "completed") results.
Proof.
  intros Hrun%run_shares_spec.
  induction Hrun as [|name r names results Hr _ [IHn IHs]]; [done|].
  rewrite orchestrator_file_share_build in Hr.
  destruct (OFS.final_state _ _ _) as [st|]; [|discriminate].
  injection Hr as <-. simpl. rewrite IHn. split; [done|by constructor].
Qed.

Lemma run_shares_discovering fuel names w input shares :
  OM.run_shares fuel (discovering names w) input shares
  = OM.run_shares fuel w input shares.
Proof.
  induction shares as [|share shares IH]; [done|].
  cbn [OM.run_shares]. by rewrite IH.
Qed.

(** X9.  A completed report of the main orchestrator holds one share
    result for every name it was to scan, in the order of the names and
    each completed; a name that occurs twice is scanned twice.  The names
    of the input are used whenever there are any, whatever the list
    activity would answer. *)
Theorem share_results_follow_the_names (fuel : nat) (w : OM.World)
    (input : OM.Input) (report : OM.Report)
    (statuses : list OM.CustomStatus) :
  OM.orchestrator_main fuel w input = Some (OM.Completed report, statuses) →
  map OFS.file_share (OM.share_results report) = OM.shares_to_scan w input
  ∧ OM.total_shares_scanned report = length (OM.share_results report)
  ∧ Forall (fun r => OFS.status r = "completed") (OM.share_results report)
  ∧ (OM.file_share_names input ≠ [] →
     OM.shares_to_scan w input = OM.file_share_names input
     ∧ (OM.DiscoveringFileShares ∉ statuses)
     ∧ ∀ names,
         OM.orchestrator_main fuel (discovering names w) input
         = OM.orchestrator_main fuel w input).
Proof.
  intros Hrun.
  destruct (orchestrator_main_completed fuel w input report statuses Hrun)
    as (results & Hshares & ->).
  destruct (run_shares_names _ _ _ _ _ Hshares) as [Hnames Hdone].
  cbn [OM.aggregate OM.share_results OM.total_shares_scanned].
  split; [done|]. split; [by rewrite <- Hnames, length_map|].
  split; [done|]. intros Hgiven.
  unfold OM.orchestrator_main, OM.shares_to_scan in *.
  destruct (OM.file_share_names input) as [|name names] eqn:Hin; [done|].
  split; [done|]. split.
  2: { intros discovered. by rewrite run_shares_discovering. }
  destruct (OM.run_shares fuel w input (name :: names)); [|discriminate].
  pose proof (f_equal (fun o => snd <$> o) Hrun) as Hst. cbn in Hst.
  injection Hst as <-.
  rewrite !elem_of_cons. intros [?|[?|[?|[?|[]%elem_of_nil]]]]; discriminate.
Qed.

Lemma share_results_follow_the_names_witness :
  let input :=
    FunctionApp.client_input
      {| FunctionApp.execution_id := "run-1";
         FunctionApp.storage_account_name := "account";
         FunctionApp.storage_account_key := "key";
         FunctionApp.subscription_id := "";
         FunctionApp.resource_group := "";
         FunctionApp.file_share_names := ["share"; "share"];
         FunctionApp.skip_hash_computation := true;
         FunctionApp.batch_size := 2;
         FunctionApp.max_file_size_for_hash_mb := 100;
         FunctionApp.exclude_patterns := ["*.tmp"] |} in
  let w := sample_world sample_activities "t0" "t1" "t2" in
  ∃ report statuses,
    OM.orchestrator_main 5 w input = Some (OM.Completed report, statuses)
    ∧ map OFS.file_share (OM.share_results report) = ["share"; "share"]
    ∧ OM.total_shares_scanned report = 2
    ∧ OM.orchestrator_main 5 (discovering [] w) input
      = OM.orchestrator_main 5 w input.
Proof.
  cbv zeta.
  set (input := FunctionApp.client_input _).
  set (w := sample_world sample_activities "t0" "t1" "t2").
  destruct (OM.orchestrator_main 5 w input) as [[[name|report] statuses]|]
    eqn:Hrun; [by vm_compute in Hrun| |by vm_compute in Hrun].
  destruct (share_results_follow_the_names 5 w input report statuses Hrun)
    as (Hnames & Hcount & _ & Hgiven).
  destruct Hgiven as (Hscan & _ & Hsame); [done|].
  exists report, statuses. split; [done|].
  split; [by rewrite Hnames, Hscan|].
  split; [by rewrite Hcount, <- (length_map OFS.file_share), Hnames, Hscan|].
  by rewrite Hsame, Hrun.
Defined.

(** X10.  The list activity returns the names of the shares that have no
    snapshot entry or an empty one, in the order of the listing; an
    exception while the shares are listed is raised again, and then no
    name is returned, whatever had been listed before it. *)
Theorem list_shares_returns_the_base_shares (service : ALS.Service) :
  match ALS.listing_raises service with
  | None =>
      ∃ names,
        ALS.main service = ASD.Returned names
        ∧ names `sublist_of` map ALS.share_name (ALS.listed_shares service)
        ∧ length names
          = length (List.filter base_share (ALS.listed_shares service))
        ∧ ∀ name,
            name ∈ names ↔
            ∃ share, share ∈ ALS.listed_shares service
                     ∧ ALS.share_name share = name
                     ∧ (ALS.snapshot share = None
                        ∨ ALS.snapshot share = Some "")
  | Some e => ALS.main service = ASD.Raised e
  end.
Proof.
  unfold ALS.main.
  destruct (ALS.listing_raises service) as [e|]; [done|].
  eexists. split; [reflexivity|].
  assert (∀ share, negb (truthy_opt (ALS.snapshot share)) = true ↔
                   ALS.snapshot share = None ∨ ALS.snapshot share = Some "")
    as Hbase.
  { intros share. destruct (ALS.snapshot share) as [[|c s]|]; simpl;
      split; try done; try (by intros [?|?]); auto. }
  split; [|split].
  - induction (ALS.listed_shares service) as [|share shares IH];
      [constructor|].
    simpl. destruct (negb _); simpl; by constructor.
  - by rewrite length_fmap.
  - intros name. rewrite list_elem_of_fmap. split.
    + intros (share & -> & [Hin Hs]%list_elem_of_In%filter_In).
      exists share. apply list_elem_of_In in Hin. split; [done|].
      split; [done|]. by apply Hbase.
    + intros (share & Hin & <- & Hs). exists share. split; [done|].
      apply list_elem_of_In, filter_In. split; [by apply list_elem_of_In|].
      by apply Hbase.
Qed.

Lemma list_shares_returns_the_base_shares_witness :
  ALS.main sample_service = ASD.Returned ["share"; "archive"]
  ∧ ∃ names,
      ALS.main sample_service = ASD.Returned names
      ∧ names `sublist_of` ["share"; "share"; "archive"]
      ∧ length names = 2
      ∧ ∀ name,
          name ∈ names ↔
          ∃ share, share ∈ ALS.listed_shares sample_service
                   ∧ ALS.share_name share = name
                   ∧ (ALS.snapshot share = None
                      ∨ ALS.snapshot share = Some "").
Proof.
  split; [reflexivity|].
  exact (list_shares_returns_the_base_shares sample_service).
Defined.

(** X11.  The main orchestrator over the list activity: without names in
    the input, the shares scanned are the base shares that the activity
    lists, and when the account has only snapshots, or nothing, the
    orchestrator returns its "no file shares" result at once, without
    starting a sub-orchestration. *)
Theorem discovery_feeds_the_main_orchestrator (service : ALS.Service)
    (names : list string) (fuel : nat) (w : OM.World) (input : OM.Input) :
  ALS.main service = ASD.Returned names →
  OM.file_share_names input = [] →
  OM.shares_to_scan (discovering names w) input
  = map ALS.share_name (List.filter base_share (ALS.listed_shares service))
  ∧ (Forall (fun share => base_share share = false)
            (ALS.listed_shares service) →
     OM.orchestrator_main fuel (discovering names w) input
     = Some (OM.NoFileShares (OM.execution_id input),
             [OM.Initializing (OM.storage_account_name input)
                              (OM.clock_start w);
              OM.DiscoveringFileShares])).
Proof.
  unfold ALS.main. intros Hmain Hnone.
  destruct (ALS.listing_raises service); [discriminate|].
  injection Hmain as <-.
  unfold OM.orchestrator_main, OM.shares_to_scan. rewrite Hnone.
  split; [done|]. intros Hsnap. cbn.
  assert (List.filter (fun share => negb (truthy_opt (ALS.snapshot share)))
            (ALS.listed_shares service) = []) as ->; [|done].
  induction Hsnap as [|share shares Hshare _ IH]; [done|].
  simpl. unfold base_share in Hshare. by rewrite Hshare.
Qed.

Lemma discovery_feeds_the_main_orchestrator_witness :
  let w := sample_world sample_activities "t0" "t1" "t2" in
  OM.shares_to_scan (discovering ["share"; "archive"] w)
                    (sample_main_input 2)
  = ["share"; "archive"]
  ∧ OM.orchestrator_main 0 (discovering [] w) (sample_main_input 2)
    = Some (OM.NoFileShares "run-1",
            [OM.Initializing "account" "t0"; OM.DiscoveringFileShares]).
Proof.
  cbv zeta. split.
  - apply (discovery_feeds_the_main_orchestrator sample_service
             ["share"; "archive"] 0
             (sample_world sample_activities "t0" "t1" "t2")
             (sample_main_input 2)); reflexivity.
  - apply (discovery_feeds_the_main_orchestrator snapshot_service [] 0
             (sample_world sample_activities "t0" "t1" "t2")
             (sample_main_input 2)); [reflexivity|reflexivity|].
    repeat constructor.
Defined.

(** ** The delivery activity *)

Lemma sink_configured_false environ :
  sink_configured environ = false ↔
  negb (truthy (environ_get environ "LOG_ANALYTICS_DCE_ENDPOINT" ""))
  || negb (truthy (environ_get environ "LOG_ANALYTICS_DCR_IMMUTABLE_ID" ""))
  = true.
Proof.
  unfold sink_configured.
  destruct (truthy (environ_get environ "LOG_ANALYTICS_DCE_ENDPOINT" ""));
    destruct (truthy (environ_get environ "LOG_ANALYTICS_DCR_IMMUTABLE_ID" ""));
    simpl; split; congruence.
Qed.

(** X12.  A delivery is all or nothing.  It succeeds exactly when there
    is nothing to send, or when both settings of the sink are present,
    the client can be created and the upload of all records is taken;
    [records_sent] is then the number of records and otherwise zero.  At
    most one upload is requested, and none when there are no records,
    when a setting is missing or when the client cannot be created. *)
Theorem delivery_is_all_or_nothing (environ : gmap string string)
    (sink : ASL.Sink) (now : string) (records : list ASD.FileRecord) :
  let result := (ASL.main environ sink now records).1 in
  let calls := (ASL.main environ sink now records).2 in
  (OFS.success result = true ↔
   records = []
   ∨ (sink_configured environ = true
      ∧ ASL.client_raises sink = None
      ∧ ASL.upload sink
          (environ_get environ "LOG_ANALYTICS_DCR_IMMUTABLE_ID" "")
          (environ_get environ "LOG_ANALYTICS_STREAM_NAME"
                       "Custom-FileInventory_CL")
          (map (ASL.fill_time_generated now) records)
        = ASL.Uploaded))
  ∧ OFS.records_sent result
    = (if OFS.success result then Z.of_nat (length records) else 0%Z)
  ∧ length calls ≤ 1
  ∧ (records = [] ∨ sink_configured environ = false
     ∨ is_Some (ASL.client_raises sink) →
     calls = []).
Proof.
  cbv zeta. unfold ASL.main.
  destruct records as [|record records].
  { cbn. repeat split; auto. }
  destruct (sink_configured environ) eqn:Hconf.
  - assert (negb (truthy (environ_get environ "LOG_ANALYTICS_DCE_ENDPOINT" ""))
            || negb (truthy (environ_get environ
                               "LOG_ANALYTICS_DCR_IMMUTABLE_ID" ""))
            = false) as ->.
    { apply not_true_is_false. intros H%sink_configured_false. congruence. }
    destruct (ASL.client_raises sink) as [e|] eqn:Hclient.
    + cbn. repeat split; try lia; try done.
      intros [?|(_ & ? & _)]; discriminate.
    + destruct (ASL.upload sink _ _ _) eqn:Hup; cbn.
      * repeat split; auto.
        intros [?|[?|[? ?]]]; discriminate.
      * repeat split; try lia; try done.
        -- intros [?|(_ & _ & ?)]; discriminate.
        -- intros [?|[?|[? ?]]]; discriminate.
      * repeat split; try lia; try done.
        -- intros [?|(_ & _ & ?)]; discriminate.
        -- intros [?|[?|[? ?]]]; discriminate.
  - apply sink_configured_false in Hconf. rewrite Hconf. cbn.
    repeat split; try lia; try done.
    intros [?|(? & _)]; discriminate.
Qed.

Lemma delivery_is_all_or_nothing_witness :
  ∃ rec,
    OFS.success (ASL.main sink_environ sample_sink "now" [rec]).1 = true
    ∧ OFS.records_sent (ASL.main sink_environ sample_sink "now" [rec]).1
      = 1%Z
    ∧ (ASL.main ∅ sample_sink "now" [rec]).2 = [].
Proof.
  destruct (ASD.file_records
              (ASD.main sample_lib sample_store sample_now
                 (sample_scan_input true)).1 !! 0) as [rec|] eqn:Hrec;
    [|by vm_compute in Hrec].
  exists rec.
  destruct (delivery_is_all_or_nothing sink_environ sample_sink "now" [rec])
    as (Hsuccess & Hsent & _).
  destruct (delivery_is_all_or_nothing ∅ sample_sink "now" [rec])
    as (_ & _ & _ & Hnone).
  assert (OFS.success (ASL.main sink_environ sample_sink "now" [rec]).1
          = true) as Hok.
  { apply Hsuccess. right. by vm_compute. }
  split; [exact Hok|]. split.
  - rewrite Hsent, Hok. reflexivity.
  - apply Hnone. right. left. by vm_compute.
Defined.

Lemma fill_time_generated_set now record :
  truthy_opt (ASD.TimeGenerated record) = true →
  ASL.fill_time_generated now record = record.
Proof. unfold ASL.fill_time_generated. by intros ->. Qed.

Lemma main_upload_logs environ sink now records call :
  call ∈ (ASL.main environ sink now records).2 →
  call
  = {| ASL.rule_id :=
         environ_get environ "LOG_ANALYTICS_DCR_IMMUTABLE_ID" "";
       ASL.stream_name :=
         environ_get environ "LOG_ANALYTICS_STREAM_NAME"
                     "Custom-FileInventory_CL";
       ASL.logs := map (ASL.fill_time_generated now) records |}.
Proof.
  unfold ASL.main. destruct records as [|record records];
    [by intros []%elem_of_nil|].
  destruct (_ || _); [by intros []%elem_of_nil|].
  destruct (ASL.client_raises sink); [by intros []%elem_of_nil|].
  destruct (ASL.upload sink _ _ _); cbn;
    by intros [->|[]%elem_of_nil]%elem_of_cons.
Qed.

(** X13.  The scan activity stamps every record with the instant of its
    scan, so the delivery activity uploads a batch of scanned records as
    it is, in its order: the time it would fill in is not used.  The
    upload goes to the configured rule, and to the stream
    "Custom-FileInventory_CL" when none is configured. *)
Theorem scanned_records_are_uploaded_unchanged (lib : ASD.PyLib)
    (environ : gmap string string) (sink : ASL.Sink) (now : string)
    (batch : list ASD.FileRecord) (call : ASL.UploadCall) :
  (∀ t, truthy (ASD.strftime_iso lib t) = true) →
  Forall (fun rec =>
            ∃ store scanned_at task,
              rec ∈ ASD.file_records (ASD.main lib store scanned_at task).1)
         batch →
  call ∈ (ASL.main environ sink now batch).2 →
  ASL.logs call = batch
  ∧ ASL.rule_id call
    = environ_get environ "LOG_ANALYTICS_DCR_IMMUTABLE_ID" ""
  ∧ ASL.stream_name call
    = default "Custom-FileInventory_CL"
              (environ !! "LOG_ANALYTICS_STREAM_NAME").
Proof.
  intros Hiso Hbatch ->%main_upload_logs. cbn. split; [|done].
  induction Hbatch as [|rec batch Hrec _ IH]; [done|].
  cbn. rewrite IH. f_equal. apply fill_time_generated_set.
  destruct Hrec as (store & scanned_at & task & Hrec).
  apply main_record_origin in Hrec as (_ & _ & _ & _ & ->).
  cbn. apply Hiso.
Qed.

Lemma scanned_records_are_uploaded_unchanged_witness :
  let batch :=
    ASD.file_records
      (ASD.main sample_lib sample_store sample_now
         (sample_scan_input true)).1 in
  ∃ call,
    (ASL.main sink_environ sample_sink "now" batch).2 = [call]
    ∧ ASL.logs call = batch
    ∧ ASL.rule_id call = "dcr-1"
    ∧ ASL.stream_name call = "Custom-FileInventory_CL".
Proof.
  cbv zeta.
  destruct (ASL.main sink_environ sample_sink "now"
              (ASD.file_records
                 (ASD.main sample_lib sample_store sample_now
                    (sample_scan_input true)).1)).2
    as [|call [|call' calls]] eqn:Hcalls;
    [by vm_compute in Hcalls| |by vm_compute in Hcalls].
  exists call. split; [reflexivity|].
  apply (scanned_records_are_uploaded_unchanged sample_lib sink_environ
           sample_sink "now").
  - intros t. reflexivity.
  - apply Forall_forall. intros rec Hrec.
    by exists sample_store, sample_now, (sample_scan_input true).
  - rewrite Hcalls. apply list_elem_of_here.
Defined.

(** ** The share orchestrator: what is delivered *)

(** With a batch size that is not positive a loop over the results that
    exits has met no result. *)
Lemma process_results_nonpositive act input fuel results : ∀ st st',
  (OFS.batch_size input <= 0)%Z →
  OFS.process_results fuel act input st results = Some st' →
  OFS.send_calls st' = OFS.send_calls st.
Proof.
  induction results as [|[result|] results IH]; intros st st' Hbatch Hrun.
  - by injection Hrun as <-.
  - cbn [OFS.process_results] in Hrun.
    by rewrite (send_full_batches_never_exits act input Hbatch) in Hrun.
  - by apply IH.
Qed.

Lemma wave_body_batches act input fuel st st' :
  OFS.wave_body fuel act input st = Some st' →
  Forall (fun batch => batch ≠ []) (OFS.send_calls st) →
  Forall (fun batch => batch ≠ []) (OFS.send_calls st').
Proof.
  intros Hbody Hcalls.
  destruct (Z.ltb_spec 0 (OFS.batch_size input)) as [Hpos|Hnonpos].
  - apply wave_body_spec in Hbody
      as (taken & kept & _ & _ & _ & _ & _ & _ & _ & _ & _ & _ & _ & _
          & (new & -> & _ & Hnew) & _).
    apply Forall_app. split; [done|].
    eapply Forall_impl; [exact (Hnew Hpos)|].
    intros batch Hlen. cbn in Hlen. intros ->. simpl in Hlen. lia.
  - unfold OFS.wave_body in Hbody.
    destruct (OFS.take_wave _ _ _) as [[cur q] P].
    destruct cur as [|dir cur]; [by injection Hbody as <-|].
    by rewrite (process_results_nonpositive _ _ _ _ _ _ Hnonpos Hbody).
Qed.

Lemma reachable_batches act input st :
  reachable act input st →
  Forall (fun batch => batch ≠ []) (OFS.send_calls st).
Proof.
  induction 1 as [|fuel st st' _ IH _ Hbody]; [constructor|].
  by eapply wave_body_batches.
Qed.

Lemma final_state_batches act input fuel st :
  OFS.final_state fuel act input = Some st →
  Forall (fun batch => batch ≠ []) (OFS.send_calls st).
Proof.
  unfold OFS.final_state.
  destruct (OFS.wave_loop fuel act input OFS.initial_state) as [s|] eqn:Hloop;
    [|discriminate].
  intros [= <-].
  destruct (wave_loop_exit act input fuel _ _ Hloop) as [Hreach _];
    [constructor|].
  apply reachable_batches in Hreach. unfold OFS.send_remaining.
  destruct (OFS.current_batch s) as [|rec cur] eqn:Hcur; [done|].
  cbn. apply Forall_app. split; [done|].
  by constructor.
Qed.

(** X14.  A run of the share orchestrator that completes has handed no
    empty batch to the delivery activity, whatever the batch size, and
    what it has handed over is, in order, what the scans returned. *)
Theorem no_empty_batch_is_delivered (fuel : nat) (act : OFS.Activities)
    (input : OFS.Input) (st : OFS.State) :
  OFS.final_state fuel act input = Some st →
  Forall (fun batch => 0 < length batch) (OFS.send_calls st)
  ∧ concat (OFS.send_calls st)
    = records_received act input (OFS.scan_calls st).
Proof.
  intros Hfinal. split.
  - eapply Forall_impl; [exact (final_state_batches _ _ _ _ Hfinal)|].
    intros [|rec batch] Hne; [done|simpl; lia].
  - by destruct (final_state_facts act input fuel st Hfinal)
      as (_ & _ & _ & _ & Hrecords & _).
Qed.

Lemma no_empty_batch_is_delivered_witness :
  ∃ st,
    OFS.final_state 5 sample_activities (sample_share_input 2) = Some st
    ∧ Forall (fun batch => 0 < length batch) (OFS.send_calls st)
    ∧ concat (OFS.send_calls st)
      = records_received sample_activities (sample_share_input 2)
          (OFS.scan_calls st).
Proof.
  destruct (OFS.final_state 5 sample_activities (sample_share_input 2))
    as [st|] eqn:Hfinal; [|by vm_compute in Hfinal].
  exists st. split; [reflexivity|].
  exact (no_empty_batch_is_delivered 5 sample_activities
           (sample_share_input 2) st Hfinal).
Defined.

Lemma successful_from_none act calls : ∀ i,
  (∀ j batch, send_succeeded act j batch = true → batch = []) →
  Forall (fun batch => batch ≠ []) calls →
  successful_from act i calls = 0.
Proof.
  induction calls as [|batch calls IH]; intros i Hfail Hcalls; [done|].
  apply Forall_cons in Hcalls as [Hbatch Hcalls].
  cbn [successful_from]. rewrite (IH _ Hfail Hcalls).
  destruct (send_succeeded act i batch) eqn:Hsend; [|done].
  by apply Hfail in Hsend.
Qed.

Lemma main_unconfigured environ sink now records :
  sink_configured environ = false →
  records ≠ [] →
  ASL.main environ sink now records = (ASL.failed ASL.config_error, []).
Proof.
  intros Hconf%sink_configured_false Hrecords. unfold ASL.main.
  destruct records as [|record records]; [done|]. by rewrite Hconf.
Qed.

Lemma final_state_totals act input fuel st :
  OFS.final_state fuel act input = Some st →
  OFS.total_files_processed st
  = py_sum (map ASD.files_processed
              (received act input (OFS.scan_calls st)))
  ∧ OFS.total_bytes_processed st
    = py_sum (map ASD.bytes_processed
                (received act input (OFS.scan_calls st))).
Proof.
  unfold OFS.final_state.
  destruct (OFS.wave_loop fuel act input OFS.initial_state) as [s|] eqn:Hloop;
    [|discriminate].
  intros [= <-].
  destruct (wave_loop_exit act input fuel _ _ Hloop) as [Hreach _];
    [constructor|].
  apply reachable_invariant in Hreach
    as (_ & _ & _ & _ & Hfiles & Hbytes & _).
  destruct (send_remaining_frame act s) as (_ & -> & _).
  rewrite <- Hfiles, <- Hbytes. unfold OFS.send_remaining.
  by destruct (OFS.current_batch s).
Qed.

(** What a run that returns has done when a setting of the sink is
    missing. *)
Lemma unconfigured_sink_run (scan : ASD.Input → option ASD.ScanResult)
    (environ : gmap string string) (sink : nat → ASL.Sink)
    (clock : nat → string) (fuel : nat) (input : OFS.Input)
    (st : OFS.State) :
  sink_configured environ = false →
  OFS.final_state fuel (delivering_activities scan environ sink clock) input
  = Some st →
  OFS.total_batches_sent st = 0
  ∧ OFS.total_files_processed st
    = py_sum (map ASD.files_processed
                (received (delivering_activities scan environ sink clock)
                   input (OFS.scan_calls st)))
  ∧ concat (OFS.send_calls st)
    = records_received (delivering_activities scan environ sink clock)
        input (OFS.scan_calls st)
  ∧ ∀ i batch,
      OFS.send_calls st !! i = Some batch →
      ASL.main environ (sink i) (clock i) batch
      = (ASL.failed ASL.config_error, []).
Proof.
  set (act := delivering_activities scan environ sink clock).
  intros Hconf Hfinal.
  destruct (final_state_facts act input fuel st Hfinal)
    as (_ & _ & _ & _ & Hrecords & Hsent).
  pose proof (final_state_batches act input fuel st Hfinal) as Hbatches.
  split.
  { rewrite Hsent. apply successful_from_none; [|done].
    intros j batch. unfold send_succeeded, act. cbn.
    destruct batch as [|rec batch]; [done|].
    by rewrite main_unconfigured. }
  split; [by destruct (final_state_totals act input fuel st Hfinal)|].
  split; [done|].
  intros i batch Hi. apply main_unconfigured; [done|].
  rewrite Forall_forall in Hbatches. apply Hbatches.
  by eapply list_elem_of_lookup_2.
Qed.

(** With a positive batch size the run over a tree of directories
    returns, whatever the deliveries answer. *)
Lemma final_state_on_tree act input t fuel :
  (0 < OFS.batch_size input)%Z →
  presents act input t →
  enough_fuel act input t ≤ fuel →
  ∃ st,
    OFS.final_state fuel act input = Some st
    ∧ OFS.scan_calls st ≡ₚ paths t
    ∧ size (OFS.processed_directories st) = length (paths t).
Proof.
  intros Hpos (Hroot & Hnd & Hscan) Hfuel.
  assert (fnodes [t] = nodes t) as Hnodes by apply app_nil_r.
  assert (fpaths [t] = paths t) as Hpaths
    by (unfold fpaths, paths; by rewrite Hnodes).
  destruct (wave_loop_on_forest act input (length (nodes t)) [t]
              OFS.initial_state fuel Hpos)
    as (st & Hrun & _ & Hc & Hp & _).
  { by rewrite Hnodes. }
  { unfold frontier_is. rewrite Hpaths, Hnodes. simpl. rewrite Hroot.
    repeat split; try done; set_solver. }
  { rewrite Hpaths. unfold enough_fuel in Hfuel. lia. }
  rewrite Hpaths in *. simpl in Hc.
  destruct (send_remaining_frame act st) as (_ & Hc' & Hp' & _).
  exists (OFS.send_remaining act st).
  unfold OFS.final_state. rewrite Hrun, Hc', Hp', Hp.
  split; [done|]. split; [done|].
  replace (list_to_set (paths t) ∪ OFS.processed_directories
             OFS.initial_state) with (list_to_set (paths t) : gset string)
    by (simpl; set_solver).
  by apply size_list_to_set.
Qed.

(** X15.  When a setting of the sink is missing, the share orchestrator
    still runs to its "completed" result over every finite tree of
    directories (the batch size being positive, with enough iterations):
    all the directories are scanned and the files counted, every batch is
    handed to the delivery activity, which answers each with the
    configuration error and requests no upload, and [batches_sent] is
    zero. *)
Theorem unconfigured_sink_delivers_nothing
    (scan : ASD.Input → option ASD.ScanResult)
    (environ : gmap string string) (sink : nat → ASL.Sink)
    (clock : nat → string) (utcnow : string) (input : OFS.Input)
    (t : tree) (fuel : nat) :
  sink_configured environ = false →
  (0 < OFS.batch_size input)%Z →
  presents (delivering_activities scan environ sink clock) input t →
  enough_fuel (delivering_activities scan environ sink clock) input t
  ≤ fuel →
  ∃ r st,
    OFS.orchestrator_file_share fuel
      (delivering_activities scan environ sink clock) utcnow input = Some r
    ∧ OFS.final_state fuel (delivering_activities scan environ sink clock)
        input = Some st
    ∧ OFS.status r = "completed"
    ∧ OFS.batches_sent r = 0
    ∧ OFS.directories_processed r = length (paths t)
    ∧ OFS.files_processed r
      = py_sum (map ASD.files_processed
                  (received (delivering_activities scan environ sink clock)
                     input (OFS.scan_calls st)))
    ∧ concat (OFS.send_calls st)
      = records_received (delivering_activities scan environ sink clock)
          input (OFS.scan_calls st)
    ∧ ∀ i batch,
        OFS.send_calls st !! i = Some batch →
        ASL.main environ (sink i) (clock i) batch
        = (ASL.failed ASL.config_error, []).
Proof.
  set (act := delivering_activities scan environ sink clock).
  intros Hconf Hpos Htree Hfuel.
  destruct (final_state_on_tree act input t fuel Hpos Htree Hfuel)
    as (st & Hfinal & _ & Hsize).
  destruct (unconfigured_sink_run scan environ sink clock fuel input st
              Hconf Hfinal) as (Hsent & Hfiles & Hrecords & Hcalls).
  exists (OFS.build_result utcnow input st), st.
  unfold OFS.orchestrator_file_share. fold act. rewrite Hfinal.
  cbn [OFS.build_result OFS.status OFS.batches_sent
       OFS.directories_processed OFS.files_processed].
  by repeat split.
Qed.

Lemma unconfigured_sink_delivers_nothing_witness :
  let act :=
    delivering_activities (OFS.activity_scan_directory sample_activities)
      ∅ (fun _ => sample_sink) (fun _ => "now") in
  ∃ r st,
    OFS.orchestrator_file_share 12 act "2026-01-01T00:00:00"
      (sample_share_input 2) = Some r
    ∧ OFS.final_state 12 act (sample_share_input 2) = Some st
    ∧ OFS.status r = "completed"
    ∧ OFS.batches_sent r = 0
    ∧ OFS.directories_processed r = 2
    ∧ OFS.files_processed r = 5%Z
    ∧ length (OFS.send_calls st) = 3.
Proof.
  cbv zeta.
  destruct (unconfigured_sink_delivers_nothing
              (OFS.activity_scan_directory sample_activities) ∅
              (fun _ => sample_sink) (fun _ => "now") "2026-01-01T00:00:00"
              (sample_share_input 2) sample_tree 12)
    as (r & st & Hrun & Hfinal & Hstatus & Hsent & Hdirs & _).
  - reflexivity.
  - reflexivity.
  - split; [reflexivity|]. split.
    + apply NoDup_cons. split; [|apply NoDup_singleton].
      by intros [=]%list_elem_of_singleton.
    + repeat constructor.
  - apply Nat.leb_le. vm_compute. reflexivity.
  - exists r, st. split; [exact Hrun|]. split; [exact Hfinal|].
    split; [exact Hstatus|]. split; [exact Hsent|]. split; [exact Hdirs|].
    vm_compute in Hrun, Hfinal.
    injection Hrun as <-. injection Hfinal as <-. by split.
Defined.

(** X16.  With a positive batch size [B], a completed run that received
    [N] records has made [N / B] deliveries, rounded up; the number of
    batches it reports as sent is at most that. *)
Theorem number_of_deliveries (fuel : nat) (act : OFS.Activities)
    (input : OFS.Input) (st : OFS.State) :
  (0 < OFS.batch_size input)%Z →
  OFS.final_state fuel act input = Some st →
  let B := OFS.batch_size input in
  let N :=
    Z.of_nat (length (records_received act input (OFS.scan_calls st))) in
  Z.of_nat (length (OFS.send_calls st)) = ((N + B - 1) / B)%Z
  ∧ OFS.total_batches_sent st ≤ length (OFS.send_calls st).
Proof.
  intros Hpos Hfinal. cbv zeta.
  destruct (final_state_facts act input fuel st Hfinal)
    as (_ & _ & _ & _ & _ & Hsent).
  split.
  2: { rewrite Hsent. unfold successful_sends.
       pose proof (successful_from_le act 0 (OFS.send_calls st)). lia. }
  unfold OFS.final_state in Hfinal.
  destruct (OFS.wave_loop fuel act input OFS.initial_state) as [s|] eqn:Hloop;
    [|discriminate].
  injection Hfinal as <-.
  destruct (wave_loop_exit act input fuel _ _ Hloop) as [Hreach _];
    [constructor|].
  apply reachable_invariant in Hreach
    as (_ & _ & _ & Hrec & _ & _ & _ & Hlen).
  destruct (Hlen Hpos) as [Hall Hshort].
  destruct (send_remaining_frame act s) as (_ & -> & _).
  rewrite <- Hrec, length_app, Nat2Z.inj_add.
  rewrite (concat_length_uniform _ _ Hall).
  unfold OFS.send_remaining.
  destruct (OFS.current_batch s) as [|rec cur] eqn:Hcur.
  - cbn [length].
    apply Z.div_unique with (r := (OFS.batch_size input - 1)%Z); lia.
  - cbn [OFS.send_batch OFS.send_calls]. rewrite length_app.
    cbn [length] in *.
    apply Z.div_unique with (r := Z.of_nat (length cur)); lia.
Qed.

Lemma number_of_deliveries_witness :
  ∃ st,
    OFS.final_state 5 sample_activities (sample_share_input 2) = Some st
    ∧ Z.of_nat (length (OFS.send_calls st)) = ((5 + 2 - 1) / 2)%Z
    ∧ OFS.total_batches_sent st ≤ length (OFS.send_calls st).
Proof.
  destruct (OFS.final_state 5 sample_activities (sample_share_input 2))
    as [st|] eqn:Hfinal; [|by vm_compute in Hfinal].
  exists st. split; [reflexivity|].
  destruct (number_of_deliveries 5 sample_activities (sample_share_input 2)
              st) as [Hcount Hsent]; [done|exact Hfinal|].
  split; [|exact Hsent]. rewrite Hcount.
  vm_compute in Hfinal. injection Hfinal as <-. reflexivity.
Defined.

(** ** The start of a scan *)

Lemma truthy_spec s : truthy s = false ↔ s = "".
Proof. unfold truthy. by destruct s. Qed.

(** X17.  The request is refused with status 400 exactly when the account
    name or the account key is empty, and then no orchestration is
    started; the name and the key are those of the body when it has the
    entry, even an empty one, and else the configured ones.  An accepted
    request starts one orchestration, with the identifier drawn for it,
    and answers with that identifier and the account name. *)
Theorem start_scan_validation (platform : FunctionApp.Platform)
    (environ : gmap string string) (json : option FunctionApp.RequestBody)
    (response : FunctionApp.Response)
    (started : option FunctionApp.ScanInput) :
  FunctionApp.http_start_scan platform environ json
  = ASD.Returned (response, started) →
  let body := default FunctionApp.empty_body json in
  let name :=
    default (environ_get environ "STORAGE_ACCOUNT_NAME" "")
            (FunctionApp.storageAccountName body) in
  let key :=
    default (environ_get environ "STORAGE_ACCOUNT_KEY" "")
            (FunctionApp.storageAccountKey body) in
  match response with
  | FunctionApp.BadRequest _ => started = None ∧ (name = "" ∨ key = "")
  | FunctionApp.Accepted instance execution _ account =>
      name ≠ "" ∧ key ≠ ""
      ∧ account = name
      ∧ execution = FunctionApp.uuid4 platform
      ∧ instance = FunctionApp.new_instance_id platform
      ∧ ∃ scan_input,
          started = Some scan_input
          ∧ FunctionApp.execution_id scan_input = execution
          ∧ FunctionApp.storage_account_name scan_input = name
          ∧ FunctionApp.storage_account_key scan_input = key
  end.
Proof.
  unfold FunctionApp.http_start_scan. cbv zeta.
  destruct (FunctionApp.int_of_str platform _) as [env_batch|];
    [|discriminate].
  destruct (FunctionApp.int_of_str platform _) as [env_max|];
    [|discriminate].
  cbn [FunctionApp.storage_account_name FunctionApp.storage_account_key].
  destruct (truthy (default _ (FunctionApp.storageAccountName _))) eqn:Hname.
  - destruct (truthy (default _ (FunctionApp.storageAccountKey _))) eqn:Hkey.
    + cbn [negb]. intros [= <- <-].
      split; [intros H%truthy_spec; congruence|].
      split; [intros H%truthy_spec; congruence|].
      repeat split. eexists. by repeat split.
    + cbn [negb]. intros [= <- <-]. split; [done|]. right.
      by apply truthy_spec.
  - cbn [negb]. intros [= <- <-]. split; [done|]. left.
    by apply truthy_spec.
Qed.

Lemma start_scan_validation_witness :
  FunctionApp.http_start_scan sample_platform sample_environ
    (Some blank_name_body)
  = ASD.Returned
      (FunctionApp.BadRequest "storageAccountName is required", None)
  ∧ (None = None :> option FunctionApp.ScanInput)
  ∧ ("" = "" ∨ "key" = "").
Proof.
  split; [reflexivity|].
  exact (start_scan_validation sample_platform sample_environ
           (Some blank_name_body)
           (FunctionApp.BadRequest "storageAccountName is required") None
           eq_refl).
Defined.



(** X19.  The batch size of the body is not checked: a request with a
    name, a key and a batch size of zero or less is accepted, and the
    orchestration it starts never returns once the scan of the root of
    its first share has answered. *)
Theorem non_positive_batch_size_is_accepted
    (platform : FunctionApp.Platform) (environ : gmap string string)
    (body : FunctionApp.RequestBody) (name key : string) (batch : Z) :
  FunctionApp.storageAccountName body = Some name → name ≠ "" →
  FunctionApp.storageAccountKey body = Some key → key ≠ "" →
  FunctionApp.batchSize body = Some batch → (batch <= 0)%Z →
  is_Some (FunctionApp.int_of_str platform
             (environ_get environ "BATCH_SIZE" "500")) →
  is_Some (FunctionApp.int_of_str platform
             (environ_get environ "MAX_FILE_SIZE_FOR_HASH_MB" "100")) →
  ∃ start scan_input,
    FunctionApp.http_start_scan platform environ (Some body)
    = ASD.Returned
        (FunctionApp.Accepted (FunctionApp.new_instance_id platform)
           (FunctionApp.uuid4 platform) start name,
         Some scan_input)
    ∧ FunctionApp.batch_size scan_input = batch
    ∧ ∀ (w : OM.World) (share : string) (shares : list string),
        OM.shares_to_scan w (FunctionApp.client_input scan_input)
        = share :: shares →
        is_Some
          (OFS.scan_of (OM.share_activities w share)
             (OM.share_input (FunctionApp.client_input scan_input) share)
             "") →
        ∀ fuel,
          OM.orchestrator_main fuel w (FunctionApp.client_input scan_input)
          = None.
Proof.
  intros Hname Hn Hkey Hk Hbatch Hle [env_batch Heb] [env_max Hem].
  unfold FunctionApp.http_start_scan. cbv zeta.
  rewrite Heb, Hem.
  change (default FunctionApp.empty_body (Some body)) with body.
  cbn [FunctionApp.storage_account_name FunctionApp.storage_account_key].
  rewrite Hname, Hkey. cbn [from_option id].
  assert (truthy name = true) as ->.
  { apply not_false_iff_true. by intros ?%truthy_spec. }
  assert (truthy key = true) as ->.
  { apply not_false_iff_true. by intros ?%truthy_spec. }
  cbn [negb]. eexists _, _. split; [reflexivity|].
  cbn [FunctionApp.batch_size]. rewrite Hbatch. split; [done|].
  intros w share shares Hshares Hroot fuel.
  unfold OM.orchestrator_main. rewrite Hshares.
  cbn [OM.run_shares].
  rewrite orchestrator_file_share_build. unfold OFS.final_state.
  rewrite wave_loop_never_exits; [done| |exact Hroot].
  exact Hle.
Qed.

Lemma non_positive_batch_size_is_accepted_witness :
  ∃ start scan_input,
    FunctionApp.http_start_scan sample_platform sample_environ
      (Some (sample_body 0))
    = ASD.Returned
        (FunctionApp.Accepted "instance-1"
           "0b5e2d0e-7c1a-4f43-9d6a-3a1f9c2b7e11" start "account",
         Some scan_input)
    ∧ FunctionApp.batch_size scan_input = 0%Z
    ∧ OM.orchestrator_main 1000
        (sample_world sample_activities "t0" "t1" "t2")
        (FunctionApp.client_input scan_input)
      = None.
Proof.
  destruct (non_positive_batch_size_is_accepted sample_platform
              sample_environ (sample_body 0) "account" "key" 0)
    as (start & scan_input & Hstart & Hbatch & Hnever);
    [done..|by eexists|by eexists|].
  exists start, scan_input. split; [exact Hstart|].
  split; [exact Hbatch|].
  assert (scan_input
          = {| FunctionApp.execution_id :=
                 "0b5e2d0e-7c1a-4f43-9d6a-3a1f9c2b7e11";
               FunctionApp.storage_account_name := "account";
               FunctionApp.storage_account_key := "key";
               FunctionApp.subscription_id := "";
               FunctionApp.resource_group := "";
               FunctionApp.file_share_names := ["share"; "share"];
               FunctionApp.skip_hash_computation := true;
               FunctionApp.batch_size := 0;
               FunctionApp.max_file_size_for_hash_mb := 100;
               FunctionApp.exclude_patterns :=
                 ["*.tmp"; "~$*"; ".DS_Store"; "Thumbs.db"] |}) as Hinput.
  { vm_compute in Hstart. by injection Hstart as _ <-. }
  apply (Hnever _ "share" ["share"]).
  - by rewrite Hinput.
  - rewrite Hinput. by eexists.
Defined.

(** X20.  A request without a body is started with the configuration
    that [get_config_from_env] reads: the same account, key, sizes, hash
    setting and patterns, and no share names; the one fails where the
    other does. *)
Theorem empty_request_uses_the_configuration
    (platform : FunctionApp.Platform) (environ : gmap string string) :
  match SharedModels.get_config_from_env (FunctionApp.str_lower platform)
          (FunctionApp.int_of_str platform) environ with
  | ASD.Raised e =>
      FunctionApp.http_start_scan platform environ None = ASD.Raised e
  | ASD.Returned config =>
      ∃ response started,
        FunctionApp.http_start_scan platform environ None
        = ASD.Returned (response, started)
        ∧ (started = None ↔
           SharedModels.storage_account_name config = ""
           ∨ SharedModels.storage_account_key config = "")
        ∧ ∀ scan_input,
            started = Some scan_input →
            FunctionApp.storage_account_name scan_input
            = SharedModels.storage_account_name config
            ∧ FunctionApp.storage_account_key scan_input
              = SharedModels.storage_account_key config
            ∧ FunctionApp.batch_size scan_input
              = SharedModels.batch_size config
            ∧ FunctionApp.max_file_size_for_hash_mb scan_input
              = SharedModels.max_file_size_for_hash_mb config
            ∧ FunctionApp.skip_hash_computation scan_input
              = SharedModels.skip_hash_computation config
            ∧ FunctionApp.exclude_patterns scan_input
              = SharedModels.exclude_patterns config
            ∧ FunctionApp.file_share_names scan_input = []
  end.
Proof.
  unfold SharedModels.get_config_from_env, FunctionApp.http_start_scan.
  cbv zeta.
  destruct (FunctionApp.int_of_str platform
              (environ_get environ "BATCH_SIZE" "500")) as [env_batch|];
    [|done].
  destruct (FunctionApp.int_of_str platform
              (environ_get environ "MAX_FILE_SIZE_FOR_HASH_MB" "100"))
    as [env_max|]; [|done].
  cbn [default FunctionApp.empty_body FunctionApp.storageAccountName
       FunctionApp.storageAccountKey FunctionApp.storage_account_name
       FunctionApp.storage_account_key SharedModels.storage_account_name
       SharedModels.storage_account_key].
  destruct (truthy (environ_get environ "STORAGE_ACCOUNT_NAME" ""))
    eqn:Hname; cbn [negb].
  - destruct (truthy (environ_get environ "STORAGE_ACCOUNT_KEY" ""))
      eqn:Hkey; cbn [negb].
    + eexists _, _. split; [reflexivity|]. split.
      * split; [done|]. intros [H|H]; apply truthy_spec in H; congruence.
      * by intros scan_input [= <-].
    + eexists _, _. split; [reflexivity|]. split; [|done].
      split; [|done]. intros _. right. by apply truthy_spec.
  - eexists _, _. split; [reflexivity|]. split; [|done].
    split; [|done]. intros _. left. by apply truthy_spec.
Qed.

Lemma empty_request_uses_the_configuration_witness :
  ∃ response scan_input,
    FunctionApp.http_start_scan sample_platform sample_environ None
    = ASD.Returned (response, Some scan_input)
    ∧ FunctionApp.batch_size scan_input = 500%Z
    ∧ FunctionApp.exclude_patterns scan_input
      = ["*.tmp"; "~$*"; ".DS_Store"; "Thumbs.db"].
Proof.
  pose proof (empty_request_uses_the_configuration sample_platform
                sample_environ) as Hsame.
  vm_compute (SharedModels.get_config_from_env _ _ _) in Hsame.
  destruct Hsame as (response & started & Hrun & _ & Hfields).
  destruct started as [scan_input|]; [|by vm_compute in Hrun].
  exists response, scan_input. split; [exact Hrun|].
  destruct (Hfields scan_input eq_refl) as (_ & _ & Hbatch & _ & _ & Hpat & _).
  split; [exact Hbatch|exact Hpat].
Defined.

(** ** The helpers of the shared module *)

Lemma string_length_app a b :
  String.length (a +:+ b) = String.length a + String.length b.
Proof. induction a as [|c a IH]; [done|]. simpl. by rewrite IH. Qed.

Lemma substring_app_l a : ∀ m b,
  m ≤ String.length a → substring 0 m (a +:+ b) = substring 0 m a.
Proof.
  induction a as [|c a IH]; intros m b Hm.
  - simpl in Hm. assert (m = 0) as -> by lia. by destruct b.
  - destruct m as [|m]; [done|]. simpl in *. rewrite IH; [done|lia].
Qed.

Lemma substring_all a : substring 0 (String.length a) a = a.
Proof. induction a as [|c a IH]; [done|]. simpl. by rewrite IH. Qed.

Lemma substring_app_r a : ∀ m b,
  substring 0 (String.length a + m) (a +:+ b) = a +:+ substring 0 m b.
Proof. induction a as [|c a IH]; intros m b; [done|]. simpl. by rewrite IH. Qed.

Lemma drop_last_app k a b :
  k ≤ String.length b → drop_last k (a +:+ b) = a +:+ drop_last k b.
Proof.
  intros Hk. unfold drop_last. rewrite string_length_app.
  replace (String.length a + String.length b - k)
    with (String.length a + (String.length b - k)) by lia.
  apply substring_app_r.
Qed.

Lemma drop_last_snoc k a c :
  drop_last (S k) (a +:+ String c "") = drop_last k a.
Proof.
  unfold drop_last. rewrite string_length_app. simpl String.length.
  replace (String.length a + 1 - S k) with (String.length a - k) by lia.
  apply substring_app_l. lia.
Qed.

Lemma zero_padded_length w : ∀ n, String.length (zero_padded w n) = w.
Proof.
  induction w as [|w IH]; intros n; [done|].
  cbn [zero_padded]. rewrite string_length_app, IH. simpl. lia.
Qed.

Lemma zero_padded_drop_last k : ∀ w n,
  drop_last k (zero_padded (k + w) n) = zero_padded w (n / 10 ^ k).
Proof.
  induction k as [|k IH]; intros w n.
  - unfold drop_last. rewrite Nat.sub_0_r, substring_all.
    change (10 ^ 0) with 1. by rewrite Nat.div_1_r.
  - cbn [Nat.add zero_padded]. rewrite drop_last_snoc, IH.
    by rewrite Nat.Div0.div_div, Nat.pow_succ_r'.
Qed.

Lemma decimal_from_snoc a : ∀ acc c,
  decimal_from acc (a +:+ String c "")
  = 10 * decimal_from acc a + (nat_of_ascii c - 48).
Proof. induction a as [|c' a IH]; intros acc c; [done|]. simpl. by rewrite IH. Qed.

Lemma digit_value n : nat_of_ascii (digit n) - 48 = n mod 10.
Proof.
  unfold digit. pose proof (Nat.mod_upper_bound n 10).
  rewrite nat_ascii_embedding; lia.
Qed.

Lemma decimal_value_zero_padded w : ∀ n,
  decimal_value (zero_padded w n) = n mod 10 ^ w.
Proof.
  unfold decimal_value.
  induction w as [|w IH]; intros n.
  - change (10 ^ 0) with 1. by rewrite Nat.mod_1_r.
  - cbn [zero_padded]. rewrite decimal_from_snoc, IH, digit_value.
    rewrite Nat.pow_succ_r', Nat.Div0.mod_mul_r. lia.
Qed.

Lemma decimal_value_in_range w n :
  n < 10 ^ w → decimal_value (zero_padded w n) = n.
Proof.
  intros Hn. rewrite decimal_value_zero_padded. by apply Nat.mod_small.
Qed.

(** X21.  An instant is printed as year, month, day, hour, minute and
    second in four and two digits and the milliseconds in three, the
    microseconds being cut off and not rounded, followed by "Z"; the
    numbers can be read back from the fields.  The time zone of the
    instant plays no part: an instant with an offset is printed with its
    own fields, and with "Z". *)
Theorem format_datetime_keeps_milliseconds (dt : SharedModels.datetime) :
  SharedModels.valid_datetime dt →
  ∃ Y M D h m s ms,
    SharedModels.format_datetime (Some dt)
    = Some (Y +:+ "-" +:+ M +:+ "-" +:+ D +:+ "T" +:+ h +:+ ":" +:+ m
              +:+ ":" +:+ s +:+ "." +:+ ms +:+ "Z")
    ∧ String.length <$> [Y; M; D; h; m; s; ms] = [4; 2; 2; 2; 2; 2; 3]
    ∧ decimal_value <$> [Y; M; D; h; m; s; ms]
      = [ SharedModels.year dt; SharedModels.month dt; SharedModels.day dt;
          SharedModels.hour dt; SharedModels.minute dt;
          SharedModels.second dt; SharedModels.microsecond dt / 1000 ]
    ∧ ∀ tz,
        SharedModels.format_datetime (Some (with_tzinfo tz dt))
        = SharedModels.format_datetime (Some dt).
Proof.
  intros (Hyear & Hmonth & Hday & Hhour & Hminute & Hsecond & Hmicro).
  assert (∀ d : SharedModels.datetime,
            drop_last 3 (SharedModels.strftime d)
            = zero_padded 4 (SharedModels.year d) +:+ "-"
                +:+ zero_padded 2 (SharedModels.month d) +:+ "-"
                +:+ zero_padded 2 (SharedModels.day d) +:+ "T"
                +:+ zero_padded 2 (SharedModels.hour d) +:+ ":"
                +:+ zero_padded 2 (SharedModels.minute d) +:+ ":"
                +:+ zero_padded 2 (SharedModels.second d) +:+ "."
                +:+ zero_padded 3 (SharedModels.microsecond d / 1000))
    as Hcut.
  { intros d. unfold SharedModels.strftime.
    repeat (rewrite drop_last_app;
            [|rewrite ?string_length_app, ?zero_padded_length; simpl; lia]).
    by rewrite (zero_padded_drop_last 3 3). }
  assert (∀ d : SharedModels.datetime,
            SharedModels.format_datetime (Some d)
            = Some (drop_last 3 (SharedModels.strftime d) +:+ "Z")) as Hfmt.
  { intros d. unfold SharedModels.format_datetime.
    by destruct (SharedModels.tzinfo d). }
  assert (∀ a b c, (a +:+ b) +:+ c = a +:+ b +:+ c) as Hassoc.
  { intros a b c. induction a as [|x a IH]; [done|].
    change (String x ((a +:+ b) +:+ c) = String x (a +:+ b +:+ c)).
    by f_equal. }
  exists (zero_padded 4 (SharedModels.year dt)),
    (zero_padded 2 (SharedModels.month dt)),
    (zero_padded 2 (SharedModels.day dt)),
    (zero_padded 2 (SharedModels.hour dt)),
    (zero_padded 2 (SharedModels.minute dt)),
    (zero_padded 2 (SharedModels.second dt)),
    (zero_padded 3 (SharedModels.microsecond dt / 1000)).
  split; [|split; [|split]].
  - rewrite Hfmt, Hcut. by rewrite !Hassoc.
  - cbn [fmap list_fmap]. by rewrite !zero_padded_length.
  - cbn [fmap list_fmap].
    assert (SharedModels.microsecond dt / 1000 < 10 ^ 3).
    { apply Nat.Div0.div_lt_upper_bound.
      change (10 ^ 3) with 1000. lia. }
    assert (10 ^ 4 = 10 * 1000) as Hpow by reflexivity.
    assert (10 ^ 2 = 100) as Hhundred by reflexivity.
    rewrite !decimal_value_in_range; [done|lia..].
  - intros tz. by rewrite !Hfmt.
Qed.

Lemma format_datetime_keeps_milliseconds_witness :
  ∃ Y M D h m s ms,
    SharedModels.format_datetime (Some (sample_datetime (Some 120%Z)))
    = Some (Y +:+ "-" +:+ M +:+ "-" +:+ D +:+ "T" +:+ h +:+ ":" +:+ m
              +:+ ":" +:+ s +:+ "." +:+ ms +:+ "Z")
    ∧ String.length <$> [Y; M; D; h; m; s; ms] = [4; 2; 2; 2; 2; 2; 3]
    ∧ decimal_value <$> [Y; M; D; h; m; s; ms] = [2026; 1; 2; 3; 4; 5; 123]
    ∧ ∀ tz,
        SharedModels.format_datetime
          (Some (with_tzinfo tz (sample_datetime (Some 120%Z))))
        = SharedModels.format_datetime (Some (sample_datetime (Some 120%Z))).
Proof.
  apply (format_datetime_keeps_milliseconds (sample_datetime (Some 120%Z))).
  unfold SharedModels.valid_datetime, sample_datetime.
  cbn [SharedModels.year SharedModels.month SharedModels.day
       SharedModels.hour SharedModels.minute SharedModels.second
       SharedModels.microsecond].
  lia.
Defined.

(** X22.  The two copies of [is_file_excluded] agree.  A file is excluded
    exactly when some pattern matches its name, so that neither the order
    of the patterns nor a repeated pattern matters, and no file is
    excluded by an empty list. *)
Theorem exclusion_is_by_any_pattern (lib : ASD.PyLib) (filename : string)
    (patterns : list string) :
  SharedModels.is_file_excluded (ASD.fnmatch lib) filename patterns
  = ASD.is_file_excluded lib filename patterns
  ∧ (ASD.is_file_excluded lib filename patterns = true ↔
     ∃ pattern, pattern ∈ patterns
                ∧ ASD.fnmatch lib filename pattern = true)
  ∧ ASD.is_file_excluded lib filename [] = false
  ∧ ∀ patterns',
      (∀ pattern, pattern ∈ patterns ↔ pattern ∈ patterns') →
      ASD.is_file_excluded lib filename patterns'
      = ASD.is_file_excluded lib filename patterns.
Proof.
  assert (∀ l, ASD.is_file_excluded lib filename l = true ↔
               ∃ pattern, pattern ∈ l
                          ∧ ASD.fnmatch lib filename pattern = true) as Hany.
  { intros l. unfold ASD.is_file_excluded. rewrite existsb_exists.
    by setoid_rewrite list_elem_of_In. }
  split; [|split; [apply Hany|split; [done|]]].
  - unfold ASD.is_file_excluded.
    induction patterns as [|pattern patterns IH]; [done|].
    simpl. rewrite IH. by destruct (ASD.fnmatch lib filename pattern).
  - intros patterns' Hsame.
    destruct (ASD.is_file_excluded lib filename patterns) eqn:Hex.
    + apply Hany in Hex as (pattern & Hin & Hmatch). apply Hany.
      exists pattern. by rewrite <- Hsame.
    + apply not_true_is_false. intros (pattern & Hin & Hmatch)%Hany.
      apply not_true_iff_false in Hex. apply Hex, Hany.
      exists pattern. by rewrite Hsame.
Qed.

Lemma exclusion_is_by_any_pattern_witness :
  ASD.is_file_excluded sample_lib "b.tmp" ["*.log"; "*.tmp"; "*.tmp"]
  = ASD.is_file_excluded sample_lib "b.tmp" ["*.tmp"; "*.log"].
Proof.
  destruct (exclusion_is_by_any_pattern sample_lib "b.tmp"
              ["*.tmp"; "*.log"]) as (_ & _ & _ & Hsame).
  apply Hsame. intros pattern. rewrite !elem_of_cons, !elem_of_nil.
  naive_solver.
Defined.

Lemma split_on_nonempty sep s : split_on sep s ≠ [].
Proof.
  destruct s as [|c s]; [done|]. simpl.
  destruct (Ascii.eqb c sep); [done|]. by destruct (split_on sep s).
Qed.

Lemma join_split sep s : join_with sep (split_on sep s) = s.
Proof.
  induction s as [|c s IH]; [done|]. cbn [split_on].
  pose proof (split_on_nonempty sep s) as Hne.
  destruct (Ascii.eqb_spec c sep) as [->|Hc].
  - destruct (split_on sep s) as [|part parts]; [done|].
    rewrite <- IH. reflexivity.
  - destruct (split_on sep s) as [|part [|part' parts]]; [done| |];
      rewrite <- IH; reflexivity.
Qed.

Lemma split_on_parts sep s :
  Forall (fun part => contains_char sep part = false) (split_on sep s).
Proof.
  induction s as [|c s IH]; [by repeat constructor|]. cbn [split_on].
  destruct (Ascii.eqb c sep) eqn:Hc; [by constructor|].
  destruct (split_on sep s) as [|part parts].
  - repeat constructor. simpl. by rewrite Hc.
  - apply Forall_cons in IH as [Hpart Hparts]. constructor; [|done].
    simpl. by rewrite Hc.
Qed.

(** X23.  The configured exclusion patterns are the pieces of the setting
    between its commas, as they are written: joined by commas they give
    the setting back, and none holds a comma.  There is always at least
    one pattern; without the setting they are the four default patterns,
    and an empty setting gives the one empty pattern. *)
Theorem configured_patterns_are_split_at_commas
    (environ : gmap string string) :
  let setting :=
    environ_get environ "EXCLUDE_PATTERNS" "*.tmp,~$*,.DS_Store,Thumbs.db" in
  let patterns := SharedModels.exclude_patterns_from_env environ in
  join_with "," patterns = setting
  ∧ 0 < length patterns
  ∧ Forall (fun pattern => contains_char "," pattern = false) patterns
  ∧ (environ !! "EXCLUDE_PATTERNS" = None →
     patterns = ["*.tmp"; "~$*"; ".DS_Store"; "Thumbs.db"])
  ∧ (environ !! "EXCLUDE_PATTERNS" = Some "" → patterns = [""]).
Proof.
  cbv zeta. unfold SharedModels.exclude_patterns_from_env.
  split; [apply join_split|]. split.
  { pose proof (split_on_nonempty ","
                  (environ_get environ "EXCLUDE_PATTERNS"
                     "*.tmp,~$*,.DS_Store,Thumbs.db")) as Hne.
    destruct (split_on _ _); [done|simpl; lia]. }
  split; [apply split_on_parts|].
  unfold environ_get. split; intros ->; reflexivity.
Qed.

Lemma configured_patterns_are_split_at_commas_witness :
  SharedModels.exclude_patterns_from_env sample_environ
  = ["*.tmp"; "~$*"; ".DS_Store"; "Thumbs.db"]
  ∧ SharedModels.exclude_patterns_from_env
      (<[ "EXCLUDE_PATTERNS" := "" ]> sample_environ) = [""].
Proof.
  split.
  - by apply (configured_patterns_are_split_at_commas sample_environ).
  - by apply (configured_patterns_are_split_at_commas
                (<[ "EXCLUDE_PATTERNS" := "" ]> sample_environ)).
Defined.
